(** * Character cards, chats and their full-text index

    A shallow embedding of [App_Function_Libraries/DB/Character_Chat_DB.py]:
    the SQLite schema the module creates, the statements it executes on it,
    and the Python functions around them.

    Conventions of the model.
    - A Python [str] is a [string]; its characters are read as the code
      points U+0000 to U+00FF.
    - A Python value of type [Any] is a [pyval]; a [dict] keeps its keys in
      insertion order.  There are no floats: [json.loads] is modelled on
      the texts that hold none.
    - [bind] is written for the Python ints of SQLite's 64-bit range;
      outside it [sqlite3] raises OverflowError before the statement runs.
      A property of a call that binds an int of its caller is stated for
      [int64] ints wherever its result depends on that.
    - Of the engine's limits the depth of an expression is modelled
      ([max_expr_depth]); the length of a statement and the number of its
      parameters are not.
    - A SELECT without ORDER BY returns its rows in the order of the table;
      SQLite may read them through an index, so the order is stated only
      where the statement fixes it.
    - An exception is a value of [exn]; a function that may raise returns
      an [outcome]. *)

From Stdlib Require Import ZArith List String Ascii Bool Lia DecimalString.
From Stdlib Require Import Permutation.
From Stdlib Require DecimalZ DecimalPos DecimalN DecimalFacts.
Import ListNotations.
Set Warnings "-register-all".
Local Open Scope string_scope.
Local Open Scope list_scope.
Local Open Scope Z_scope.

Local Infix "+++" := String.append (at level 60, right associativity).

(* ================================================================== *)
(** ** Python strings *)
(* ================================================================== *)

Module Str.

(** [str.isspace] on the code points below 256. *)
Definition isspace (c : ascii) : bool :=
  let n := Z.of_N (N_of_ascii c) in
  ((9 <=? n) && (n <=? 13)) || ((28 <=? n) && (n <=? 32))
  || (n =? 133) || (n =? 160).

Fixpoint lstrip (s : string) : string :=
  match s with
  | EmptyString => EmptyString
  | String c rest => if isspace c then lstrip rest else s
  end.

Fixpoint rstrip (s : string) : string :=
  match s with
  | EmptyString => EmptyString
  | String c rest =>
      match rstrip rest with
      | EmptyString => if isspace c then EmptyString else String c EmptyString
      | r => String c r
      end
  end.

(** [s.strip()] *)
Definition strip (s : string) : string := rstrip (lstrip s).

Definition lower_char (c : ascii) : ascii :=
  let n := Z.of_N (N_of_ascii c) in
  if ((65 <=? n) && (n <=? 90))
     || ((192 <=? n) && (n <=? 222) && negb (n =? 215))
  then ascii_of_N (Z.to_N (n + 32))
  else c.

(** [s.lower()] *)
Fixpoint lower (s : string) : string :=
  match s with
  | EmptyString => EmptyString
  | String c rest => String (lower_char c) (lower rest)
  end.

(** [str(n)] for an integer. *)
Definition of_Z (z : Z) : string := NilZero.string_of_int (Z.to_int z).

(** [sep.join(parts)] *)
Definition join (sep : string) (parts : list string) : string :=
  String.concat sep parts.

(** Every character of [s] is white space (so is the empty string). *)
Definition blank (s : string) : bool :=
  forallb isspace (list_ascii_of_string s).

End Str.

(* ================================================================== *)
(** ** Python values *)
(* ================================================================== *)

Inductive pyval : Type :=
| PyNone
| PyBool (b : bool)
| PyInt (n : Z)
| PyStr (s : string)
| PyBytes (b : string)
| PyList (items : list pyval)
| PyTuple (items : list pyval)
| PyDict (entries : list (string * pyval)).

Definition pydict := list (string * pyval).

(** [isinstance(v, dict)] *)
Definition isinstance_dict (v : pyval) : bool :=
  match v with PyDict _ => true | _ => false end.

(** [isinstance(v, int)]: [bool] is a subclass of [int]. *)
Definition isinstance_int (v : pyval) : bool :=
  match v with PyInt _ | PyBool _ => true | _ => false end.

Module Dict.

(** [k in d] *)
Fixpoint contains (d : pydict) (k : string) : bool :=
  match d with
  | [] => false
  | (k', _) :: rest => (k' =? k)%string || contains rest k
  end.

(** [d[k]], [None] standing for [KeyError] *)
Fixpoint lookup (d : pydict) (k : string) : option pyval :=
  match d with
  | [] => None
  | (k', v) :: rest => if (k' =? k)%string then Some v else lookup rest k
  end.

(** [d.get(k, default)] *)
Definition get (d : pydict) (k : string) (default : pyval) : pyval :=
  match lookup d k with Some v => v | None => default end.

(** [d[k] = v] *)
Fixpoint set (d : pydict) (k : string) (v : pyval) : pydict :=
  match d with
  | [] => [(k, v)]
  | (k', v') :: rest =>
      if (k' =? k)%string then (k, v) :: rest else (k', v') :: set rest k v
  end.

End Dict.

(** Induction on values that reaches the items of lists and the values of
    dictionaries. *)

Section Induction.

Variable P : pyval -> Prop.
Hypothesis HNone : P PyNone.
Hypothesis HBool : forall b, P (PyBool b).
Hypothesis HInt : forall n, P (PyInt n).
Hypothesis HStr : forall s, P (PyStr s).
Hypothesis HBytes : forall b, P (PyBytes b).
Hypothesis HList : forall l, Forall P l -> P (PyList l).
Hypothesis HTuple : forall l, Forall P l -> P (PyTuple l).
Hypothesis HDict : forall d, Forall (fun kv => P (snd kv)) d -> P (PyDict d).

Fixpoint pyval_nested_ind (v : pyval) : P v :=
  match v with
  | PyNone => HNone
  | PyBool b => HBool b
  | PyInt n => HInt n
  | PyStr s => HStr s
  | PyBytes b => HBytes b
  | PyList l =>
      HList l ((fix items (l : list pyval) : Forall P l :=
                  match l with
                  | [] => Forall_nil P
                  | x :: rest => Forall_cons x (pyval_nested_ind x) (items rest)
                  end) l)
  | PyTuple l =>
      HTuple l ((fix items (l : list pyval) : Forall P l :=
                   match l with
                   | [] => Forall_nil P
                   | x :: rest => Forall_cons x (pyval_nested_ind x) (items rest)
                   end) l)
  | PyDict d =>
      HDict d ((fix entries (d : pydict) : Forall (fun kv => P (snd kv)) d :=
                  match d with
                  | [] => Forall_nil _
                  | kv :: rest =>
                      Forall_cons kv (pyval_nested_ind (snd kv)) (entries rest)
                  end) d)
  end.

End Induction.

(* ================================================================== *)
(** ** Exceptions *)
(* ================================================================== *)

(** The exception classes the module can meet.  The first four are
    [sqlite3.DatabaseError] and subclasses of [sqlite3.Error]; all are
    subclasses of [Exception]. *)
Inductive exn : Type :=
| DatabaseError (msg : string)
| IntegrityError (msg : string)
| OperationalError (msg : string)
| ProgrammingError (msg : string)
| KeyError (key : string)
| TypeError (msg : string)
| ValueError (msg : string).

Definition is_IntegrityError (e : exn) : bool :=
  match e with IntegrityError _ => true | _ => false end.

Definition is_sqlite3_Error (e : exn) : bool :=
  match e with
  | DatabaseError _ | IntegrityError _ | OperationalError _ | ProgrammingError _ => true
  | KeyError _ | TypeError _ | ValueError _ => false
  end.

Definition is_Exception (e : exn) : bool := true.

Inductive outcome (A : Type) : Type :=
| Returns (a : A)
| Raises (e : exn).
Arguments Returns {A} a.
Arguments Raises {A} e.

(* ================================================================== *)
(** ** json.dumps *)
(* ================================================================== *)

Module Json.

Definition dquote : ascii := "034"%char.
Definition backslash : ascii := "092"%char.

Definition hex_digit (n : Z) : ascii :=
  if n <? 10 then ascii_of_N (Z.to_N (48 + n)) else ascii_of_N (Z.to_N (87 + n)).

(** [\u00XX] *)
Definition unicode_escape (n : Z) : string :=
  String backslash
    (String "u" (String "0" (String "0"
      (String (hex_digit (n / 16)) (String (hex_digit (n mod 16)) EmptyString))))).

(** One character of a string under [ensure_ascii=True]. *)
Definition escape_char (c : ascii) : string :=
  let n := Z.of_N (N_of_ascii c) in
  if n =? 34 then String backslash (String dquote EmptyString)
  else if n =? 92 then String backslash (String backslash EmptyString)
  else if n =? 10 then String backslash "n"
  else if n =? 13 then String backslash "r"
  else if n =? 9 then String backslash "t"
  else if n =? 8 then String backslash "b"
  else if n =? 12 then String backslash "f"
  else if (n <? 32) || (126 <? n) then unicode_escape n
  else String c EmptyString.

Fixpoint escape (s : string) : string :=
  match s with
  | EmptyString => EmptyString
  | String c rest => escape_char c +++ escape rest
  end.

Definition quoted (s : string) : string :=
  String dquote (escape s +++ String dquote EmptyString).

(** Apply [f] to the items in order, stopping at the first exception. *)
Definition traverse {A B : Type} (f : A -> outcome B) : list A -> outcome (list B) :=
  fix go (l : list A) : outcome (list B) :=
    match l with
    | [] => Returns []
    | x :: rest =>
        match f x with
        | Raises e => Raises e
        | Returns y =>
            match go rest with
            | Raises e => Raises e
            | Returns ys => Returns (y :: ys)
            end
        end
    end.

(** [json.dumps(v)] with the default separators; [bytes] is not
    serializable. *)
Fixpoint dumps (v : pyval) : outcome string :=
  match v with
  | PyNone => Returns "null"
  | PyBool true => Returns "true"
  | PyBool false => Returns "false"
  | PyInt n => Returns (Str.of_Z n)
  | PyStr s => Returns (quoted s)
  | PyBytes _ => Raises (TypeError "Object of type bytes is not JSON serializable")
  | PyList l | PyTuple l =>
      match traverse dumps l with
      | Raises e => Raises e
      | Returns parts => Returns ("[" +++ Str.join ", " parts +++ "]")
      end
  | PyDict d =>
      match traverse (fun kv => match dumps (snd kv) with
                                | Raises e => Raises e
                                | Returns s => Returns (quoted (fst kv) +++ ": " +++ s)
                                end) d with
      | Raises e => Raises e
      | Returns parts => Returns ("{" +++ Str.join ", " parts +++ "}")
      end
  end.

(** *** json.loads *)

Definition code (c : ascii) : Z := Z.of_N (N_of_ascii c).
Definition chr (n : Z) : ascii := ascii_of_N (Z.to_N n).

Definition is_ws (c : ascii) : bool :=
  (code c =? 32) || (code c =? 9) || (code c =? 10) || (code c =? 13).

Fixpoint skip_ws (s : string) : string :=
  match s with
  | EmptyString => EmptyString
  | String c rest => if is_ws c then skip_ws rest else s
  end.

Definition hex_value (c : ascii) : option Z :=
  let n := code c in
  if (48 <=? n) && (n <=? 57) then Some (n - 48)
  else if (97 <=? n) && (n <=? 102) then Some (n - 87)
  else if (65 <=? n) && (n <=? 70) then Some (n - 55)
  else None.

(** [\uXXXX]; the model has the code points below 256 only. *)
Definition decode_unicode (s : string) : option (ascii * string) :=
  match s with
  | String a (String b (String c (String d rest))) =>
      match hex_value a, hex_value b, hex_value c, hex_value d with
      | Some x3, Some x2, Some x1, Some x0 =>
          let n := ((x3 * 16 + x2) * 16 + x1) * 16 + x0 in
          if n <? 256 then Some (chr n, rest) else None
      | _, _, _, _ => None
      end
  | _ => None
  end.

(** One character of a string literal, and what follows it. *)
Definition decode_char (s : string) : option (ascii * string) :=
  match s with
  | EmptyString => None
  | String c rest =>
      if code c =? 92 then
        match rest with
        | EmptyString => None
        | String e rest' =>
            let m := code e in
            if m =? 34 then Some (dquote, rest')
            else if m =? 92 then Some (backslash, rest')
            else if m =? 47 then Some (chr 47, rest')
            else if m =? 98 then Some (chr 8, rest')
            else if m =? 102 then Some (chr 12, rest')
            else if m =? 110 then Some (chr 10, rest')
            else if m =? 114 then Some (chr 13, rest')
            else if m =? 116 then Some (chr 9, rest')
            else if m =? 117 then decode_unicode rest'
            else None
        end
      else if code c <? 32 then None
      else Some (c, rest)
  end.

(** The rest of a string literal after its opening quote. *)
Fixpoint parse_string (fuel : nat) (s : string) : option (string * string) :=
  match fuel with
  | O => None
  | S fuel' =>
      match s with
      | EmptyString => None
      | String c rest =>
          if code c =? 34 then Some (EmptyString, rest)
          else
            match decode_char s with
            | None => None
            | Some (ch, rest') =>
                match parse_string fuel' rest' with
                | None => None
                | Some (str, rest'') => Some (String ch str, rest'')
                end
            end
      end
  end.

Definition is_digit (c : ascii) : bool := (48 <=? code c) && (code c <=? 57).

Fixpoint span_digits (s : string) : string * string :=
  match s with
  | EmptyString => (EmptyString, EmptyString)
  | String c rest =>
      if is_digit c
      then (String c (fst (span_digits rest)), snd (span_digits rest))
      else (EmptyString, s)
  end.

(** The digits of a number: a single 0, or digits that start with 1 to 9. *)
Definition number_digits (s : string) : string * string :=
  match s with
  | String c rest =>
      if code c =? 48 then (String c EmptyString, rest) else span_digits s
  | EmptyString => (EmptyString, EmptyString)
  end.

(** An integer; numbers with a fraction or an exponent are floats, which
    the model does not have. *)
Definition parse_int (s : string) : option (Z * string) :=
  match s with
  | EmptyString => None
  | String c rest =>
      let negative := code c =? 45 in
      let ds := number_digits (if negative then rest else s) in
      match NilZero.uint_of_string (fst ds) with
      | None => None
      | Some u =>
          Some (Z.of_int (if negative then Decimal.Neg u else Decimal.Pos u), snd ds)
      end
  end.

(** [value (, value)* ]], after the opening bracket of a list that is not
    empty. *)
Fixpoint parse_elements (value : string -> option (pyval * string)) (fuel : nat)
    (s : string) : option (list pyval * string) :=
  match fuel with
  | O => None
  | S fuel' =>
      match value s with
      | None => None
      | Some (v, rest) =>
          match skip_ws rest with
          | String c rest' =>
              if code c =? 44 then
                match parse_elements value fuel' rest' with
                | None => None
                | Some (vs, rest'') => Some (v :: vs, rest'')
                end
              else if code c =? 93 then Some ([v], rest')
              else None
          | EmptyString => None
          end
      end
  end.

(** [string : value (, string : value)* }], after the opening brace of a
    dictionary that is not empty. *)
Fixpoint parse_members (value : string -> option (pyval * string)) (fuel : nat)
    (s : string) : option (list (string * pyval) * string) :=
  match fuel with
  | O => None
  | S fuel' =>
      match skip_ws s with
      | String q after_quote =>
          if code q =? 34 then
            match parse_string (S (String.length after_quote)) after_quote with
            | None => None
            | Some (key, rest) =>
                match skip_ws rest with
                | String colon rest1 =>
                    if code colon =? 58 then
                      match value rest1 with
                      | None => None
                      | Some (v, rest2) =>
                          match skip_ws rest2 with
                          | String c rest3 =>
                              if code c =? 44 then
                                match parse_members value fuel' rest3 with
                                | None => None
                                | Some (kvs, rest4) => Some ((key, v) :: kvs, rest4)
                                end
                              else if code c =? 125 then Some ([(key, v)], rest3)
                              else None
                          | EmptyString => None
                          end
                      end
                    else None
                | EmptyString => None
                end
            end
          else None
      | EmptyString => None
      end
  end.

Fixpoint strip_prefix (prefix s : string) : option string :=
  match prefix, s with
  | EmptyString, _ => Some s
  | String a prefix', String b s' =>
      if Ascii.eqb a b then strip_prefix prefix' s' else None
  | String _ _, EmptyString => None
  end.

(** A value, after any white space, and what follows it. *)
Fixpoint parse_value (fuel : nat) (s : string) : option (pyval * string) :=
  match fuel with
  | O => None
  | S fuel' =>
      match skip_ws s with
      | EmptyString => None
      | String c rest =>
          if code c =? 34 then
            match parse_string (S (String.length rest)) rest with
            | None => None
            | Some (str, rest') => Some (PyStr str, rest')
            end
          else if code c =? 91 then
            match skip_ws rest with
            | String c' rest' =>
                if code c' =? 93 then Some (PyList [], rest')
                else
                  match parse_elements (parse_value fuel') fuel' rest with
                  | None => None
                  | Some (vs, rest'') => Some (PyList vs, rest'')
                  end
            | EmptyString => None
            end
          else if code c =? 123 then
            match skip_ws rest with
            | String c' rest' =>
                if code c' =? 125 then Some (PyDict [], rest')
                else
                  match parse_members (parse_value fuel') fuel' rest with
                  | None => None
                  | Some (kvs, rest'') =>
                      Some (PyDict (fold_left (fun d kv => Dict.set d (fst kv) (snd kv))
                                              kvs []), rest'')
                  end
            | EmptyString => None
            end
          else
            match strip_prefix "null" (String c rest),
                  strip_prefix "true" (String c rest),
                  strip_prefix "false" (String c rest) with
            | Some rest', _, _ => Some (PyNone, rest')
            | _, Some rest', _ => Some (PyBool true, rest')
            | _, _, Some rest' => Some (PyBool false, rest')
            | None, None, None =>
                match parse_int (String c rest) with
                | None => None
                | Some (n, rest') => Some (PyInt n, rest')
                end
            end
      end
  end.

(** [json.loads(s)]: one value and nothing but white space after it. *)
Definition loads (s : string) : outcome pyval :=
  match parse_value (S (String.length s)) s with
  | None => Raises (ValueError "JSONDecodeError")
  | Some (v, rest) =>
      match skip_ws rest with
      | EmptyString => Returns v
      | _ => Raises (ValueError "JSONDecodeError: Extra data")
      end
  end.

(** Fuel that is enough to parse the text of a value. *)
Fixpoint need (v : pyval) : nat :=
  match v with
  | PyList l | PyTuple l => S (Nat.max (List.length l) (list_max (map need l)))
  | PyDict d =>
      S (Nat.max (List.length d) (list_max (map (fun kv => need (snd kv)) d)))
  | _ => 1
  end.

Fixpoint distinct_keys (ks : list string) : bool :=
  match ks with
  | [] => true
  | k :: rest => negb (existsb (String.eqb k) rest) && distinct_keys rest
  end.

(** The values [json.loads] can return: no tuple, no bytes, and no key
    twice in a dictionary. *)
Fixpoint is_json (v : pyval) : bool :=
  match v with
  | PyNone | PyBool _ | PyInt _ | PyStr _ => true
  | PyBytes _ | PyTuple _ => false
  | PyList l => forallb is_json l
  | PyDict d => forallb (fun kv => is_json (snd kv)) d && distinct_keys (map fst d)
  end.

End Json.

(* ================================================================== *)
(** ** SQLite: values, schema, tables *)
(* ================================================================== *)

Inductive value : Type :=
| VNull
| VInt (z : Z)
| VText (s : string)
| VBlob (b : string).

Definition value_eqb (a b : value) : bool :=
  match a, b with
  | VNull, VNull => true
  | VInt x, VInt y => x =? y
  | VText x, VText y => (x =? y)%string
  | VBlob x, VBlob y => (x =? y)%string
  | _, _ => false
  end.

(** How the [sqlite3] module adapts a Python value bound to a [?].  An
    int is taken to fit SQLite's INTEGER (see [int64] below): for one that
    does not, [sqlite3] raises OverflowError instead. *)
Definition bind (v : pyval) : outcome value :=
  match v with
  | PyNone => Returns VNull
  | PyBool b => Returns (VInt (if b then 1 else 0))
  | PyInt n => Returns (VInt n)
  | PyStr s => Returns (VText s)
  | PyBytes b => Returns (VBlob b)
  | PyList _ => Raises (ProgrammingError "Error binding parameter: type 'list' is not supported")
  | PyTuple _ => Raises (ProgrammingError "Error binding parameter: type 'tuple' is not supported")
  | PyDict _ => Raises (ProgrammingError "Error binding parameter: type 'dict' is not supported")
  end.

Fixpoint bind_all (ps : list pyval) : outcome (list value) :=
  match ps with
  | [] => Returns []
  | p :: rest =>
      match bind p with
      | Raises e => Raises e
      | Returns v =>
          match bind_all rest with
          | Raises e => Raises e
          | Returns vs => Returns (v :: vs)
          end
      end
  end.

(** What a fetched column value is in Python. *)
Definition py_of_value (v : value) : pyval :=
  match v with
  | VNull => PyNone
  | VInt z => PyInt z
  | VText s => PyStr s
  | VBlob b => PyBytes b
  end.

Inductive affinity : Type := TEXT | INTEGER | NUMERIC | BLOB.

(** Column affinity on storing: an integer stored in a TEXT column becomes
    its decimal text.  The integer columns only ever receive Python ints. *)
Definition apply_affinity (a : affinity) (v : value) : value :=
  match a, v with
  | TEXT, VInt z => VText (Str.of_Z z)
  | _, _ => v
  end.

Inductive default : Type :=
| NO_DEFAULT
| AUTOINCREMENT
| CURRENT_TIMESTAMP
| DEFAULT (v : value).

Record column : Type := {
  col_name : string;
  col_affinity : affinity;
  col_notnull : bool;
  col_unique : bool;
  col_default : default
}.

Definition col (name : string) (a : affinity) : column :=
  {| col_name := name; col_affinity := a; col_notnull := false;
     col_unique := false; col_default := NO_DEFAULT |}.

Inductive table : Type := CharacterCards | CharacterChats | ChatKeywords.

(** The three CREATE TABLE statements of [initialize_database]. *)
Definition schema (t : table) : list column :=
  match t with
  | CharacterCards =>
      [ {| col_name := "id"; col_affinity := INTEGER; col_notnull := false;
           col_unique := true; col_default := AUTOINCREMENT |};
        {| col_name := "name"; col_affinity := TEXT; col_notnull := true;
           col_unique := true; col_default := NO_DEFAULT |};
        col "description" TEXT;
        col "personality" TEXT;
        col "scenario" TEXT;
        col "image" BLOB;
        col "post_history_instructions" TEXT;
        col "first_mes" TEXT;
        col "mes_example" TEXT;
        col "creator_notes" TEXT;
        col "system_prompt" TEXT;
        col "alternate_greetings" TEXT;
        col "tags" TEXT;
        col "creator" TEXT;
        col "character_version" TEXT;
        col "extensions" TEXT;
        {| col_name := "created_at"; col_affinity := NUMERIC; col_notnull := false;
           col_unique := false; col_default := CURRENT_TIMESTAMP |} ]
  | CharacterChats =>
      [ {| col_name := "id"; col_affinity := INTEGER; col_notnull := false;
           col_unique := true; col_default := AUTOINCREMENT |};
        {| col_name := "character_id"; col_affinity := INTEGER; col_notnull := true;
           col_unique := false; col_default := NO_DEFAULT |};
        col "conversation_name" TEXT;
        col "chat_history" TEXT;
        {| col_name := "is_snapshot"; col_affinity := NUMERIC; col_notnull := false;
           col_unique := false; col_default := DEFAULT (VInt 0) |};
        {| col_name := "created_at"; col_affinity := NUMERIC; col_notnull := false;
           col_unique := false; col_default := CURRENT_TIMESTAMP |} ]
  | ChatKeywords =>
      [ {| col_name := "chat_id"; col_affinity := INTEGER; col_notnull := true;
           col_unique := false; col_default := NO_DEFAULT |};
        {| col_name := "keyword"; col_affinity := TEXT; col_notnull := true;
           col_unique := false; col_default := NO_DEFAULT |} ]
  end.

Definition table_name (t : table) : string :=
  match t with
  | CharacterCards => "CharacterCards"
  | CharacterChats => "CharacterChats"
  | ChatKeywords => "ChatKeywords"
  end.

Definition columns (t : table) : list string := map col_name (schema t).

Definition find_column (t : table) (c : string) : option column :=
  find (fun k => (col_name k =? c)%string) (schema t).

(** A stored row: its columns by name, in the order of the schema. *)
Definition row := list (string * value).

Fixpoint row_get (r : row) (c : string) : value :=
  match r with
  | [] => VNull
  | (k, v) :: rest => if (k =? c)%string then v else row_get rest c
  end.

Fixpoint row_set (r : row) (c : string) (v : value) : row :=
  match r with
  | [] => []
  | (k, w) :: rest =>
      if (k =? c)%string then (k, v) :: rest else (k, w) :: row_set rest c v
  end.

Definition row_id (r : row) : value := row_get r "id".

(** One document handed to the full-text index: the rowid it was indexed
    under and the text of the two indexed columns. *)
Record fts_doc : Type := {
  doc_rowid : value;
  doc_conversation_name : value;
  doc_chat_history : value
}.

Definition fts_doc_eqb (a b : fts_doc) : bool :=
  value_eqb (doc_rowid a) (doc_rowid b)
  && value_eqb (doc_conversation_name a) (doc_conversation_name b)
  && value_eqb (doc_chat_history a) (doc_chat_history b).

(** What FTS5 counts of the documents it was given: their number, and the
    number of their tokens in each of the two columns. *)
Record fts_totals : Type := {
  total_rows : Z;
  total_conversation_name : Z;
  total_chat_history : Z
}.

(** The contents of the database file.  [CharacterChats_fts] is declared
    with [content='CharacterChats', content_rowid='id']: an external-content
    FTS5 table, which stores the terms of the documents it was given and no
    column values of its own. *)
Record database : Type := {
  rows_CharacterCards : list row;
  rows_CharacterChats : list row;
  rows_ChatKeywords : list row;
  CharacterChats_fts : list fts_doc;
  CharacterChats_fts_totals : fts_totals;
  seq_CharacterCards : Z;
  seq_CharacterChats : Z
}.

Definition empty_database : database :=
  {| rows_CharacterCards := []; rows_CharacterChats := []; rows_ChatKeywords := [];
     CharacterChats_fts := [];
     CharacterChats_fts_totals :=
       {| total_rows := 0; total_conversation_name := 0; total_chat_history := 0 |};
     seq_CharacterCards := 0; seq_CharacterChats := 0 |}.

Definition rows_of (t : table) (d : database) : list row :=
  match t with
  | CharacterCards => rows_CharacterCards d
  | CharacterChats => rows_CharacterChats d
  | ChatKeywords => rows_ChatKeywords d
  end.

Definition with_rows (t : table) (rs : list row) (d : database) : database :=
  match t with
  | CharacterCards =>
      {| rows_CharacterCards := rs; rows_CharacterChats := rows_CharacterChats d;
         rows_ChatKeywords := rows_ChatKeywords d; CharacterChats_fts := CharacterChats_fts d;
         CharacterChats_fts_totals := CharacterChats_fts_totals d;
         seq_CharacterCards := seq_CharacterCards d; seq_CharacterChats := seq_CharacterChats d |}
  | CharacterChats =>
      {| rows_CharacterCards := rows_CharacterCards d; rows_CharacterChats := rs;
         rows_ChatKeywords := rows_ChatKeywords d; CharacterChats_fts := CharacterChats_fts d;
         CharacterChats_fts_totals := CharacterChats_fts_totals d;
         seq_CharacterCards := seq_CharacterCards d; seq_CharacterChats := seq_CharacterChats d |}
  | ChatKeywords =>
      {| rows_CharacterCards := rows_CharacterCards d; rows_CharacterChats := rows_CharacterChats d;
         rows_ChatKeywords := rs; CharacterChats_fts := CharacterChats_fts d;
         CharacterChats_fts_totals := CharacterChats_fts_totals d;
         seq_CharacterCards := seq_CharacterCards d; seq_CharacterChats := seq_CharacterChats d |}
  end.

Definition with_fts (idx : list fts_doc) (d : database) : database :=
  {| rows_CharacterCards := rows_CharacterCards d; rows_CharacterChats := rows_CharacterChats d;
     rows_ChatKeywords := rows_ChatKeywords d; CharacterChats_fts := idx;
     CharacterChats_fts_totals := CharacterChats_fts_totals d;
     seq_CharacterCards := seq_CharacterCards d; seq_CharacterChats := seq_CharacterChats d |}.

Definition with_totals (t : fts_totals) (d : database) : database :=
  {| rows_CharacterCards := rows_CharacterCards d; rows_CharacterChats := rows_CharacterChats d;
     rows_ChatKeywords := rows_ChatKeywords d; CharacterChats_fts := CharacterChats_fts d;
     CharacterChats_fts_totals := t;
     seq_CharacterCards := seq_CharacterCards d; seq_CharacterChats := seq_CharacterChats d |}.

(** The row of [sqlite_sequence] for a table declared AUTOINCREMENT. *)
Definition seq_of (t : table) (d : database) : Z :=
  match t with
  | CharacterCards => seq_CharacterCards d
  | CharacterChats => seq_CharacterChats d
  | ChatKeywords => 0
  end.

Definition with_seq (t : table) (n : Z) (d : database) : database :=
  match t with
  | CharacterCards =>
      {| rows_CharacterCards := rows_CharacterCards d; rows_CharacterChats := rows_CharacterChats d;
         rows_ChatKeywords := rows_ChatKeywords d; CharacterChats_fts := CharacterChats_fts d;
         CharacterChats_fts_totals := CharacterChats_fts_totals d;
         seq_CharacterCards := n; seq_CharacterChats := seq_CharacterChats d |}
  | CharacterChats =>
      {| rows_CharacterCards := rows_CharacterCards d; rows_CharacterChats := rows_CharacterChats d;
         rows_ChatKeywords := rows_ChatKeywords d; CharacterChats_fts := CharacterChats_fts d;
         CharacterChats_fts_totals := CharacterChats_fts_totals d;
         seq_CharacterCards := seq_CharacterCards d; seq_CharacterChats := n |}
  | ChatKeywords => d
  end.

(* ================================================================== *)
(** ** SQLite: the full-text index and its triggers *)
(* ================================================================== *)

(** The index is modelled by the documents whose terms it holds, in the
    order they were added.  Because the table is an external-content table,
    a statement that reads or changes a row of [CharacterChats_fts] gets the
    row's column values from [CharacterChats]: a rowid that is not in
    [CharacterChats] is not a row of the index table, and the terms that
    FTS5 takes out of the index for a row are those of the values
    [CharacterChats] holds for it at that moment. *)
Definition fts5_content (chats : list row) (rowid : value) : option fts_doc :=
  match find (fun r => value_eqb (row_id r) rowid) chats with
  | Some r => Some {| doc_rowid := rowid;
                      doc_conversation_name := row_get r "conversation_name";
                      doc_chat_history := row_get r "chat_history" |}
  | None => None
  end.

(** The tokenizer of the table, FTS5's default [unicode61], on the code
    points below 256: a token is a run of letters and digits (the general
    categories L and N of Unicode) that is not part of a longer one. *)
Module Unicode61.

Definition token_char (c : ascii) : bool :=
  let n := Z.of_N (N_of_ascii c) in
  ((48 <=? n) && (n <=? 57)) || ((65 <=? n) && (n <=? 90)) || ((97 <=? n) && (n <=? 122))
  || (n =? 170) || (n =? 178) || (n =? 179) || (n =? 181) || (n =? 185) || (n =? 186)
  || ((188 <=? n) && (n <=? 190)) || ((192 <=? n) && (n <=? 214))
  || ((216 <=? n) && (n <=? 246)) || ((248 <=? n) && (n <=? 255)).

(** The number of tokens that start in [s], when the character before [s]
    is [inside] a token or not. *)
Fixpoint tokens_from (inside : bool) (s : string) : Z :=
  match s with
  | EmptyString => 0
  | String c rest =>
      if token_char c
      then (if inside then 0 else 1) + tokens_from true rest
      else tokens_from false rest
  end.

Definition tokens (s : string) : Z := tokens_from false s.

End Unicode61.

(** The number of tokens FTS5 counts for a column value (the module stores
    text or nothing there). *)
Definition fts5_size (v : value) : Z :=
  match v with
  | VNull => 0
  | VInt z => Unicode61.tokens (Str.of_Z z)
  | VText s => Unicode61.tokens s
  | VBlob b => Unicode61.tokens b
  end.

(** The totals after a document is added. *)
Definition totals_with (d : fts_doc) (t : fts_totals) : fts_totals :=
  {| total_rows := total_rows t + 1;
     total_conversation_name := total_conversation_name t + fts5_size (doc_conversation_name d);
     total_chat_history := total_chat_history t + fts5_size (doc_chat_history d) |}.

(** The totals after a document is taken out.  [None]: FTS5 has counted
    fewer tokens in a column than the document has there, or no document
    at all, and reports SQLITE_CORRUPT. *)
Definition totals_without (d : fts_doc) (t : fts_totals) : option fts_totals :=
  let cn := total_conversation_name t - fts5_size (doc_conversation_name d) in
  let ch := total_chat_history t - fts5_size (doc_chat_history d) in
  if (cn <? 0) || (ch <? 0) || (total_rows t <? 1)
  then None
  else Some {| total_rows := total_rows t - 1;
               total_conversation_name := cn; total_chat_history := ch |}.

(** [INSERT INTO CharacterChats_fts(rowid, conversation_name, chat_history)] *)
Definition fts5_insert (d : fts_doc) (idx : list fts_doc) : list fts_doc :=
  idx ++ [d].

Definition fts5_retract (d : fts_doc) (idx : list fts_doc) : list fts_doc :=
  filter (fun e => negb (fts_doc_eqb e d)) idx.

(** [DELETE FROM CharacterChats_fts WHERE rowid = ?].  CharacterChats has
    one row of a rowid, so when its AFTER DELETE trigger runs the row is
    gone, the index table has no row to delete and nothing happens to the
    index or to its totals.  (For a list with a second row of the rowid
    the documents equal to that row are taken out, and the totals are left
    alone.) *)
Definition fts5_delete (chats : list row) (rowid : value) (idx : list fts_doc)
  : list fts_doc :=
  match fts5_content chats rowid with
  | None => idx
  | Some d => fts5_retract d idx
  end.

(** [UPDATE CharacterChats_fts SET conversation_name = ?, chat_history = ?
     WHERE rowid = ?]: FTS5 takes the row out of the index and puts the new
    values in.  What it takes out is what it reads from [CharacterChats]
    for the rowid.  It first takes the tokens of that text off its totals,
    and fails ([None], "database disk image is malformed") when it has
    counted fewer.  In the index it takes out the entries of the terms of
    that text, whatever document they came from, and adds those of the new
    text: the terms of an older document that the new text does not have
    stay, which is what the list of documents stands for. *)
Definition fts5_update (chats : list row) (rowid cn ch : value)
    (idx : list fts_doc) (t : fts_totals) : option (list fts_doc * fts_totals) :=
  match fts5_content chats rowid with
  | None => Some (idx, t)
  | Some d =>
      match totals_without d t with
      | None => None
      | Some t' =>
          let new := {| doc_rowid := rowid; doc_conversation_name := cn;
                        doc_chat_history := ch |} in
          Some (fts5_insert new (fts5_retract d idx), totals_with new t')
      end
  end.

(** The documents indexed under one rowid. *)
Definition fts5_docs (idx : list fts_doc) (rowid : value) : list fts_doc :=
  filter (fun e => value_eqb (doc_rowid e) rowid) idx.

(** The three AFTER triggers of [initialize_database]; each runs on the
    database as the triggering row change left it. *)
Definition CharacterChats_ai (new : row) (d : database) : database :=
  let doc := {| doc_rowid := row_id new;
                doc_conversation_name := row_get new "conversation_name";
                doc_chat_history := row_get new "chat_history" |} in
  with_totals (totals_with doc (CharacterChats_fts_totals d))
              (with_fts (fts5_insert doc (CharacterChats_fts d)) d).

Definition CharacterChats_ad (old : row) (d : database) : database :=
  with_fts (fts5_delete (rows_CharacterChats d) (row_id old) (CharacterChats_fts d)) d.

Definition CharacterChats_au (new : row) (d : database) : outcome database :=
  match fts5_update (rows_CharacterChats d) (row_id new)
                    (row_get new "conversation_name") (row_get new "chat_history")
                    (CharacterChats_fts d) (CharacterChats_fts_totals d) with
  | None => Raises (DatabaseError "database disk image is malformed")
  | Some (idx, t) => Returns (with_totals t (with_fts idx d))
  end.

(** The AFTER UPDATE trigger, for each of the rows an UPDATE changed. *)
Fixpoint after_update (changed : list row) (d : database) : outcome database :=
  match changed with
  | [] => Returns d
  | r :: rest =>
      match CharacterChats_au r d with
      | Raises e => Raises e
      | Returns d' => after_update rest d'
      end
  end.

(** What the SQLite library does with text the module only passes on:
    full-text queries, the relevance order, and SQL assembled at run time. *)
Class Engine : Type := {
  (** A MATCH expression.  [None]: the expression is not well formed.
      Otherwise the test for one rowid, on the documents indexed under it. *)
  fts5_match : string -> option (list fts_doc -> bool);
  (** [ORDER BY rank]: whether the first rowid comes no later than the
      second, for a query on an index. *)
  fts5_before : string -> list fts_doc -> value -> value -> bool;
  (** The condition after WHERE in the statement of [search_db], with the
      value bound to its [?].  Outer [None]: the statement does not compile.
      Inner [None]: it fails when run.  Otherwise the test for one row of
      the join, given the index.  This reads the text as one condition on
      a row, which holds of the texts called [plain_texts] below; a text
      with a parenthesis, a comment or a [?] of its own can change the
      statement around it. *)
  sql_where : string -> option (value -> option (list fts_doc -> row -> bool))
}.

(* ================================================================== *)
(** ** SQLite: statements *)
(* ================================================================== *)

(** The statements of the module.  Every [?] of the SQL text is a
    parameter, given with the statement in the order of the text.  A WHERE
    clause is the list of the columns compared: [c1 = ? OR c2 = ? ...]. *)
Inductive statement : Type :=
| PRAGMA_foreign_keys_ON
| CREATE_IF_NOT_EXISTS (what : string)
| INSERT_INTO (t : table) (cols : list string)
| UPDATE_SET (t : table) (cols : list string) (where_ : list string)
| DELETE_FROM (t : table) (where_ : list string)
| SELECT_FROM (distinct : bool) (sel : list string) (t : table) (where_ : list string)
| SELECT_chats_MATCH (and_character_id : bool)
| SELECT_chats_WHERE (where_text : string).

Inductive event : Type :=
| Connect
| Execute (sql : statement) (params : list pyval)
| Commit
| Close.

Fixpoint assoc (c : string) (given : list (string * value)) : option value :=
  match given with
  | [] => None
  | (k, v) :: rest => if (k =? c)%string then Some v else assoc c rest
  end.

Definition column_affinity (t : table) (c : string) : affinity :=
  match find_column t c with Some k => col_affinity k | None => BLOB end.

(** [column = ?]: the column's affinity is applied to the parameter, and a
    NULL on either side is not equal to anything. *)
Definition sql_eq (a : affinity) (stored param : value) : bool :=
  match stored, param with
  | VNull, _ | _, VNull => false
  | _, _ => value_eqb stored (apply_affinity a param)
  end.

Definition where_matches (t : table) (where_ : list string) (ws : list value)
    (r : row) : bool :=
  match where_ with
  | [] => true
  | _ => existsb (fun cw => sql_eq (column_affinity t (fst cw)) (row_get r (fst cw)) (snd cw))
                 (combine where_ ws)
  end.

Definition unknown_column (t : table) (cs : list string) : option string :=
  find (fun c => match find_column t c with Some _ => false | None => true end) cs.

Definition max_rowid (rs : list row) : Z :=
  fold_right (fun r m => match row_id r with VInt z => Z.max z m | _ => m end) 0 rs.

(** AUTOINCREMENT: one more than the largest rowid the table ever held. *)
Definition next_rowid (t : table) (d : database) : Z :=
  Z.max (seq_of t d) (max_rowid (rows_of t d)) + 1.

Definition new_row (t : table) (clock : string) (given : list (string * value))
    (fresh : Z) : row :=
  map (fun k =>
         (col_name k,
          match assoc (col_name k) given, col_default k with
          | None, AUTOINCREMENT | Some VNull, AUTOINCREMENT => VInt fresh
          | Some v, _ => apply_affinity (col_affinity k) v
          | None, CURRENT_TIMESTAMP => VText clock
          | None, DEFAULT v => v
          | None, NO_DEFAULT => VNull
          end))
      (schema t).

Definition not_null_violation (t : table) (r : row) : option column :=
  find (fun k => col_notnull k && value_eqb (row_get r (col_name k)) VNull) (schema t).

Definition unique_violation (t : table) (existing : list row) (r : row)
  : option column :=
  find (fun k =>
          col_unique k
          && negb (value_eqb (row_get r (col_name k)) VNull)
          && existsb (fun e => value_eqb (row_get e (col_name k)) (row_get r (col_name k)))
                     existing)
       (schema t).

Definition parent_exists (parents : list row) (key : value) : bool :=
  match key with
  | VNull => true
  | _ => existsb (fun p => value_eqb (row_id p) key) parents
  end.

(** The two FOREIGN KEY clauses, as checked on a row of the child table. *)
Definition foreign_key_ok (t : table) (d : database) (r : row) : bool :=
  match t with
  | CharacterCards => true
  | CharacterChats => parent_exists (rows_CharacterCards d) (row_get r "character_id")
  | ChatKeywords => parent_exists (rows_CharacterChats d) (row_get r "chat_id")
  end.

(** INSERT of one row: defaults, constraints, foreign key (when the
    connection enforces them), then the AFTER INSERT trigger. *)
Definition insert (fk : bool) (clock : string) (t : table)
    (given : list (string * value)) (d : database) : outcome (database * value) :=
  let r := new_row t clock given (next_rowid t d) in
  match not_null_violation t r with
  | Some k =>
      Raises (IntegrityError
                ("NOT NULL constraint failed: " +++ table_name t +++ "." +++ col_name k))
  | None =>
      match unique_violation t (rows_of t d) r with
      | Some k =>
          Raises (IntegrityError
                    ("UNIQUE constraint failed: " +++ table_name t +++ "." +++ col_name k))
      | None =>
          if fk && negb (foreign_key_ok t d r)
          then Raises (IntegrityError "FOREIGN KEY constraint failed")
          else
            let d1 := with_rows t (rows_of t d ++ [r]) d in
            let d2 := match row_id r with
                      | VInt z => with_seq t (Z.max (seq_of t d) z) d1
                      | _ => d1
                      end in
            Returns (match t with
                     | CharacterChats => CharacterChats_ai r d2
                     | _ => d2
                     end, row_id r)
      end
  end.

Definition assign (t : table) (sets : list (string * value)) (r : row) : row :=
  fold_left (fun acc cv =>
               row_set acc (fst cv) (apply_affinity (column_affinity t (fst cv)) (snd cv)))
            sets r.

Fixpoint has_duplicate (vs : list value) : bool :=
  match vs with
  | [] => false
  | v :: rest => existsb (value_eqb v) rest || has_duplicate rest
  end.

(** A UNIQUE column among those assigned that holds one value twice. *)
Definition unique_broken (t : table) (cols : list string) (rs : list row)
  : option column :=
  find (fun k =>
          col_unique k && existsb (String.eqb (col_name k)) cols
          && has_duplicate
               (filter (fun v => negb (value_eqb v VNull))
                       (map (fun r => row_get r (col_name k)) rs)))
       (schema t).

(** UPDATE of the rows that satisfy [p]; the result carries the number of
    rows changed.  No UPDATE of the module assigns a key column, so foreign
    keys play no part here. *)
Definition update (t : table) (sets : list (string * value)) (p : row -> bool)
    (d : database) : outcome (database * Z) :=
  let changed := map (assign t sets) (filter p (rows_of t d)) in
  let rs := map (fun r => if p r then assign t sets r else r) (rows_of t d) in
  match find (fun r => match not_null_violation t r with Some _ => true | None => false end)
             changed with
  | Some r =>
      Raises (IntegrityError ("NOT NULL constraint failed: " +++ table_name t))
  | None =>
      match changed, unique_broken t (map fst sets) rs with
      | _ :: _, Some k =>
          Raises (IntegrityError
                    ("UNIQUE constraint failed: " +++ table_name t +++ "." +++ col_name k))
      | _, _ =>
          let d1 := with_rows t rs d in
          match match t with
                | CharacterChats => after_update changed d1
                | _ => Returns d1
                end with
          | Raises e => Raises e
          | Returns d2 => Returns (d2, Z.of_nat (List.length changed))
          end
      end
  end.

Definition delete_keywords (p : row -> bool) (d : database) : database :=
  with_rows ChatKeywords (filter (fun r => negb (p r)) (rows_ChatKeywords d)) d.

(** DELETE on CharacterChats: the AFTER DELETE trigger runs for each row
    removed, and with foreign keys enforced the keywords of the chat go
    with it (ON DELETE CASCADE).  Rowids are unique, so running the
    triggers after the last removal is the same as after each. *)
Definition delete_chats (fk : bool) (p : row -> bool) (d : database) : database :=
  let gone := filter p (rows_CharacterChats d) in
  let d1 := with_rows CharacterChats
              (filter (fun r => negb (p r)) (rows_CharacterChats d)) d in
  let d2 := fold_left (fun acc r => CharacterChats_ad r acc) gone d1 in
  if fk
  then delete_keywords
         (fun k => existsb (fun r => sql_eq INTEGER (row_get k "chat_id") (row_id r)) gone)
         d2
  else d2.

Definition delete_cards (fk : bool) (p : row -> bool) (d : database) : database :=
  let gone := filter p (rows_CharacterCards d) in
  let d1 := with_rows CharacterCards
              (filter (fun r => negb (p r)) (rows_CharacterCards d)) d in
  if fk
  then delete_chats fk
         (fun c => existsb (fun r => sql_eq INTEGER (row_get c "character_id") (row_id r)) gone)
         d1
  else d1.

(** DELETE of the rows that satisfy [p], with the number of rows the
    statement itself removed. *)
Definition delete (fk : bool) (t : table) (p : row -> bool) (d : database)
  : database * Z :=
  (match t with
   | CharacterCards => delete_cards fk p d
   | CharacterChats => delete_chats fk p d
   | ChatKeywords => delete_keywords p d
   end, Z.of_nat (List.length (filter p (rows_of t d)))).

Fixpoint tuple_eqb (a b : list value) : bool :=
  match a, b with
  | [], [] => true
  | x :: a', y :: b' => value_eqb x y && tuple_eqb a' b'
  | _, _ => false
  end.

(** SELECT DISTINCT: the first occurrence of each tuple is kept. *)
Fixpoint distinct (rs : list (list value)) : list (list value) :=
  match rs with
  | [] => []
  | r :: rest => r :: filter (fun x => negb (tuple_eqb x r)) (distinct rest)
  end.

(** SELECT ... FROM one table WHERE ..., in the order of the table. *)
Definition select (dist : bool) (sel : list string) (p : row -> bool)
    (rs : list row) : list (list value) :=
  let tuples := map (fun r => map (row_get r) sel) (filter p rs) in
  if dist then distinct tuples else tuples.

Fixpoint insert_by {A : Type} (before : A -> A -> bool) (x : A) (l : list A) : list A :=
  match l with
  | [] => [x]
  | y :: rest => if before x y then x :: l else y :: insert_by before x rest
  end.

(** ORDER BY, as a stable insertion sort. *)
Definition sort_by {A : Type} (before : A -> A -> bool) (l : list A) : list A :=
  fold_right (insert_by before) [] l.

(** LIMIT ? OFFSET ?: a negative limit is no limit, a negative offset is 0. *)
Definition limit_offset {A : Type} (limit offset : Z) (l : list A) : list A :=
  let rest := skipn (Z.to_nat offset) l in
  if limit <? 0 then rest else firstn (Z.to_nat limit) rest.

Definition indexed (idx : list fts_doc) (rowid : value) : bool :=
  existsb (fun e => value_eqb (doc_rowid e) rowid) idx.

Definition search_columns : list string := ["id"; "conversation_name"; "chat_history"].

Section Search.
Context {E : Engine}.

Definition ranked (q : string) (idx : list fts_doc) (rs : list row) : list row :=
  sort_by (fun a b => fts5_before q idx (row_id a) (row_id b)) rs.

(** [SELECT CharacterChats.id, CharacterChats.conversation_name,
     CharacterChats.chat_history FROM CharacterChats_fts JOIN CharacterChats
     ON CharacterChats_fts.rowid = CharacterChats.id
     WHERE CharacterChats_fts MATCH ? (AND CharacterChats.character_id = ?)
     ORDER BY rank]: the rows of CharacterChats whose id the index matches. *)
Definition select_chats_match (q : string) (character_id : option value)
    (d : database) : outcome (list row) :=
  match fts5_match q with
  | None => Raises (OperationalError "fts5: syntax error")
  | Some m =>
      let idx := CharacterChats_fts d in
      Returns
        (ranked q idx
           (filter (fun c =>
                      indexed idx (row_id c) && m (fts5_docs idx (row_id c))
                      && match character_id with
                         | None => true
                         | Some v => sql_eq INTEGER (row_get c "character_id") v
                         end)
                   (rows_CharacterChats d)))
  end.

(** The same SELECT with the condition of [search_db] after WHERE, before
    LIMIT and OFFSET are applied, for a text that is one condition on a
    row. *)
Definition select_chats_where (where_text : string) (q : value) (d : database)
  : outcome (list row) :=
  match sql_where where_text with
  | None => Raises (OperationalError "the statement does not compile")
  | Some run =>
      match run q with
      | None => Raises (OperationalError "the statement fails")
      | Some keep =>
          let idx := CharacterChats_fts d in
          Returns (sort_by (fun a b =>
                              fts5_before (match q with VText s => s | _ => EmptyString end)
                                          idx (row_id a) (row_id b))
                           (filter (keep idx) (rows_CharacterChats d)))
      end
  end.

End Search.

(* ================================================================== *)
(** ** sqlite3: connections and cursors *)
(* ================================================================== *)

(** What the process finds at [chat_DB_PATH]: the committed contents of the
    file, the value of CURRENT_TIMESTAMP, and a log of what was done to the
    file so far. *)
Record store : Type := {
  file : database;
  log : list event;
  clock : string
}.

(** A connection with its one cursor.  [working] is the file as the
    connection sees it, its own uncommitted changes included. *)
Record connection : Type := {
  committed : database;
  working : database;
  foreign_keys : bool;
  lastrowid : Z;
  rowcount : Z;
  description : list string;
  fetched : list (list value);
  trace : list event;
  now : string
}.

(** [sqlite3.connect(chat_DB_PATH)].  Foreign keys are off on every new
    connection; [PRAGMA foreign_keys = ON] turns them on for the connection
    that executes it and for no other. *)
Definition connect (s : store) : connection :=
  {| committed := file s; working := file s; foreign_keys := false;
     lastrowid := 0; rowcount := -1; description := []; fetched := [];
     trace := log s ++ [Connect]; now := clock s |}.

(** [conn.close()]: what was not committed is lost. *)
Definition close (c : connection) : store :=
  {| file := committed c; log := trace c ++ [Close]; clock := now c |}.

Definition record (e : event) (c : connection) : connection :=
  {| committed := committed c; working := working c; foreign_keys := foreign_keys c;
     lastrowid := lastrowid c; rowcount := rowcount c; description := description c;
     fetched := fetched c; trace := trace c ++ [e]; now := now c |}.

Definition enforce_foreign_keys (c : connection) : connection :=
  {| committed := committed c; working := working c; foreign_keys := true;
     lastrowid := lastrowid c; rowcount := rowcount c; description := description c;
     fetched := fetched c; trace := trace c; now := now c |}.

Definition after_write (d : database) (last count : Z) (c : connection) : connection :=
  {| committed := committed c; working := d; foreign_keys := foreign_keys c;
     lastrowid := last; rowcount := count; description := []; fetched := [];
     trace := trace c; now := now c |}.

Definition after_read (names : list string) (tuples : list (list value))
    (c : connection) : connection :=
  {| committed := committed c; working := working c; foreign_keys := foreign_keys c;
     lastrowid := lastrowid c; rowcount := -1; description := names; fetched := tuples;
     trace := trace c; now := now c |}.

Definition with_fetched (tuples : list (list value)) (c : connection) : connection :=
  {| committed := committed c; working := working c; foreign_keys := foreign_keys c;
     lastrowid := lastrowid c; rowcount := rowcount c; description := description c;
     fetched := tuples; trace := trace c; now := now c |}.

Definition write_file (c : connection) : connection :=
  {| committed := working c; working := working c; foreign_keys := foreign_keys c;
     lastrowid := lastrowid c; rowcount := rowcount c; description := description c;
     fetched := fetched c; trace := trace c; now := now c |}.

(** Code that runs on an open connection and may raise. *)
Definition M (A : Type) : Type := connection -> outcome A * connection.

Definition ret {A : Type} (a : A) : M A := fun c => (Returns a, c).

Definition raise {A : Type} (e : exn) : M A := fun c => (Raises e, c).

Definition bindM {A B : Type} (m : M A) (k : A -> M B) : M B :=
  fun c =>
    match m c with
    | (Returns a, c') => k a c'
    | (Raises e, c') => (Raises e, c')
    end.

Notation "x <- m ;; k" := (bindM m (fun x => k))
  (at level 100, m at next level, right associativity).
Notation "m ;;; k" := (bindM m (fun _ => k))
  (at level 100, right associativity).

Definition lift {A : Type} (o : outcome A) : M A := fun c => (o, c).

(** [try: body  except <classes>: handler] *)
Definition try_except {A : Type} (body : M A) (classes : exn -> bool)
    (handler : exn -> M A) : M A :=
  fun c =>
    match body c with
    | (Raises e, c') => if classes e then handler e c' else (Raises e, c')
    | r => r
    end.

Definition arity (sql : statement) : nat :=
  match sql with
  | PRAGMA_foreign_keys_ON => 0
  | CREATE_IF_NOT_EXISTS _ => 0
  | INSERT_INTO _ cols => List.length cols
  | UPDATE_SET _ cols where_ => List.length cols + List.length where_
  | DELETE_FROM _ where_ => List.length where_
  | SELECT_FROM _ _ _ where_ => List.length where_
  | SELECT_chats_MATCH and_character_id => if and_character_id then 2 else 1
  | SELECT_chats_WHERE _ => 3
  end.

(** SQLITE_MAX_EXPR_DEPTH: the parser refuses an expression of this depth,
    which a chain of as many conditions joined by OR has. *)
Definition max_expr_depth : nat := 1000.

(** Compiling a statement: the condition after WHERE must stay below the
    depth the parser accepts (of the module's statements only the SELECT of
    [fetch_keywords_for_chats] has a condition whose length the caller
    chooses), and every column the statement names must be a column of the
    table. *)
Definition prepare (sql : statement) : option exn :=
  match sql with
  | INSERT_INTO t cols =>
      match unknown_column t cols with
      | Some c => Some (OperationalError
                          ("table " +++ table_name t +++ " has no column named " +++ c))
      | None => None
      end
  | UPDATE_SET t cols where_ =>
      match unknown_column t (cols ++ where_) with
      | Some c => Some (OperationalError ("no such column: " +++ c))
      | None => None
      end
  | DELETE_FROM t where_ =>
      match unknown_column t where_ with
      | Some c => Some (OperationalError ("no such column: " +++ c))
      | None => None
      end
  | SELECT_FROM _ sel t where_ =>
      if (max_expr_depth <=? List.length where_)%nat
      then Some (OperationalError "Expression tree is too large (maximum depth 1000)")
      else
        match unknown_column t (sel ++ where_) with
        | Some c => Some (OperationalError ("no such column: " +++ c))
        | None => None
        end
  | _ => None
  end.

Definition project (sel : list string) (rs : list row) : list (list value) :=
  map (fun r => map (row_get r) sel) rs.

Section Execute.
Context {E : Engine}.

(** Running a compiled statement on its bound parameters. *)
Definition run (sql : statement) (vs : list value) (c : connection)
  : outcome unit * connection :=
  match sql with
  | PRAGMA_foreign_keys_ON => (Returns tt, enforce_foreign_keys c)
  | CREATE_IF_NOT_EXISTS _ => (Returns tt, c)
  | INSERT_INTO t cols =>
      match insert (foreign_keys c) (now c) t (combine cols vs) (working c) with
      | Raises e => (Raises e, c)
      | Returns (d, id) =>
          (Returns tt,
           after_write d (match id with VInt z => z | _ => lastrowid c end) 1 c)
      end
  | UPDATE_SET t cols where_ =>
      match update t (combine cols vs)
                   (where_matches t where_ (skipn (List.length cols) vs)) (working c) with
      | Raises e => (Raises e, c)
      | Returns (d, n) => (Returns tt, after_write d (lastrowid c) n c)
      end
  | DELETE_FROM t where_ =>
      let dn := delete (foreign_keys c) t (where_matches t where_ vs) (working c) in
      (Returns tt, after_write (fst dn) (lastrowid c) (snd dn) c)
  | SELECT_FROM dist sel t where_ =>
      (Returns tt,
       after_read sel (select dist sel (where_matches t where_ vs) (rows_of t (working c))) c)
  | SELECT_chats_MATCH and_character_id =>
      match vs with
      | VText q :: rest =>
          match select_chats_match q (if and_character_id then hd_error rest else None)
                                   (working c) with
          | Raises e => (Raises e, c)
          | Returns rs => (Returns tt, after_read search_columns (project search_columns rs) c)
          end
      | _ => (Raises (ProgrammingError "the query is not a str"), c)
      end
  | SELECT_chats_WHERE where_text =>
      match vs with
      | [q; VInt limit; VInt offset] =>
          match select_chats_where where_text q (working c) with
          | Raises e => (Raises e, c)
          | Returns rs =>
              (Returns tt,
               after_read search_columns
                 (limit_offset limit offset (project search_columns rs)) c)
          end
      | _ => (Raises (IntegrityError "datatype mismatch"), c)
      end
  end.

(** [cursor.execute(sql, params)]: compile, bind, run. *)
Definition execute (sql : statement) (params : list pyval) : M unit :=
  fun c0 =>
    let c := record (Execute sql params) c0 in
    match prepare sql with
    | Some e => (Raises e, c)
    | None =>
        if negb (Nat.eqb (List.length params) (arity sql))
        then (Raises (ProgrammingError "Incorrect number of bindings supplied"), c)
        else
          match bind_all params with
          | Raises e => (Raises e, c)
          | Returns vs => run sql vs c
          end
    end.

(** [cursor.executemany(sql, seq_of_params)] *)
Fixpoint executemany (sql : statement) (seq_of_params : list (list pyval)) : M unit :=
  match seq_of_params with
  | [] => ret tt
  | params :: rest => execute sql params ;;; executemany sql rest
  end.

End Execute.

(** [conn.commit()] *)
Definition commit : M unit :=
  fun c => (Returns tt, record Commit (write_file c)).

(** [cursor.fetchone()] *)
Definition fetchone : M (option (list value)) :=
  fun c =>
    match fetched c with
    | [] => (Returns None, c)
    | t :: rest => (Returns (Some t), with_fetched rest c)
    end.

(** [cursor.fetchall()] *)
Definition fetchall : M (list (list value)) :=
  fun c => (Returns (fetched c), with_fetched [] c).

Definition cursor_lastrowid : M Z := fun c => (Returns (lastrowid c), c).
Definition cursor_rowcount : M Z := fun c => (Returns (rowcount c), c).

(** [[d[0] for d in cursor.description]] *)
Definition cursor_columns : M (list string) := fun c => (Returns (description c), c).

(** A call of one of the module's functions. *)
Definition API (A : Type) : Type := store -> outcome A * store.

(** [conn = sqlite3.connect(chat_DB_PATH)] ... [finally: conn.close()] *)
Definition with_connection {A : Type} (body : M A) : API A :=
  fun s => let rc := body (connect s) in (fst rc, close (snd rc)).

(** [dict(zip(columns, row))] *)
Definition dict_zip (names : list string) (tuple : list value) : pydict :=
  combine names (map py_of_value tuple).

(* ================================================================== *)
(** ** The functions of Character_Chat_DB.py *)
(* ================================================================== *)

Section Functions.
Context {E : Engine}.

(** The module calls [setup_chat_database()] when it is imported, so every
    other function runs on a file that has the schema: the tables exist in
    every [database], and the CREATE ... IF NOT EXISTS statements change
    nothing in the model. *)
Definition initialize_database : API unit :=
  with_connection
    (execute PRAGMA_foreign_keys_ON [] ;;;
     execute (CREATE_IF_NOT_EXISTS "TABLE CharacterCards") [] ;;;
     execute (CREATE_IF_NOT_EXISTS "TABLE CharacterChats") [] ;;;
     execute (CREATE_IF_NOT_EXISTS "VIRTUAL TABLE CharacterChats_fts") [] ;;;
     execute (CREATE_IF_NOT_EXISTS "TRIGGER CharacterChats_ai, CharacterChats_ad, CharacterChats_au") [] ;;;
     execute (CREATE_IF_NOT_EXISTS "TABLE ChatKeywords") [] ;;;
     execute (CREATE_IF_NOT_EXISTS "INDEX idx_chatkeywords_keyword") [] ;;;
     execute (CREATE_IF_NOT_EXISTS "INDEX idx_chatkeywords_chat_id") [] ;;;
     commit).

Definition dumps_field (card_data : pydict) (key : string) (default : pyval)
  : outcome pyval :=
  match Json.dumps (Dict.get card_data key default) with
  | Raises e => Raises e
  | Returns s => Returns (PyStr s)
  end.

Definition parse_character_card (card_data : pydict) : outcome pydict :=
  match dumps_field card_data "alternate_greetings" (PyList []) with
  | Raises e => Raises e
  | Returns alternate_greetings =>
  match dumps_field card_data "tags" (PyList []) with
  | Raises e => Raises e
  | Returns tags =>
  match dumps_field card_data "extensions" (PyDict []) with
  | Raises e => Raises e
  | Returns extensions =>
      let v2_data :=
        [ ("name", Dict.get card_data "name" (PyStr ""));
          ("description", Dict.get card_data "description" (PyStr ""));
          ("personality", Dict.get card_data "personality" (PyStr ""));
          ("scenario", Dict.get card_data "scenario" (PyStr ""));
          ("first_mes", Dict.get card_data "first_mes" (PyStr ""));
          ("mes_example", Dict.get card_data "mes_example" (PyStr ""));
          ("creator_notes", Dict.get card_data "creator_notes" (PyStr ""));
          ("system_prompt", Dict.get card_data "system_prompt" (PyStr ""));
          ("post_history_instructions",
             Dict.get card_data "post_history_instructions" (PyStr ""));
          ("alternate_greetings", alternate_greetings);
          ("tags", tags);
          ("creator", Dict.get card_data "creator" (PyStr ""));
          ("character_version", Dict.get card_data "character_version" (PyStr ""));
          ("extensions", extensions) ] in
      (* Handle 'image' separately as it might be binary data *)
      Returns (if Dict.contains card_data "image"
               then Dict.set v2_data "image" (Dict.get card_data "image" PyNone)
               else v2_data)
  end end end.

(** [(d[k1], d[k2], ...)]: the first missing key raises [KeyError]. *)
Fixpoint getitems (d : pydict) (keys : list string) : outcome (list pyval) :=
  match keys with
  | [] => Returns []
  | k :: rest =>
      match Dict.lookup d k with
      | None => Raises (KeyError k)
      | Some v =>
          match getitems d rest with
          | Raises e => Raises e
          | Returns vs => Returns (v :: vs)
          end
      end
  end.

Definition card_fields : list string :=
  [ "description"; "personality"; "scenario"; "image"; "post_history_instructions";
    "first_mes"; "mes_example"; "creator_notes"; "system_prompt";
    "alternate_greetings"; "tags"; "creator"; "character_version"; "extensions" ].

Definition add_character_card (card_data : pydict) : API pyval :=
  with_connection
    (try_except
       (parsed_card <- lift (parse_character_card card_data) ;;
        name <- lift (getitems parsed_card ["name"]) ;;
        (* Check if character already exists *)
        execute (SELECT_FROM false ["id"] CharacterCards ["name"]) name ;;;
        row <- fetchone ;;
        match row with
        | Some (character_id :: _) =>
            (* Update existing character *)
            params <- lift (getitems parsed_card card_fields) ;;
            execute (UPDATE_SET CharacterCards card_fields ["id"])
                    (params ++ [py_of_value character_id]) ;;;
            commit ;;;
            ret (py_of_value character_id)
        | _ =>
            (* Insert new character *)
            params <- lift (getitems parsed_card ("name" :: card_fields)) ;;
            execute (INSERT_INTO CharacterCards ("name" :: card_fields)) params ;;;
            character_id <- cursor_lastrowid ;;
            commit ;;;
            ret (PyInt character_id)
        end)
       is_Exception
       (fun _ => ret PyNone)).

Definition get_character_cards : API (list pydict) :=
  with_connection
    (execute (SELECT_FROM false (columns CharacterCards) CharacterCards []) [] ;;;
     rows <- fetchall ;;
     names <- cursor_columns ;;
     ret (map (dict_zip names) rows)).

Definition get_character_card_by_id (character_id : pyval) : API pyval :=
  with_connection
    (try_except
       (if isinstance_dict character_id then
          (* If a dictionary is passed, assume it's already a character card *)
          ret character_id
        else if isinstance_int character_id then
          execute (SELECT_FROM false (columns CharacterCards) CharacterCards ["id"])
                  [character_id] ;;;
          row <- fetchone ;;
          match row with
          | Some (v :: vs) =>
              names <- cursor_columns ;;
              ret (PyDict (dict_zip names (v :: vs)))
          | _ => ret PyNone
          end
        else
          ret PyNone)
       is_Exception
       (fun _ => ret PyNone)).

Definition update_character_card (character_id : Z) (card_data : pydict) : API bool :=
  with_connection
    (try_except
       (execute
          (UPDATE_SET CharacterCards
             [ "name"; "description"; "personality"; "scenario"; "image";
               "post_history_instructions"; "first_message" ]
             ["id"])
          [ Dict.get card_data "name" PyNone;
            Dict.get card_data "description" PyNone;
            Dict.get card_data "personality" PyNone;
            Dict.get card_data "scenario" PyNone;
            Dict.get card_data "image" PyNone;
            Dict.get card_data "post_history_instructions" (PyStr "");
            Dict.get card_data "first_message" (PyStr "Hello! I'm ready to chat.");
            PyInt character_id ] ;;;
        commit ;;;
        n <- cursor_rowcount ;;
        ret (0 <? n))
       is_IntegrityError
       (fun _ => ret false)).

Definition delete_character_card (character_id : Z) : API bool :=
  with_connection
    (try_except
       ((* Delete associated chats first due to foreign key constraint *)
        execute (DELETE_FROM CharacterChats ["character_id"]) [PyInt character_id] ;;;
        execute (DELETE_FROM CharacterCards ["id"]) [PyInt character_id] ;;;
        commit ;;;
        n <- cursor_rowcount ;;
        ret (0 <? n))
       is_sqlite3_Error
       (fun _ => ret false)).

(** A [List[Tuple[str, str]]] as a Python value. *)
Definition py_history (chat_history : list (string * string)) : pyval :=
  PyList (map (fun m => PyTuple [PyStr (fst m); PyStr (snd m)]) chat_history).

Definition add_character_chat (character_id : Z) (conversation_name : string)
    (chat_history : list (string * string)) (keywords : option (list string))
    (is_snapshot : bool) : API pyval :=
  with_connection
    (try_except
       (chat_history_json <- lift (Json.dumps (py_history chat_history)) ;;
        execute
          (INSERT_INTO CharacterChats
             ["character_id"; "conversation_name"; "chat_history"; "is_snapshot"])
          [ PyInt character_id; PyStr conversation_name; PyStr chat_history_json;
            PyBool is_snapshot ] ;;;
        chat_id <- cursor_lastrowid ;;
        match keywords with
        | Some (k :: ks) =>
            (* Insert keywords into ChatKeywords table *)
            executemany (INSERT_INTO ChatKeywords ["chat_id"; "keyword"])
              (map (fun keyword => [PyInt chat_id; PyStr (Str.lower (Str.strip keyword))])
                   (k :: ks))
        | _ => ret tt
        end ;;;
        commit ;;;
        ret (PyInt chat_id))
       is_sqlite3_Error
       (fun _ => ret PyNone)).

Definition get_character_chats (character_id : option Z) : API (list pydict) :=
  with_connection
    (match character_id with
     | Some id =>
         execute (SELECT_FROM false (columns CharacterChats) CharacterChats ["character_id"])
                 [PyInt id]
     | None =>
         execute (SELECT_FROM false (columns CharacterChats) CharacterChats []) []
     end ;;;
     rows <- fetchall ;;
     names <- cursor_columns ;;
     ret (map (dict_zip names) rows)).

Definition found_message (n : nat) (query scope : string) : string :=
  "Found " +++ Str.of_Z (Z.of_nat n) +++ " chat(s) matching '" +++ query +++ "' " +++ scope.

Definition exn_message (e : exn) : string :=
  match e with
  | DatabaseError m | IntegrityError m | OperationalError m | ProgrammingError m
  | TypeError m | ValueError m => m
  | KeyError k => "'" +++ k +++ "'"
  end.

Definition search_character_chats (query : string) (character_id : option Z)
  : API (list pydict * string) :=
  fun s =>
    if (Str.strip query =? EmptyString)%string
    then (Returns ([], "Please enter a search query."), s)
    else
      with_connection
        (try_except
           (match character_id with
            | Some id =>
                (* Search with character_id filter *)
                execute (SELECT_chats_MATCH true) [PyStr query; PyInt id]
            | None =>
                (* Search without character_id filter *)
                execute (SELECT_chats_MATCH false) [PyStr query]
            end ;;;
            rows <- fetchall ;;
            names <- cursor_columns ;;
            let results := map (dict_zip names) rows in
            ret (results,
                 match character_id with
                 | Some _ =>
                     found_message (List.length results) query "for the selected character."
                 | None =>
                     found_message (List.length results) query "across all characters."
                 end))
           is_Exception
           (fun e => ret ([], "Error occurred during search: " +++ exn_message e)))
        s.

Definition update_character_chat (chat_id : Z) (chat_history : list (string * string))
  : API bool :=
  with_connection
    (try_except
       (chat_history_json <- lift (Json.dumps (py_history chat_history)) ;;
        execute (UPDATE_SET CharacterChats ["chat_history"] ["id"])
                [PyStr chat_history_json; PyInt chat_id] ;;;
        commit ;;;
        n <- cursor_rowcount ;;
        ret (0 <? n))
       is_sqlite3_Error
       (fun _ => ret false)).

Definition delete_character_chat (chat_id : Z) : API bool :=
  with_connection
    (try_except
       (execute (DELETE_FROM CharacterChats ["id"]) [PyInt chat_id] ;;;
        commit ;;;
        n <- cursor_rowcount ;;
        ret (0 <? n))
       is_sqlite3_Error
       (fun _ => ret false)).

Definition fetch_keywords_for_chats (keywords : list string) : API (list pyval) :=
  fun s =>
    match keywords with
    | [] => (Returns [], s)
    | _ =>
        with_connection
          (try_except
             ((* Construct the WHERE clause to search for each keyword *)
              execute
                (SELECT_FROM true ["chat_id"] ChatKeywords
                   (repeat "keyword" (List.length keywords)))
                (map PyStr keywords) ;;;
              rows <- fetchall ;;
              ret (map (fun row => py_of_value (hd VNull row)) rows))
             is_Exception
             (fun _ => ret []))
          s
    end.

Definition save_chat_history_to_character_db (character_id : Z)
    (conversation_name : string) (chat_history : list (string * string)) : API pyval :=
  add_character_chat character_id conversation_name chat_history None false.

(** The text after WHERE that [search_db] assembles. *)
Definition search_db_where (fields : list string) (where_clause : string) : string :=
  let match_query := Str.join " AND " fields +++ " MATCH ?" in
  if (where_clause =? EmptyString)%string
  then match_query
  else match_query +++ " AND (" +++ where_clause +++ ")".

Definition search_db (query : string) (fields : list string) (where_clause : string)
    (page results_per_page : Z) : API (list pydict) :=
  fun s =>
    if (Str.strip query =? EmptyString)%string
    then (Returns [], s)
    else
      with_connection
        (try_except
           (let offset := (page - 1) * results_per_page in
            execute (SELECT_chats_WHERE (search_db_where fields where_clause))
                    [PyStr query; PyInt results_per_page; PyInt offset] ;;;
            rows <- fetchall ;;
            names <- cursor_columns ;;
            ret (map (dict_zip names) rows))
           is_Exception
           (fun _ => ret []))
        s.

End Functions.

(* ================================================================== *)
(** ** The readers built on the functions above *)
(* ================================================================== *)

(** [d[k]] *)
Definition getitem (d : pydict) (k : string) : outcome pyval :=
  match Dict.lookup d k with
  | Some v => Returns v
  | None => Raises (KeyError k)
  end.

(** [v == z] for an int [z]. *)
Definition py_eq_int (v : pyval) (z : Z) : bool :=
  match v with
  | PyInt n => n =? z
  | PyBool b => (if b then 1 else 0) =? z
  | _ => false
  end.

(** [v in ids] for a list of ints. *)
Definition py_in (v : pyval) (ids : list Z) : bool := existsb (py_eq_int v) ids.

(** [[{"content": result['content'], "metadata": {"media_id": result['id']}}
      for result in fts_results if result['id'] in relevant_chat_ids]] *)
Fixpoint filtered_fts_results (fts_results : list pydict) (relevant_chat_ids : list Z)
  : outcome (list pydict) :=
  match fts_results with
  | [] => Returns []
  | result :: rest =>
      match getitem result "id" with
      | Raises e => Raises e
      | Returns id =>
          if py_in id relevant_chat_ids then
            match getitem result "content" with
            | Raises e => Raises e
            | Returns content =>
                match getitem result "id" with
                | Raises e => Raises e
                | Returns media_id =>
                    match filtered_fts_results rest relevant_chat_ids with
                    | Raises e => Raises e
                    | Returns more =>
                        Returns ([ ("content", content);
                                   ("metadata", PyDict [("media_id", media_id)]) ] :: more)
                    end
                end
            end
          else filtered_fts_results rest relevant_chat_ids
      end
  end.

(** [try: ... except Exception: return default], around a call that has
    closed its connection. *)
Definition except_Exception {A : Type} (default : A) (r : outcome A * store)
  : outcome A * store :=
  match fst r with
  | Raises e => (if is_Exception e then Returns default else Raises e, snd r)
  | Returns a => (Returns a, snd r)
  end.

(** [type(v).__name__] *)
Definition type_name (v : pyval) : string :=
  match v with
  | PyNone => "NoneType"
  | PyBool _ => "bool"
  | PyInt _ => "int"
  | PyStr _ => "str"
  | PyBytes _ => "bytes"
  | PyList _ => "list"
  | PyTuple _ => "tuple"
  | PyDict _ => "dict"
  end.

Section Readers.
Context {E : Engine}.

(** What [json.loads] makes of bytes before it parses them,
    [b.decode(json.detect_encoding(b), 'surrogatepass')]: the library's. *)
Variable decode : string -> outcome string.

(** [json.loads(x)] *)
Definition json_loads (x : pyval) : outcome pyval :=
  match x with
  | PyStr text => Json.loads text
  | PyBytes b =>
      match decode b with
      | Raises e => Raises e
      | Returns text => Json.loads text
      end
  | _ => Raises (TypeError ("the JSON object must be str, bytes or bytearray, not "
                            +++ type_name x))
  end.

(** The connection is closed before the row is looked at, and nothing is
    caught: what [json.loads] raises reaches the caller. *)
Definition get_character_chat_by_id (chat_id : Z) : API pyval :=
  fun s =>
    let r := with_connection
               (execute (SELECT_FROM false (columns CharacterChats) CharacterChats ["id"])
                        [PyInt chat_id] ;;;
                row <- fetchone ;;
                names <- cursor_columns ;;
                ret (row, names))
               s in
    match fst r with
    | Raises e => (Raises e, snd r)
    | Returns (Some (v :: vs), names) =>
        let chat := dict_zip names (v :: vs) in
        match getitem chat "chat_history" with
        | Raises e => (Raises e, snd r)
        | Returns text =>
            match json_loads text with
            | Raises e => (Raises e, snd r)
            | Returns chat_history =>
                (Returns (PyDict (Dict.set chat "chat_history" chat_history)), snd r)
            end
        end
    | Returns _ => (Returns PyNone, snd r)
    end.

Definition perform_full_text_search_chat (query : string) (relevant_chat_ids : list Z)
    (page results_per_page : Z) : API (list pydict) :=
  fun s =>
    (* Construct a WHERE clause to limit the search to relevant chat IDs *)
    let where_clause :=
      Str.join " OR " (map (fun chat_id => "media_id = " +++ Str.of_Z chat_id)
                           relevant_chat_ids) in
    let where_clause :=
      if (where_clause =? EmptyString)%string then "1" else where_clause in
    (* Perform full-text search using FTS5 *)
    let r := search_db query ["content"] where_clause page results_per_page s in
    match fst r with
    | Raises e => except_Exception [] (Raises e, snd r)
    | Returns fts_results =>
        except_Exception [] (filtered_fts_results fts_results relevant_chat_ids, snd r)
    end.

Definition fetch_all_chats : API (list pydict) :=
  fun s => except_Exception [] (get_character_chats None s).

End Readers.

(* ================================================================== *)
(** ** Utils.py: where the database file is *)
(* ================================================================== *)

(** [os.path] on POSIX. *)
Module Posixpath.

Definition is_sep (c : ascii) : bool := Ascii.eqb c "/".

(** ['/' in p] *)
Fixpoint has_sep (p : string) : bool :=
  match p with
  | EmptyString => false
  | String c rest => is_sep c || has_sep rest
  end.

(** What follows the last '/' of [p], when it has one. *)
Fixpoint after_last_sep (p : string) : option string :=
  match p with
  | EmptyString => None
  | String c rest =>
      match after_last_sep rest with
      | Some tail => Some tail
      | None => if is_sep c then Some rest else None
      end
  end.

(** [os.path.basename(p)]: [p[p.rfind('/') + 1:]] *)
Definition basename (p : string) : string :=
  match after_last_sep p with
  | Some tail => tail
  | None => p
  end.

Definition startswith_sep (p : string) : bool :=
  match p with
  | String c _ => is_sep c
  | EmptyString => false
  end.

Fixpoint endswith_sep (p : string) : bool :=
  match p with
  | EmptyString => false
  | String c EmptyString => is_sep c
  | String _ rest => endswith_sep rest
  end.

(** [os.path.join(a, b)] *)
Definition join (a b : string) : string :=
  if startswith_sep b then b
  else if (a =? EmptyString)%string || endswith_sep a then a +++ b
  else a +++ String "/" b.

End Posixpath.

Section Paths.

(** What [get_project_root()] finds from [__file__], and what
    [os.makedirs(path, exist_ok=True)] does: the environment's. *)
Variable project_root : string.
Variable makedirs : string -> outcome unit.

Definition get_database_dir : outcome string :=
  let db_dir := Posixpath.join project_root "Databases" in
  match makedirs db_dir with
  | Raises e => Raises e
  | Returns _ => Returns db_dir
  end.

Definition get_database_path (db_name : string) : outcome string :=
  (* Remove any directory traversal attempts *)
  let safe_db_name := Posixpath.basename db_name in
  match get_database_dir with
  | Raises e => Raises e
  | Returns dir => Returns (Posixpath.join dir safe_db_name)
  end.

End Paths.

(* ================================================================== *)
(** ** An engine to run examples with *)
(* ================================================================== *)

(** Enough of FTS5 to run the module on concrete data: ASCII letters and
    digits form terms, case is folded, and a query is a list of bare terms
    that must all occur under the rowid.  On such text and queries this is
    what FTS5 with its default tokenizer answers; every other query is
    refused. *)
Module Bareword.

Definition is_alnum (c : ascii) : bool :=
  let n := Z.of_N (N_of_ascii c) in
  ((48 <=? n) && (n <=? 57)) || ((65 <=? n) && (n <=? 90)) || ((97 <=? n) && (n <=? 122)).

Definition flush (cur : string) : list string :=
  match cur with EmptyString => [] | _ => [cur] end.

Fixpoint terms_from (cur s : string) : list string :=
  match s with
  | EmptyString => flush cur
  | String c rest =>
      if is_alnum c
      then terms_from (cur +++ String (Str.lower_char c) EmptyString) rest
      else flush cur ++ terms_from EmptyString rest
  end.

Definition terms (s : string) : list string := terms_from EmptyString s.

Definition terms_of_value (v : value) : list string :=
  match v with VText s => terms s | _ => [] end.

Definition doc_terms (d : fts_doc) : list string :=
  terms_of_value (doc_conversation_name d) ++ terms_of_value (doc_chat_history d).

Definition has_term (t : string) (docs : list fts_doc) : bool :=
  existsb (fun d => existsb (String.eqb t) (doc_terms d)) docs.

Definition well_formed (q : string) : bool :=
  forallb (fun c => is_alnum c || (Z.of_N (N_of_ascii c) =? 32)) (list_ascii_of_string q)
  && negb (Str.blank q)
  && forallb (fun c => negb ((65 <=? Z.of_N (N_of_ascii c)) && (Z.of_N (N_of_ascii c) <=? 90)))
             (list_ascii_of_string q).

Definition matcher (q : string) : option (list fts_doc -> bool) :=
  if well_formed q
  then Some (fun docs => forallb (fun t => has_term t docs) (terms q))
  else None.

Definition where_ (text : string) : option (value -> option (list fts_doc -> row -> bool)) :=
  if (text =? "CharacterChats_fts MATCH ?")%string
  then Some (fun q =>
               match q with
               | VText s =>
                   match matcher s with
                   | Some m =>
                       Some (fun idx r => indexed idx (row_id r) && m (fts5_docs idx (row_id r)))
                   | None => None
                   end
               | _ => None
               end)
  else None.

#[export] Instance engine : Engine :=
  {| fts5_match := matcher;
     fts5_before := fun _ _ _ _ => true;
     sql_where := where_ |}.

End Bareword.

(* ================================================================== *)
(** ** A small run *)
(* ================================================================== *)

Module Run.
Import Bareword.

Definition empty_store : store :=
  {| file := empty_database; log := []; clock := "2024-01-01 00:00:00" |}.

(** The file after the module is imported. *)
Definition s0 : store := snd (initialize_database empty_store).

Definition Ada : pydict := [("name", PyStr "Ada"); ("image", PyNone)].

(** ... after [add_character_card(Ada)] *)
Definition s1 : store := snd (add_character_card Ada s0).

(** ... after [add_character_chat(1, "intro", [("user","hi"),("Ada","hello")])] *)
Definition s2 : store :=
  snd (add_character_chat 1 "intro" [("user", "hi"); ("Ada", "hello")] None false s1).

(** ... after [update_character_chat(1, [("user","bye")])] *)
Definition s3 : store := snd (update_character_chat 1 [("user", "bye")] s2).

(** Seven chats of character 1 that say "hello". *)
Definition hello_chat (conversation_name : string) (s : store) : store :=
  snd (add_character_chat 1 conversation_name [("user", "hello")] None false s).

Definition s7 : store :=
  fold_right hello_chat s1 ["g"; "f"; "e"; "d"; "c"; "b"; "a"].

End Run.

(* ================================================================== *)
(** ** Vocabulary of the properties *)
(* ================================================================== *)

(** What a call hands back to its Python caller. *)
Definition py_rows (rs : list pydict) : pyval := PyList (map PyDict rs).

Definition py_search_character_chats (r : list pydict * string) : pyval :=
  PyTuple [py_rows (fst r); PyStr (snd r)].

Definition py_search_db (r : list pydict) : pyval := py_rows r.

Definition returned {A : Type} (to_py : A -> pyval) (o : outcome A) : option pyval :=
  match o with Returns a => Some (to_py a) | Raises _ => None end.

(** An empty result set together with a status string. *)
Definition empty_with_status (v : option pyval) : Prop :=
  exists status, v = Some (PyTuple [PyList []; PyStr status]).

(** No statement was executed between two states of the log. *)
Definition no_statement (before after : list event) : Prop :=
  exists added, after = before ++ added
                /\ forall sql params, ~ In (Execute sql params) added.

(** The index entry that mirrors a row of CharacterChats. *)
Definition shadow (c : row) : fts_doc :=
  {| doc_rowid := row_id c;
     doc_conversation_name := row_get c "conversation_name";
     doc_chat_history := row_get c "chat_history" |}.

(** The index holds one entry per chat, with the chat's present text. *)
Definition index_consistent (d : database) : Prop :=
  CharacterChats_fts d = map shadow (rows_CharacterChats d).

Section Scans.
Context {E : Engine}.

(** The chats a linear scan of CharacterChats finds for a query: those
    whose own conversation_name and chat_history satisfy it. *)
Definition linear_scan (q : string) (d : database) : list row :=
  match fts5_match q with
  | None => []
  | Some m => filter (fun c => m [shadow c]) (rows_CharacterChats d)
  end.

(** The chats matched through the index. *)
Definition index_scan (q : string) (d : database) : list row :=
  match select_chats_match q None d with
  | Returns rs => rs
  | Raises _ => []
  end.

(** The full match set of [search_db]: the rows its statement selects
    before LIMIT and OFFSET cut a page out of them. *)
Definition search_db_matches (query : string) (fields : list string)
    (where_clause : string) (d : database) : list pydict :=
  if (Str.strip query =? EmptyString)%string then []
  else
    match select_chats_where (search_db_where fields where_clause) (VText query) d with
    | Returns rs => map (dict_zip search_columns) (project search_columns rs)
    | Raises _ => []
    end.

Definition result {A : Type} (o : outcome (list A)) : list A :=
  match o with Returns l => l | Raises _ => [] end.

(** Requesting [count] pages one after the other, from page [first]. *)
Fixpoint search_db_pages (query : string) (fields : list string) (where_clause : string)
    (results_per_page first : Z) (count : nat) (s : store) : list (list pydict) :=
  match count with
  | O => []
  | S k =>
      let r := search_db query fields where_clause first results_per_page s in
      result (fst r)
      :: search_db_pages query fields where_clause results_per_page (first + 1) k (snd r)
  end.

(** The calls that can change the file, and the calls that read it. *)
Inductive call : Type :=
| Initialize_database
| Add_character_card (card_data : pydict)
| Update_character_card (character_id : Z) (card_data : pydict)
| Delete_character_card (character_id : Z)
| Add_character_chat (character_id : Z) (conversation_name : string)
    (chat_history : list (string * string)) (keywords : option (list string))
    (is_snapshot : bool)
| Update_character_chat (chat_id : Z) (chat_history : list (string * string))
| Delete_character_chat (chat_id : Z)
| Get_character_cards
| Get_character_card_by_id (character_id : pyval)
| Get_character_chats (character_id : option Z)
| Search_character_chats (query : string) (character_id : option Z)
| Fetch_keywords_for_chats (keywords : list string)
| Search_db (query : string) (fields : list string) (where_clause : string)
    (page results_per_page : Z).

Definition after (c : call) (s : store) : store :=
  match c with
  | Initialize_database => snd (initialize_database s)
  | Add_character_card d => snd (add_character_card d s)
  | Update_character_card i d => snd (update_character_card i d s)
  | Delete_character_card i => snd (delete_character_card i s)
  | Add_character_chat i n h k b => snd (add_character_chat i n h k b s)
  | Update_character_chat i h => snd (update_character_chat i h s)
  | Delete_character_chat i => snd (delete_character_chat i s)
  | Get_character_cards => snd (get_character_cards s)
  | Get_character_card_by_id v => snd (get_character_card_by_id v s)
  | Get_character_chats o => snd (get_character_chats o s)
  | Search_character_chats q o => snd (search_character_chats q o s)
  | Fetch_keywords_for_chats ks => snd (fetch_keywords_for_chats ks s)
  | Search_db q f w p n => snd (search_db q f w p n s)
  end.

(** The states of the file the module can bring about, starting from a
    new file at import, with the clock moving as it likes. *)
Inductive reachable : store -> Prop :=
| reachable_new (t : string) :
    reachable (snd (initialize_database
                      {| file := empty_database; log := []; clock := t |}))
| reachable_call (c : call) (s : store) :
    reachable s -> reachable (after c s)
| reachable_tick (t : string) (s : store) :
    reachable s -> reachable {| file := file s; log := log s; clock := t |}.

End Scans.

(** The number of pages of [size] rows that hold [n] rows. *)
Definition pages_needed (n size : nat) : nat := Nat.div (n + size - 1) size.

(** The rowids of CharacterChats are pairwise different. *)
Definition chat_ids_unique (d : database) : Prop :=
  NoDup (map row_id (rows_CharacterChats d)).

(** A property of the connection that a piece of code keeps. *)
Definition keeps {A : Type} (I : connection -> Prop) (m : M A) : Prop :=
  forall c, I c -> I (snd (m c)).

(** The row that [add_character_chat] inserts. *)
Definition new_chat (id character_id : Z) (conversation_name chat_history_json : string)
    (is_snapshot : bool) (clock : string) : row :=
  [ ("id", VInt id); ("character_id", VInt character_id);
    ("conversation_name", VText conversation_name);
    ("chat_history", VText chat_history_json);
    ("is_snapshot", VInt (if is_snapshot then 1 else 0));
    ("created_at", VText clock) ].

(** A property of the database holds of the file and of the connection's
    view of it. *)
Definition on_both (P : database -> Prop) (c : connection) : Prop :=
  P (committed c) /\ P (working c).

(** The statement assigns no rowid of CharacterChats. *)
Definition assigns_no_chat_id (sql : statement) : Prop :=
  match sql with
  | UPDATE_SET CharacterChats cols _ => ~ In "id" cols
  | _ => True
  end.

(** A property of the database that INSERT, UPDATE (of columns other than
    a chat's id) and DELETE keep. *)
Record preserved (P : database -> Prop) : Prop := {
  by_insert :
    forall fk clock t given d d' id,
      insert fk clock t given d = Returns (d', id) -> P d -> P d';
  by_update :
    forall t sets p d d' n,
      update t sets p d = Returns (d', n) ->
      (t = CharacterChats -> forall cv, In cv sets -> fst cv <> "id") ->
      P d -> P d';
  by_delete :
    forall fk t p d, P d -> P (fst (delete fk t p d))
}.

Definition ids_of (rs : list pydict) : list (option pyval) :=
  map (fun r => Dict.lookup r "id") rs.

(** The ids and the status of what [search_character_chats] returned. *)
Definition hits_and_status (o : outcome (list pydict * string))
  : option (list (option pyval) * string) :=
  match o with
  | Returns r => Some (ids_of (fst r), snd r)
  | Raises _ => None
  end.

(** One field of the card that [get_character_card_by_id] returned. *)
Definition card_field (o : outcome pyval) (key : string) : option pyval :=
  match o with
  | Returns (PyDict card) => Dict.lookup card key
  | _ => None
  end.

(** *** JSON texts *)

(** What may follow the text of a number: no digit. *)
Definition no_digit_ahead (s : string) : bool :=
  match s with
  | EmptyString => true
  | String c _ => negb (Json.is_digit c)
  end.

(** The characters a text written by [json.dumps] can start with. *)
Definition starts_value (c : ascii) : bool :=
  Json.is_digit c || existsb (Z.eqb (Json.code c)) [45; 34; 91; 123; 110; 116; 102].

(** The text of [v] followed by [rest] is read as [v], leaving [rest]. *)
Definition reads_back (v : pyval) : Prop :=
  forall (t rest : string) (fuel : nat),
    Json.dumps v = Returns t -> Json.is_json v = true ->
    (Json.need v <= fuel)%nat -> no_digit_ahead rest = true ->
    Json.parse_value fuel (t +++ rest) = Some (v, rest).

(** One entry of a dictionary, as [json.dumps] writes it. *)
Definition dumps_entry (kv : string * pyval) : outcome string :=
  match Json.dumps (snd kv) with
  | Raises e => Raises e
  | Returns s => Returns (Json.quoted (fst kv) +++ ": " +++ s)
  end.


(** *** What a statement can bind and a table can hold *)

(** A Python int that fits SQLite's INTEGER.  Binding an int outside this
    range to a [?] raises OverflowError in [sqlite3] before the statement
    runs; the properties of a call that binds an int of its caller are
    stated for the ints in the range. *)
Definition int64 (z : Z) : Prop :=
  -9223372036854775808 <= z <= 9223372036854775807.

(** The table has an id left for one more row. *)
Definition id_left (t : table) (d : database) : Prop :=
  next_rowid t d <= 9223372036854775807.

(** *** The texts [search_db] pastes into its statement *)

(** [search_db] writes its [fields] and its [where_clause] into the text of
    the statement.  The properties of its pages are stated for the texts
    that can only be read as a condition on one row: column names for the
    fields, and for the extra condition none, or comparisons of a column
    with an integer joined by OR, as [perform_full_text_search_chat] writes
    them for its chat ids. *)
Definition name_char (c : ascii) : bool :=
  let n := Z.of_N (N_of_ascii c) in
  ((48 <=? n) && (n <=? 57)) || ((65 <=? n) && (n <=? 90)) || ((97 <=? n) && (n <=? 122))
  || (n =? 95) || (n =? 46).

(** A column or table name, qualified or not. *)
Definition column_name (s : string) : bool :=
  negb (s =? EmptyString)%string && forallb name_char (list_ascii_of_string s).

(** [f"{column} = {n}"] *)
Definition comparison (cn : string * Z) : string :=
  fst cn +++ " = " +++ Str.of_Z (snd cn).

Definition disjunction (comparisons : list (string * Z)) : string :=
  Str.join " OR " (map comparison comparisons).

Definition plain_texts (fields : list string) (comparisons : list (string * Z)) : Prop :=
  forallb column_name fields = true
  /\ forallb (fun cn => column_name (fst cn)) comparisons = true.

(** The test the statement of [search_db] applies to a chat, when the
    statement compiles and runs. *)
Definition search_db_condition {E : Engine} (query : string) (fields : list string)
    (where_clause : string) : option (list fts_doc -> row -> bool) :=
  match sql_where (search_db_where fields where_clause) with
  | Some run_ => run_ (VText query)
  | None => None
  end.

(** The chats that pass a test, as the table holds them. *)
Definition chats_passing (keep : list fts_doc -> row -> bool) (d : database) : list row :=
  filter (keep (CharacterChats_fts d)) (rows_CharacterChats d).

(** The chat a search returns for a row of CharacterChats. *)
Definition search_row (r : row) : pydict :=
  dict_zip search_columns (map (row_get r) search_columns).

(** *** Rows, cards and chats of the further properties *)

(** The chat a row of CharacterChats is fetched as. *)
Definition chat_of_row (r : row) : pydict :=
  dict_zip (columns CharacterChats) (map (row_get r) (columns CharacterChats)).

(** The card a row of CharacterCards is fetched as. *)
Definition card_of_row (r : row) : pydict :=
  dict_zip (columns CharacterCards) (map (row_get r) (columns CharacterCards)).

(** A chat history as [json.loads] returns it: the pairs are lists. *)
Definition loaded_history (chat_history : list (string * string)) : pyval :=
  PyList (map (fun m => PyList [PyStr (fst m); PyStr (snd m)]) chat_history).

(** The number of tokens FTS5 counts for a chat history as it is stored. *)
Definition history_size (chat_history : list (string * string)) : Z :=
  match Json.dumps (py_history chat_history) with
  | Returns text => fts5_size (VText text)
  | Raises _ => 0
  end.

(** The tokens FTS5 has counted in the histories it was given. *)
Definition counted_history (d : database) : Z :=
  total_chat_history (CharacterChats_fts_totals d).

(** The totals of the index are counts. *)
Definition totals_are_counts (d : database) : Prop :=
  0 <= total_rows (CharacterChats_fts_totals d)
  /\ 0 <= total_conversation_name (CharacterChats_fts_totals d)
  /\ 0 <= total_chat_history (CharacterChats_fts_totals d).

(** No chat has the id. *)
Definition no_chat (chat_id : Z) (d : database) : Prop :=
  forall r, In r (rows_CharacterChats d) -> row_id r <> VInt chat_id.

(** The row of ChatKeywords that [add_character_chat] inserts for a keyword. *)
Definition new_keyword (chat_id : Z) (keyword : string) : row :=
  [ ("chat_id", VInt chat_id); ("keyword", VText (Str.lower (Str.strip keyword))) ].

(** [keywords or []] *)
Definition given_keywords (keywords : option (list string)) : list string :=
  match keywords with Some ks => ks | None => [] end.




(** The chats [search_character_chats] returned. *)
Definition found_chats {E : Engine} (query : string) (character_id : option Z) (s : store)
  : list pydict :=
  match fst (search_character_chats query character_id s) with
  | Returns r => fst r
  | Raises _ => []
  end.

(** [card['id'] == character_id] *)
Definition has_id (character_id : Z) (card : pydict) : bool :=
  match Dict.lookup card "id" with
  | Some v => py_eq_int v character_id
  | None => false
  end.




(** ... after two chats are added to [Run.s1] with keywords: "maths" for
    the first, "Maths" and " engines " for the second. *)
Definition s_keywords : store :=
  snd (add_character_chat (E := Bareword.engine) 1 "second" [("user", "hi")]
         (Some ["Maths"; " engines "]) false
         (snd (add_character_chat (E := Bareword.engine) 1 "first" []
                 (Some ["maths"]) false Run.s1))).

(** The test of the example engine for the query "hello": the chat is in
    the index and a document indexed under its id has the term. *)
Definition hello_test (idx : list fts_doc) (r : row) : bool :=
  indexed idx (row_id r)
  && forallb (fun t => Bareword.has_term t (fts5_docs idx (row_id r)))
             (Bareword.terms "hello").

(* ================================================================== *)
(** * Properties *)
(* ================================================================== *)

Ltac evaluate := repeat apply conj; vm_compute; reflexivity.

Example dumps_history :
  Json.dumps (py_history [("user", "hi")]) =
  Returns ("[[" +++ Json.quoted "user" +++ ", " +++ Json.quoted "hi" +++ "]]").
Proof. reflexivity. Qed.

(** ** JSON: [json.loads] reads back what [json.dumps] wrote *)

Lemma append_assoc (a b c : string) : (a +++ b) +++ c = a +++ (b +++ c).
Proof. induction a as [|x a IH]; simpl; [reflexivity | now rewrite IH]. Qed.

Lemma append_length (a b : string) :
  String.length (a +++ b) = (String.length a + String.length b)%nat.
Proof. induction a as [|x a IH]; simpl; [reflexivity | now rewrite IH]. Qed.

(** One escaped character is read back, and its text does not start with a quote. *)
Lemma decode_escape_char (c : ascii) (rest : string) :
  exists first tail,
    Json.escape_char c +++ rest = String first tail
    /\ (Json.code first =? 34) = false
    /\ Json.decode_char (String first tail) = Some (c, rest).
Proof.
  destruct c as [[] [] [] [] [] [] [] []];
    (eexists; eexists; split; [reflexivity | split; reflexivity]).
Qed.

Lemma escape_char_length (c : ascii) : (1 <= String.length (Json.escape_char c))%nat.
Proof. destruct c as [[] [] [] [] [] [] [] []]; vm_compute; lia. Qed.

Lemma parse_string_escape (s rest : string) : forall fuel : nat,
  (String.length (Json.escape s) < fuel)%nat ->
  Json.parse_string fuel (Json.escape s +++ String Json.dquote rest) = Some (s, rest).
Proof.
  induction s as [|c s IH]; intros fuel Hf.
  - destruct fuel as [|fuel]; [simpl in Hf; lia | reflexivity].
  - destruct fuel as [|fuel]; [lia |].
    cbn [Json.escape] in *. rewrite append_assoc.
    rewrite append_length in Hf. pose proof (escape_char_length c) as Hc.
    destruct (decode_escape_char c (Json.escape s +++ String Json.dquote rest))
      as (first & tail & -> & Hq & Hd).
    cbn [Json.parse_string]. rewrite Hq, Hd, IH by lia. reflexivity.
Qed.

(** *** Integers *)

Lemma span_digits_stop (rest : string) :
  no_digit_ahead rest = true -> Json.span_digits rest = (EmptyString, rest).
Proof.
  destruct rest as [|c rest]; simpl; [reflexivity |].
  destruct (Json.is_digit c); [discriminate | reflexivity].
Qed.

Lemma span_digits_uint (d : Decimal.uint) (rest : string) :
  no_digit_ahead rest = true ->
  Json.span_digits (NilEmpty.string_of_uint d +++ rest) = (NilEmpty.string_of_uint d, rest).
Proof.
  intros Hr. induction d; cbn [NilEmpty.string_of_uint String.append];
    [now apply span_digits_stop | ..];
    cbn [Json.span_digits];
    match goal with |- context [Json.is_digit ?c] =>
      change (Json.is_digit c) with true end;
    cbv iota; rewrite IHd; reflexivity.
Qed.

Lemma to_uint_normal (p : positive) : Decimal.unorm (Pos.to_uint p) = Pos.to_uint p.
Proof.
  rewrite <- (DecimalN.Unsigned.to_of (Pos.to_uint p)).
  unfold N.of_uint. rewrite DecimalPos.Unsigned.of_to. reflexivity.
Qed.

Lemma to_uint_no_leading_zero (p : positive) (d : Decimal.uint) :
  Pos.to_uint p <> Decimal.D0 d.
Proof.
  intros H. pose proof (to_uint_normal p) as N.
  pose proof (DecimalPos.Unsigned.to_uint_nonzero p) as Z0.
  rewrite H in N, Z0. unfold Decimal.unorm in N. cbn [Decimal.nzhead] in N.
  destruct (Decimal.nzhead d) eqn:E; try discriminate N.
  - injection N as <-. now apply Z0.
  - now apply (DecimalFacts.nzhead_nonzero d u).
Qed.

Lemma number_digits_pos (p : positive) (rest : string) :
  no_digit_ahead rest = true ->
  Json.number_digits (NilZero.string_of_uint (Pos.to_uint p) +++ rest)
  = (NilZero.string_of_uint (Pos.to_uint p), rest).
Proof.
  intros Hr.
  pose proof (DecimalPos.Unsigned.to_uint_nonnil p) as N.
  pose proof (to_uint_no_leading_zero p) as L.
  pose proof (span_digits_uint (Pos.to_uint p) rest Hr) as S.
  destruct (Pos.to_uint p) as [|d|d|d|d|d|d|d|d|d|d];
    [now destruct N | now destruct (L d) | ..]; exact S.
Qed.

Lemma first_digit_pos (p : positive) :
  exists c tail, NilZero.string_of_uint (Pos.to_uint p) = String c tail
                 /\ Json.is_digit c = true.
Proof.
  pose proof (DecimalPos.Unsigned.to_uint_nonnil p) as N.
  destruct (Pos.to_uint p); [now destruct N | ..];
    (eexists; eexists; split; reflexivity).
Qed.

Lemma parse_int_of_Z (z : Z) (rest : string) :
  no_digit_ahead rest = true ->
  Json.parse_int (Str.of_Z z +++ rest) = Some (z, rest).
Proof.
  intros Hr. unfold Str.of_Z.
  pose proof (DecimalZ.of_to z) as Hz.
  destruct z as [|p|p]; [reflexivity | |]; cbn [Z.to_int NilZero.string_of_int] in *.
  - pose proof (number_digits_pos p rest Hr) as Hn.
    destruct (first_digit_pos p) as (c & tail & E & Hc).
    rewrite E in *. cbn [String.append] in *. unfold Json.parse_int.
    assert ((Json.code c =? 45) = false) as ->.
    { unfold Json.is_digit in Hc. apply andb_prop in Hc. lia. }
    rewrite Hn. cbn [fst snd]. rewrite <- E.
    rewrite NilZero.usu by apply DecimalPos.Unsigned.to_uint_nonnil.
    rewrite Hz. reflexivity.
  - pose proof (number_digits_pos p rest Hr) as Hn.
    cbn [String.append]. unfold Json.parse_int.
    change (Json.code "-" =? 45) with true. cbv iota. rewrite Hn. cbn [fst snd].
    rewrite NilZero.usu by apply DecimalPos.Unsigned.to_uint_nonnil.
    rewrite Hz. reflexivity.
Qed.

(** *** Values *)

Lemma dumps_first (v : pyval) (t : string) :
  Json.dumps v = Returns t ->
  exists c tail, t = String c tail /\ starts_value c = true.
Proof.
  destruct v as [ | [] | n | s | b | l | l | d]; cbn [Json.dumps]; intros H;
    try discriminate H.
  1-3, 5: injection H as <-; eexists; eexists; split; reflexivity.
  - injection H as <-. unfold Str.of_Z.
    destruct n as [|p|p]; cbn [Z.to_int NilZero.string_of_int].
    + eexists; eexists; split; reflexivity.
    + destruct (first_digit_pos p) as (c & tail & E & Hc).
      exists c, tail. split; [exact E |]. unfold starts_value. now rewrite Hc.
    + eexists; eexists; split; reflexivity.
  - destruct (Json.traverse Json.dumps l); [| discriminate H].
    injection H as <-. eexists; eexists; split; reflexivity.
  - destruct (Json.traverse Json.dumps l); [| discriminate H].
    injection H as <-. eexists; eexists; split; reflexivity.
  - match type of H with match ?X with _ => _ end = _ => destruct X end;
      [| discriminate H].
    injection H as <-. eexists; eexists; split; reflexivity.
Qed.

Lemma starts_value_tests (c : ascii) :
  starts_value c = true ->
  Json.is_ws c = false /\ (Json.code c =? 93) = false /\ (Json.code c =? 125) = false.
Proof.
  destruct c as [[] [] [] [] [] [] [] []]; vm_compute; intros H;
    try discriminate H; repeat split.
Qed.

Lemma parse_value_space (fuel : nat) (s : string) :
  Json.parse_value fuel (String " " s) = Json.parse_value fuel s.
Proof. destruct fuel; reflexivity. Qed.

Lemma parse_elements_space (value : string -> option (pyval * string))
    (Hv : forall s, value (String " " s) = value s) (fuel : nat) (s : string) :
  Json.parse_elements value fuel (String " " s) = Json.parse_elements value fuel s.
Proof. destruct fuel; [reflexivity |]. cbn [Json.parse_elements]. now rewrite Hv. Qed.

Lemma parse_members_space (value : string -> option (pyval * string))
    (fuel : nat) (s : string) :
  Json.parse_members value fuel (String " " s) = Json.parse_members value fuel s.
Proof. destruct fuel; reflexivity. Qed.

Lemma traverse_length {A B : Type} (f : A -> outcome B) (l : list A) :
  forall parts, Json.traverse f l = Returns parts -> List.length parts = List.length l.
Proof.
  induction l as [|x l IH]; cbn [Json.traverse]; intros parts H.
  - now injection H as <-.
  - destruct (f x); [| discriminate H].
    destruct (Json.traverse f l) as [ys|]; [| discriminate H].
    injection H as <-. cbn. now rewrite (IH ys).
Qed.

Lemma quoted_append (k rest : string) :
  Json.quoted k +++ rest = String Json.dquote (Json.escape k +++ String Json.dquote rest).
Proof. unfold Json.quoted. cbn [String.append]. now rewrite append_assoc. Qed.

Lemma parse_elements_dumps (l : list pyval) :
  Forall reads_back l ->
  forall (parts : list string) (rest : string) (fv fe : nat),
    l <> [] -> Json.traverse Json.dumps l = Returns parts ->
    forallb Json.is_json l = true ->
    (list_max (map Json.need l) <= fv)%nat -> (List.length l <= fe)%nat ->
    Json.parse_elements (Json.parse_value fv) fe
      (Str.join ", " parts +++ String "]" rest) = Some (l, rest).
Proof.
  induction 1 as [|x l Hx Hl IH]; intros parts rest fv fe Hne Ht Hj Hfv Hfe;
    [now destruct Hne |].
  cbn [Json.traverse] in Ht. destruct (Json.dumps x) as [p|] eqn:Ex; [| discriminate Ht].
  destruct (Json.traverse Json.dumps l) as [ps|] eqn:El; [| discriminate Ht].
  injection Ht as <-. cbn [forallb] in Hj. apply andb_prop in Hj as [Hjx Hjl].
  cbn [map list_max fold_right] in Hfv. fold (list_max (map Json.need l)) in Hfv.
  destruct fe as [|fe]; [cbn in Hfe; lia |]. cbn [List.length] in Hfe.
  pose proof (traverse_length _ _ _ El) as Len.
  destruct l as [|y l].
  - destruct ps; [| discriminate Len]. unfold Str.join. cbn [String.concat Json.parse_elements].
    rewrite (Hx p (String "]" rest) fv Ex Hjx) by (try reflexivity; lia).
    reflexivity.
  - destruct ps as [|q qs]; [discriminate Len |]. unfold Str.join in *.
    change (String.concat ", " (p :: q :: qs))
      with (p +++ String "," (String " " (String.concat ", " (q :: qs)))).
    rewrite append_assoc. cbn [String.append Json.parse_elements].
    rewrite (Hx p _ fv Ex Hjx) by (try reflexivity; lia).
    cbn [Json.skip_ws]. change (Json.is_ws ",") with false. cbv iota.
    change (Json.code "," =? 44) with true. cbv iota.
    rewrite parse_elements_space by apply parse_value_space.
    rewrite (IH (q :: qs) rest fv fe) by (try discriminate; try reflexivity; try assumption; lia).
    reflexivity.
Qed.

Lemma parse_members_dumps (d : pydict) :
  Forall (fun kv => reads_back (snd kv)) d ->
  forall (parts : list string) (rest : string) (fv fe : nat),
    d <> [] -> Json.traverse dumps_entry d = Returns parts ->
    forallb (fun kv => Json.is_json (snd kv)) d = true ->
    (list_max (map (fun kv => Json.need (snd kv)) d) <= fv)%nat ->
    (List.length d <= fe)%nat ->
    Json.parse_members (Json.parse_value fv) fe
      (Str.join ", " parts +++ String "}" rest) = Some (d, rest).
Proof.
  induction 1 as [|[k x] d Hx Hd IH]; intros parts rest fv fe Hne Ht Hj Hfv Hfe;
    [now destruct Hne |].
  cbn [Json.traverse] in Ht.
  destruct (dumps_entry (k, x)) as [e|] eqn:Ee; [| discriminate Ht].
  destruct (Json.traverse dumps_entry d) as [ps|] eqn:El; [| discriminate Ht].
  injection Ht as <-.
  assert (exists p, Json.dumps x = Returns p /\ e = Json.quoted k +++ ": " +++ p)
    as (p & Ex & He).
  { unfold dumps_entry in Ee. cbn [fst snd] in Ee.
    destruct (Json.dumps x) as [p|]; [| discriminate Ee].
    injection Ee as <-. now exists p. }
  cbn [forallb fst snd] in Hj, Hx. apply andb_prop in Hj as [Hjx Hjl].
  cbn [map list_max fold_right snd] in Hfv.
  fold (list_max (map (fun kv => Json.need (snd kv)) d)) in Hfv.
  destruct fe as [|fe]; [cbn in Hfe; lia |]. cbn [List.length] in Hfe.
  pose proof (traverse_length _ _ _ El) as Len.
  assert (forall R, no_digit_ahead R = true ->
            Json.parse_members (Json.parse_value fv) (S fe) (e +++ R)
            = match Json.skip_ws R with
              | String c rest3 =>
                  if Json.code c =? 44 then
                    match Json.parse_members (Json.parse_value fv) fe rest3 with
                    | None => None
                    | Some (kvs, rest4) => Some ((k, x) :: kvs, rest4)
                    end
                  else if Json.code c =? 125 then Some ([(k, x)], rest3)
                  else None
              | EmptyString => None
              end) as Step.
  { intros R HR. rewrite He, append_assoc, quoted_append. cbn [String.append].
    cbn [Json.parse_members Json.skip_ws]. change (Json.is_ws Json.dquote) with false.
    cbv iota. change (Json.code Json.dquote =? 34) with true. cbv iota.
    rewrite parse_string_escape by (rewrite append_length; cbn [String.length]; lia).
    cbn [Json.skip_ws]. change (Json.is_ws ":") with false. cbv iota.
    change (Json.code ":" =? 58) with true. cbv iota.
    rewrite parse_value_space. rewrite (Hx p R fv Ex Hjx) by (try assumption; lia).
    reflexivity. }
  clear He. destruct d as [|y d].
  - destruct ps; [| discriminate Len]. unfold Str.join. cbn [String.concat].
    rewrite Step by reflexivity. reflexivity.
  - destruct ps as [|q qs]; [discriminate Len |]. unfold Str.join in *.
    change (String.concat ", " (e :: q :: qs))
      with (e +++ String "," (String " " (String.concat ", " (q :: qs)))).
    rewrite append_assoc. rewrite Step by reflexivity. cbn [String.append].
    cbn [Json.skip_ws]. change (Json.is_ws ",") with false. cbv iota.
    change (Json.code "," =? 44) with true. cbv iota.
    rewrite parse_members_space.
    rewrite (IH (q :: qs) rest fv fe) by (try discriminate; try reflexivity; try assumption; lia).
    reflexivity.
Qed.

(** *** Dictionaries: assignment in key order rebuilds the dictionary *)

Lemma set_new_key (d : pydict) (k : string) (v : pyval) :
  existsb (fun k' => (k' =? k)%string) (map fst d) = false ->
  Dict.set d k v = d ++ [(k, v)].
Proof.
  induction d as [|[k' v'] d IH]; cbn [Dict.set map existsb fst app]; intros H;
    [reflexivity |].
  apply orb_false_elim in H as [H1 H2]. rewrite H1, IH by exact H2. reflexivity.
Qed.

Lemma existsb_app_false {A : Type} (f : A -> bool) (l1 l2 : list A) :
  existsb f (l1 ++ l2) = false <-> existsb f l1 = false /\ existsb f l2 = false.
Proof. rewrite existsb_app. apply orb_false_iff. Qed.

Lemma fold_set_distinct (d : pydict) : forall acc : pydict,
  Json.distinct_keys (map fst d) = true ->
  (forall k, In k (map fst d) ->
     existsb (fun k' => (k' =? k)%string) (map fst acc) = false) ->
  fold_left (fun a kv => Dict.set a (fst kv) (snd kv)) d acc = acc ++ d.
Proof.
  induction d as [|[k v] d IH]; intros acc Hd Hacc; cbn [fold_left fst snd map] in *.
  - now rewrite List.app_nil_r.
  - cbn [Json.distinct_keys] in Hd. apply andb_prop in Hd as [Hk Hd].
    apply negb_true_iff in Hk.
    rewrite set_new_key by (apply Hacc; now left).
    rewrite IH; [now rewrite <- List.app_assoc | exact Hd |].
    intros k' Hin. rewrite map_app. apply existsb_app_false. split.
    + apply Hacc. now right.
    + cbn [map existsb fst]. rewrite orb_false_r.
      destruct (String.eqb_spec k k') as [->|]; [| reflexivity].
      exfalso. assert (existsb (String.eqb k') (map fst d) = true) as C.
      { apply existsb_exists. exists k'. split; [exact Hin | apply String.eqb_refl]. }
      congruence.
Qed.

Lemma of_Z_first (n : Z) :
  exists c tail, Str.of_Z n = String c tail
                 /\ (Json.is_digit c || (Json.code c =? 45)) = true.
Proof.
  unfold Str.of_Z. destruct n as [|p|p]; cbn [Z.to_int NilZero.string_of_int].
  - eexists; eexists; split; reflexivity.
  - destruct (first_digit_pos p) as (c & tail & E & Hc).
    exists c, tail. split; [exact E | now rewrite Hc].
  - eexists; eexists; split; reflexivity.
Qed.

Lemma parse_value_number (c : ascii) (tail : string) (fuel : nat) :
  (Json.is_digit c || (Json.code c =? 45)) = true ->
  Json.parse_value (S fuel) (String c tail)
  = match Json.parse_int (String c tail) with
    | None => None
    | Some (n, rest) => Some (PyInt n, rest)
    end.
Proof.
  destruct c as [[] [] [] [] [] [] [] []]; intros H;
    try (vm_compute in H; discriminate H); reflexivity.
Qed.

Lemma parse_value_list (c : ascii) (tail : string) (fuel : nat) :
  starts_value c = true ->
  Json.parse_value (S fuel) (String "[" (String c tail))
  = match Json.parse_elements (Json.parse_value fuel) fuel (String c tail) with
    | None => None
    | Some (vs, rest) => Some (PyList vs, rest)
    end.
Proof.
  intros H. destruct (starts_value_tests c H) as (W & B & _).
  cbn [Json.parse_value Json.skip_ws]. change (Json.is_ws "[") with false. cbv iota.
  change (Json.code "[" =? 34) with false. change (Json.code "[" =? 91) with true.
  cbv iota. cbn [Json.skip_ws]. rewrite W, B. reflexivity.
Qed.

Lemma parse_value_dict (c : ascii) (tail : string) (fuel : nat) :
  starts_value c = true ->
  Json.parse_value (S fuel) (String "{" (String c tail))
  = match Json.parse_members (Json.parse_value fuel) fuel (String c tail) with
    | None => None
    | Some (kvs, rest) =>
        Some (PyDict (fold_left (fun d kv => Dict.set d (fst kv) (snd kv)) kvs []), rest)
    end.
Proof.
  intros H. destruct (starts_value_tests c H) as (W & _ & B).
  cbn [Json.parse_value Json.skip_ws]. change (Json.is_ws "{") with false. cbv iota.
  change (Json.code "{" =? 34) with false. change (Json.code "{" =? 91) with false.
  change (Json.code "{" =? 123) with true.
  cbv iota. cbn [Json.skip_ws]. rewrite W, B. reflexivity.
Qed.

Lemma join_first (sep : string) (c : ascii) (tail : string) (ps : list string) :
  exists tail', Str.join sep (String c tail :: ps) = String c tail'.
Proof. destruct ps; cbn; eauto. Qed.

Lemma dumps_entry_first (kv : string * pyval) (t : string) :
  dumps_entry kv = Returns t ->
  exists tail, t = String Json.dquote tail.
Proof.
  unfold dumps_entry. destruct (Json.dumps (snd kv)); [| discriminate].
  intros H. injection H as <-. unfold Json.quoted. cbn [String.append]. eauto.
Qed.

Lemma dumps_reads_back (v : pyval) : reads_back v.
Proof.
  induction v using pyval_nested_ind; unfold reads_back;
    intros t rest fuel Ht Hj Hf Hr; cbn [Json.dumps Json.is_json Json.need] in *;
    try discriminate Hj.
  - injection Ht as <-. destruct fuel; [lia | reflexivity].
  - destruct fuel; [lia |]. destruct b; injection Ht as <-; reflexivity.
  - injection Ht as <-. destruct fuel; [lia |].
    destruct (of_Z_first n) as (c & tail & E & Hc).
    pose proof (parse_int_of_Z n rest Hr) as Hp.
    rewrite E in *. cbn [String.append] in *.
    rewrite parse_value_number, Hp by exact Hc. reflexivity.
  - injection Ht as <-. destruct fuel; [lia |].
    rewrite quoted_append. cbn [Json.parse_value Json.skip_ws].
    change (Json.is_ws Json.dquote) with false. cbv iota.
    change (Json.code Json.dquote =? 34) with true. cbv iota.
    rewrite parse_string_escape by (rewrite append_length; cbn [String.length]; lia).
    reflexivity.
  - destruct (Json.traverse Json.dumps l) as [parts|] eqn:Et; [| discriminate Ht].
    injection Ht as <-. destruct fuel; [lia |].
    destruct l as [|x l].
    + cbn in Et. injection Et as <-. reflexivity.
    + pose proof (traverse_length _ _ _ Et) as Len.
      destruct parts as [|p ps]; [discriminate Len |].
      assert (exists c tail, Str.join ", " (p :: ps) +++ String "]" rest = String c tail
                             /\ starts_value c = true) as (c & tail & E & Hc).
      { cbn [Json.traverse] in Et. destruct (Json.dumps x) as [p'|] eqn:Ex; [| discriminate Et].
        destruct (Json.traverse Json.dumps l); [| discriminate Et].
        injection Et as -> _. destruct (dumps_first x p Ex) as (c & tail & -> & Hc).
        destruct (join_first ", " c tail ps) as (tail' & ->).
        exists c. eexists. split; [reflexivity | exact Hc]. }
      cbn [String.append]. rewrite append_assoc. cbn [String.append].
      rewrite E, parse_value_list, <- E by exact Hc.
      rewrite (parse_elements_dumps (x :: l)) by (try discriminate; try assumption; lia).
      reflexivity.
  - change (Json.traverse _ d) with (Json.traverse dumps_entry d) in Ht.
    destruct (Json.traverse dumps_entry d) as [parts|] eqn:Et; [| discriminate Ht].
    injection Ht as <-. destruct fuel; [lia |].
    apply andb_prop in Hj as [Hj Hk].
    destruct d as [|kv d].
    + cbn in Et. injection Et as <-. reflexivity.
    + pose proof (traverse_length _ _ _ Et) as Len.
      destruct parts as [|p ps]; [discriminate Len |].
      assert (exists c tail, Str.join ", " (p :: ps) +++ String "}" rest = String c tail
                             /\ starts_value c = true) as (c & tail & E & Hc).
      { cbn [Json.traverse] in Et. destruct (dumps_entry kv) as [p'|] eqn:Ex; [| discriminate Et].
        destruct (Json.traverse dumps_entry d); [| discriminate Et].
        injection Et as -> _. destruct (dumps_entry_first kv p Ex) as (tail & ->).
        destruct (join_first ", " Json.dquote tail ps) as (tail' & ->).
        exists Json.dquote. eexists. split; reflexivity. }
      cbn [String.append]. rewrite append_assoc. cbn [String.append].
      rewrite E, parse_value_dict, <- E by exact Hc.
      rewrite (parse_members_dumps (kv :: d)) by (try discriminate; try assumption; lia).
      rewrite fold_set_distinct; [reflexivity | exact Hk | reflexivity].
Qed.

(** *** The fuel [loads] gives is enough *)

Lemma join_length_cons (sep p : string) (ps : list string) :
  (String.length p + String.length (Str.join sep ps)
   <= String.length (Str.join sep (p :: ps)))%nat.
Proof.
  unfold Str.join. destruct ps as [|q qs].
  - cbn [String.concat String.length]. lia.
  - change (String.concat sep (p :: q :: qs))
      with (p +++ sep +++ String.concat sep (q :: qs)).
    rewrite !append_length. lia.
Qed.

Lemma join_bounds {A : Type} (g : A -> nat) (sep : string) (l : list A)
    (parts : list string) :
  Forall2 (fun x p => (1 <= g x <= String.length p)%nat) l parts ->
  (List.length l <= String.length (Str.join sep parts))%nat
  /\ (list_max (map g l) <= String.length (Str.join sep parts))%nat.
Proof.
  induction 1 as [|x p l ps Hx Hl [IH1 IH2]].
  - cbn. lia.
  - pose proof (join_length_cons sep p ps) as J.
    cbn [List.length map list_max fold_right].
    fold (list_max (map g l)). lia.
Qed.

Lemma traverse_Forall2 {A B : Type} (f : A -> outcome B) (R : A -> B -> Prop)
    (l : list A) :
  Forall (fun x => forall y, f x = Returns y -> R x y) l ->
  forall ys, Json.traverse f l = Returns ys -> Forall2 R l ys.
Proof.
  induction 1 as [|x l Hx Hl IH]; cbn [Json.traverse]; intros ys H.
  - injection H as <-. constructor.
  - destruct (f x) as [y|] eqn:E; [| discriminate H].
    destruct (Json.traverse f l) as [ys'|]; [| discriminate H].
    injection H as <-. constructor; [now apply Hx | now apply IH].
Qed.

Lemma need_positive (v : pyval) : (1 <= Json.need v)%nat.
Proof. destruct v; cbn [Json.need]; lia. Qed.

Lemma need_le_length (v : pyval) :
  forall t, Json.dumps v = Returns t -> (Json.need v <= String.length t)%nat.
Proof.
  induction v as [ | b | n | s | b | l IH | l IH | d IH] using pyval_nested_ind;
    intros t Ht.
  1-4: destruct (dumps_first _ t Ht) as (c & tail & -> & _);
       cbn [Json.need String.length]; lia.
  - discriminate Ht.
  - cbn [Json.dumps Json.need] in *.
    destruct (Json.traverse Json.dumps l) as [parts|] eqn:Et; [| discriminate Ht].
    injection Ht as <-. cbn [String.append String.length]. rewrite append_length.
    destruct (join_bounds Json.need ", " l parts) as [B1 B2]; [| cbn [String.length]; lia].
    apply (traverse_Forall2 Json.dumps); [| exact Et].
    eapply Forall_impl; [| exact IH]. cbn beta. intros x Hx p Hp.
    split; [apply need_positive | now apply Hx].
  - cbn [Json.dumps Json.need] in *.
    destruct (Json.traverse Json.dumps l) as [parts|] eqn:Et; [| discriminate Ht].
    injection Ht as <-. cbn [String.append String.length]. rewrite append_length.
    destruct (join_bounds Json.need ", " l parts) as [B1 B2]; [| cbn [String.length]; lia].
    apply (traverse_Forall2 Json.dumps); [| exact Et].
    eapply Forall_impl; [| exact IH]. cbn beta. intros x Hx p Hp.
    split; [apply need_positive | now apply Hx].
  - cbn [Json.dumps Json.need] in *.
    change (Json.traverse _ d) with (Json.traverse dumps_entry d) in Ht.
    destruct (Json.traverse dumps_entry d) as [parts|] eqn:Et; [| discriminate Ht].
    injection Ht as <-. cbn [String.append String.length]. rewrite append_length.
    destruct (join_bounds (fun kv => Json.need (snd kv)) ", " d parts) as [B1 B2];
      [| cbn [String.length]; lia].
    apply (traverse_Forall2 dumps_entry); [| exact Et].
    eapply Forall_impl; [| exact IH]. cbn beta. intros [k x] Hx p Hp.
    cbn [snd] in *. split; [apply need_positive |].
    unfold dumps_entry in Hp. cbn [fst snd] in Hp.
    destruct (Json.dumps x) as [s|]; [| discriminate Hp].
    injection Hp as <-. specialize (Hx s eq_refl).
    cbn [String.length]. rewrite append_length. cbn [String.length]. lia.
Qed.

Lemma append_empty (s : string) : s +++ EmptyString = s.
Proof. induction s as [|c s IH]; cbn; [reflexivity | now rewrite IH]. Qed.

(** [json.loads(json.dumps(v)) == v] for every value [json.loads] can return. *)
Theorem loads_dumps (v : pyval) (t : string) :
  Json.dumps v = Returns t -> Json.is_json v = true -> Json.loads t = Returns v.
Proof.
  intros Ht Hj. unfold Json.loads.
  pose proof (dumps_reads_back v t EmptyString (S (String.length t)) Ht Hj) as H.
  rewrite append_empty in H. rewrite H; [reflexivity | | reflexivity].
  pose proof (need_le_length v t Ht). lia.
Qed.


(** ** Blank queries *)

Lemma lstrip_blank (s : string) : Str.blank s = true -> Str.lstrip s = EmptyString.
Proof.
  unfold Str.blank.
  induction s as [|c s IH]; simpl; intros H.
  - reflexivity.
  - apply andb_true_iff in H. destruct H as [Hc Hs].
    rewrite Hc. exact (IH Hs).
Qed.

Lemma strip_blank (s : string) : Str.blank s = true -> Str.strip s = EmptyString.
Proof.
  intros H. unfold Str.strip. rewrite (lstrip_blank s H). reflexivity.
Qed.

Lemma rstrip_empty_blank (s : string) : Str.rstrip s = EmptyString -> Str.blank s = true.
Proof.
  unfold Str.blank.
  induction s as [|c s IH]; simpl; intros H.
  - reflexivity.
  - destruct (Str.rstrip s) eqn:R; [|discriminate].
    destruct (Str.isspace c); [|discriminate].
    simpl. apply IH. reflexivity.
Qed.

(** [not query.strip()] holds exactly of the strings made of white space. *)
Lemma strip_empty_iff_blank (s : string) :
  Str.strip s = EmptyString <-> Str.blank s = true.
Proof.
  split; [|apply strip_blank].
  unfold Str.strip, Str.blank.
  induction s as [|c s IH]; simpl; intros H.
  - reflexivity.
  - destruct (Str.isspace c) eqn:Hc.
    + simpl. apply IH. exact H.
    + exfalso. simpl in H.
      destruct (Str.rstrip s); [rewrite Hc in H|]; discriminate.
Qed.

(** C8, as amended.  For a query that is empty or all white space,
    [search_character_chats] returns the empty list with the status
    "Please enter a search query." and [search_db] returns the empty list,
    which is all it ever returns: it has no status.  Neither opens a
    connection, so the store, its log included, is as it was. *)
Theorem search_blank_query {E : Engine} (query : string) (character_id : option Z)
    (fields : list string) (where_clause : string) (page results_per_page : Z)
    (s : store) :
  Str.blank query = true ->
  search_character_chats query character_id s
    = (Returns ([], "Please enter a search query."), s)
  /\ search_db query fields where_clause page results_per_page s = (Returns [], s).
Proof.
  intros H. apply strip_blank in H.
  unfold search_character_chats, search_db. rewrite H. split; reflexivity.
Qed.

Lemma search_blank_query_witness :
  Str.blank "   " = true
  /\ search_character_chats (E := Bareword.engine) "   " (Some 1) Run.s2
       = (Returns ([], "Please enter a search query."), Run.s2)
  /\ search_db (E := Bareword.engine) "   " ["CharacterChats_fts"] EmptyString 1 5 Run.s2
       = (Returns [], Run.s2).
Proof.
  split; [reflexivity|].
  apply (search_blank_query (E := Bareword.engine) "   " (Some 1) ["CharacterChats_fts"] EmptyString 1 5 Run.s2).
  reflexivity.
Defined.

(** C8 as it is stated fails for [search_db]: what it returns for a blank
    query is an empty list, not a pair of a result set and a status. *)
Lemma search_db_blank_has_no_status :
  ~ empty_with_status
      (returned py_search_db
         (fst (search_db (E := Bareword.engine) " " ["CharacterChats_fts"] EmptyString 1 5
                         Run.s2))).
Proof.
  intros [status H]. vm_compute in H. discriminate.
Qed.

Example search_character_chats_blank_has_status :
  empty_with_status
    (returned py_search_character_chats (fst (search_character_chats (E := Bareword.engine) " " None Run.s2))).
Proof. eexists. reflexivity. Qed.

(** ** [get_character_card_by_id] on what is not an id *)

(** C10.  Given a dictionary, [get_character_card_by_id] returns it as it
    is; given a value that is neither a dictionary nor an int, it returns
    None.  Either way a connection is opened and closed and no statement is
    executed on it, and the file is unchanged. *)
Theorem get_character_card_by_id_not_an_id {E : Engine} (character_id : pyval)
    (s : store) :
  if isinstance_dict character_id then
    get_character_card_by_id character_id s
    = (Returns character_id,
       {| file := file s; log := (log s ++ [Connect]) ++ [Close]; clock := clock s |})
  else if isinstance_int character_id then True
  else
    get_character_card_by_id character_id s
    = (Returns PyNone,
       {| file := file s; log := (log s ++ [Connect]) ++ [Close]; clock := clock s |}).
Proof.
  destruct character_id; simpl; try exact I; reflexivity.
Qed.

Lemma connect_close_no_statement (l : list event) :
  no_statement l ((l ++ [Connect]) ++ [Close]).
Proof.
  exists [Connect; Close]. split.
  - rewrite <- app_assoc. reflexivity.
  - intros sql params [H|[H|[]]]; discriminate.
Qed.

Example get_character_card_by_id_dict :
  fst (get_character_card_by_id (E := Bareword.engine) (PyDict Run.Ada) Run.s1)
    = Returns (PyDict Run.Ada).
Proof. evaluate. Qed.

Example get_character_card_by_id_str :
  fst (get_character_card_by_id (E := Bareword.engine) (PyStr "1") Run.s1) = Returns PyNone.
Proof. evaluate. Qed.

Example get_character_card_by_id_bool :
  card_field (fst (get_character_card_by_id (E := Bareword.engine) (PyBool true) Run.s1))
             "name" = Some (PyStr "Ada").
Proof. evaluate. Qed.

(** ** [update_character_card] *)

(** C6, what the code does.  The statement of [update_character_card]
    assigns a column [first_message]; CharacterCards has [first_mes] and no
    [first_message], so the statement does not compile, whatever the id and
    the fields.  The OperationalError is not an IntegrityError: it reaches
    the caller, and nothing is written. *)
Theorem update_character_card_raises {E : Engine} (character_id : Z)
    (card_data : pydict) (s : store) :
  fst (update_character_card character_id card_data s)
    = Raises (OperationalError "no such column: first_message")
  /\ file (snd (update_character_card character_id card_data s)) = file s.
Proof. split; reflexivity. Qed.

Example update_character_card_existing_row :
  fst (update_character_card (E := Bareword.engine) 1 [("name", PyStr "Ada Lovelace")] Run.s1)
    = Raises (OperationalError "no such column: first_message")
  /\ map (fun r => row_get r "name") (rows_CharacterCards (file Run.s1)) = [VText "Ada"].
Proof. evaluate. Qed.

(** ** The index after an update and after a delete *)

Section Evaluations.
#[local] Existing Instance Bareword.engine.

Example index_after_insert :
  index_consistent (file Run.s2)
  /\ map row_id (index_scan "hello" (file Run.s2)) = [VInt 1]
  /\ map row_id (linear_scan "hello" (file Run.s2)) = [VInt 1].
Proof. evaluate. Qed.

(** C1, what the code does.  One chat is added with "hello" in its
    history, then [update_character_chat] replaces the history by one
    without it.  The AFTER UPDATE trigger runs when CharacterChats already
    holds the new text, so the terms the index gives up are those of the
    new text, and the old document stays indexed beside the new one: the
    search for "hello" still returns chat 1, which a scan of CharacterChats
    does not find.  [delete_character_chat] leaves the entry in the index as
    well (its trigger finds no row to delete). *)
Theorem index_keeps_replaced_history :
  fst (update_character_chat 1 [("user", "bye")] Run.s2) = Returns true
  /\ map (fun c => Bareword.terms_of_value (row_get c "chat_history"))
         (rows_CharacterChats (file Run.s3)) = [["user"; "bye"]]
  /\ linear_scan "hello" (file Run.s3) = []
  /\ map row_id (index_scan "hello" (file Run.s3)) = [VInt 1]
  /\ hits_and_status (fst (search_character_chats "hello" None Run.s3))
       = Some ([Some (PyInt 1)], "Found 1 chat(s) matching 'hello' across all characters.")
  /\ map (fun e => Bareword.terms_of_value (doc_chat_history e))
         (CharacterChats_fts (file Run.s3))
       = [["user"; "hi"; "ada"; "hello"]; ["user"; "bye"]]
  /\ fst (delete_character_chat 1 Run.s2) = Returns true
  /\ rows_CharacterChats (file (snd (delete_character_chat 1 Run.s2))) = []
  /\ CharacterChats_fts (file (snd (delete_character_chat 1 Run.s2)))
       = CharacterChats_fts (file Run.s2).
Proof. evaluate. Qed.

Lemma index_inconsistent_after_update : ~ index_consistent (file Run.s3).
Proof. unfold index_consistent. intros H. vm_compute in H. discriminate. Qed.

(** C2, what the code does.  [delete_character_card] on a character with
    one chat deletes the character and the chat in one transaction and
    returns true, and no search returns the chat any more; the chat's
    entry, however, is still in the index. *)
Theorem delete_character_card_leaves_index_entry :
  fst (delete_character_card 1 Run.s2) = Returns true
  /\ rows_CharacterCards (file (snd (delete_character_card 1 Run.s2))) = []
  /\ rows_CharacterChats (file (snd (delete_character_card 1 Run.s2))) = []
  /\ map doc_rowid (CharacterChats_fts (file (snd (delete_character_card 1 Run.s2))))
       = [VInt 1]
  /\ fst (search_character_chats "hello" None (snd (delete_character_card 1 Run.s2)))
       = Returns ([], "Found 0 chat(s) matching 'hello' across all characters.").
Proof. evaluate. Qed.

(** ** Foreign keys *)

Example foreign_keys_of_connections :
  foreign_keys (connect Run.s0) = false
  /\ foreign_keys (snd (execute PRAGMA_foreign_keys_ON [] (connect Run.s0))) = true.
Proof. evaluate. Qed.

(** C3, what the code does.  No character has id 999, and
    [add_character_chat(999, ...)] inserts the chat and returns its id:
    [PRAGMA foreign_keys = ON] was executed on the connection of
    [initialize_database], which is closed, and the connection that
    [add_character_chat] opens does not enforce foreign keys. *)
Theorem add_character_chat_unknown_character :
  rows_CharacterCards (file Run.s0) = []
  /\ fst (add_character_chat 999 "intro" [("user", "hi")] None false Run.s0)
       = Returns (PyInt 1)
  /\ map (fun c => (row_id c, row_get c "character_id"))
         (rows_CharacterChats
            (file (snd (add_character_chat 999 "intro" [("user", "hi")] None false Run.s0))))
       = [(VInt 1, VInt 999)].
Proof. evaluate. Qed.

Example insert_with_foreign_keys_enforced :
  fst (execute (INSERT_INTO CharacterChats
                  ["character_id"; "conversation_name"; "chat_history"; "is_snapshot"])
               [PyInt 999; PyStr "intro"; PyStr "[]"; PyBool false]
               (enforce_foreign_keys (connect Run.s0)))
  = Raises (IntegrityError "FOREIGN KEY constraint failed").
Proof. evaluate. Qed.

(** ** Cards without an image *)

(** C4, what the code does.  For a card without the key 'image',
    [parse_character_card] makes a record without 'image' and
    [add_character_card] then reads [parsed_card['image']]: the KeyError is
    caught, None is returned, and no row is inserted or overwritten. *)
Theorem add_character_card_without_image :
  fst (add_character_card [("name", PyStr "Ada")] Run.s0) = Returns PyNone
  /\ file (snd (add_character_card [("name", PyStr "Ada")] Run.s0)) = file Run.s0
  /\ fst (add_character_card [("name", PyStr "Ada"); ("description", PyStr "new")] Run.s1)
       = Returns PyNone
  /\ file (snd (add_character_card [("name", PyStr "Ada"); ("description", PyStr "new")]
                                   Run.s1)) = file Run.s1.
Proof. evaluate. Qed.

Example add_character_card_with_image :
  fst (add_character_card Run.Ada Run.s0) = Returns (PyInt 1)
  /\ fst (add_character_card (Dict.set Run.Ada "description" (PyStr "new")) Run.s1)
       = Returns (PyInt 1)
  /\ map (fun r => (row_get r "name", row_get r "description"))
         (rows_CharacterCards
            (file (snd (add_character_card (Dict.set Run.Ada "description" (PyStr "new"))
                                           Run.s1))))
       = [(VText "Ada", VText "new")].
Proof. evaluate. Qed.

(** C5, what the code does.  A card with list and map fields and no
    'image': [add_character_card] returns None, and reading back with
    [get_character_card_by_id] on that returns None, so there is no stored
    text to deserialize. *)
Theorem card_without_image_is_not_stored :
  let card := [ ("name", PyStr "Ada");
                ("alternate_greetings", PyList [PyStr "hi"; PyStr "hello"]);
                ("tags", PyList [PyStr "math"]);
                ("extensions", PyDict [("depth", PyInt 2)]) ] in
  let added := add_character_card card Run.s0 in
  fst added = Returns PyNone
  /\ fst (get_character_card_by_id PyNone (snd added)) = Returns PyNone
  /\ rows_CharacterCards (file (snd added)) = [].
Proof. evaluate. Qed.

End Evaluations.

(** ** Serialized card fields *)



(** With an 'image' key the same card is stored, and the stored texts
    deserialize to the card's lists and map. *)
Example round_trip_with_image :
  let card := [ ("name", PyStr "Ada"); ("image", PyNone);
                ("alternate_greetings", PyList [PyStr "hi"; PyStr "hello"]);
                ("tags", PyList [PyStr "math"]);
                ("extensions", PyDict [("depth", PyInt 2)]) ] in
  let added := add_character_card (E := Bareword.engine) card Run.s0 in
  let read := fst (get_character_card_by_id (E := Bareword.engine) (PyInt 1) (snd added)) in
  let loaded key := match card_field read key with
                    | Some (PyStr t) => Json.loads t
                    | _ => Raises (KeyError key)
                    end in
  fst added = Returns (PyInt 1)
  /\ loaded "alternate_greetings" = Returns (PyList [PyStr "hi"; PyStr "hello"])
  /\ loaded "tags" = Returns (PyList [PyStr "math"])
  /\ loaded "extensions" = Returns (PyDict [("depth", PyInt 2)]).
Proof. evaluate. Qed.

(** ** Values, tuples, DISTINCT *)

Lemma value_eqb_eq (a b : value) : value_eqb a b = true <-> a = b.
Proof.
  destruct a, b; simpl; split; intros H; try discriminate; try reflexivity.
  - apply Z.eqb_eq in H. now subst.
  - injection H as ->. apply Z.eqb_refl.
  - apply String.eqb_eq in H. now subst.
  - injection H as ->. apply String.eqb_refl.
  - apply String.eqb_eq in H. now subst.
  - injection H as ->. apply String.eqb_refl.
Qed.

Lemma value_eqb_refl (a : value) : value_eqb a a = true.
Proof. now apply value_eqb_eq. Qed.

Lemma tuple_eqb_eq (a b : list value) : tuple_eqb a b = true <-> a = b.
Proof.
  revert b. induction a as [|x a IH]; intros [|y b]; simpl; split; intros H;
    try discriminate; try reflexivity.
  - apply andb_true_iff in H. destruct H as [Hx Ha].
    apply value_eqb_eq in Hx. apply IH in Ha. now subst.
  - injection H as -> ->. apply andb_true_iff. split.
    + apply value_eqb_refl.
    + now apply IH.
Qed.

Lemma In_distinct (t : list value) (l : list (list value)) :
  In t (distinct l) <-> In t l.
Proof.
  induction l as [|r l IH]; simpl.
  - tauto.
  - rewrite filter_In, IH. split.
    + intros [H|[H _]]; auto.
    + intros [H|H]; auto.
      destruct (tuple_eqb t r) eqn:Heq.
      * apply tuple_eqb_eq in Heq. auto.
      * right. split; [exact H | reflexivity].
Qed.

Lemma NoDup_distinct (l : list (list value)) : NoDup (distinct l).
Proof.
  induction l as [|r l IH]; simpl.
  - constructor.
  - constructor.
    + rewrite filter_In. intros [_ H].
      rewrite (proj2 (tuple_eqb_eq r r) eq_refl) in H. discriminate.
    + apply NoDup_filter. exact IH.
Qed.

Lemma py_of_value_inj (a b : value) : py_of_value a = py_of_value b -> a = b.
Proof. destruct a, b; simpl; intros H; congruence. Qed.

(** ** [fetch_keywords_for_chats] *)

Lemma bind_all_strings (ks : list string) :
  bind_all (map PyStr ks) = Returns (map VText ks).
Proof.
  induction ks as [|k ks IH]; simpl.
  - reflexivity.
  - rewrite IH. reflexivity.
Qed.

Lemma keyword_columns_known (n : nat) :
  unknown_column ChatKeywords (["chat_id"] ++ repeat "keyword" n) = None.
Proof.
  unfold unknown_column. simpl.
  induction n as [|n IH]; simpl.
  - reflexivity.
  - exact IH.
Qed.

Lemma existsb_keyword_clauses (f : string * value -> bool) (ks : list string) :
  existsb f (combine (repeat "keyword" (List.length ks)) (map VText ks))
  = existsb (fun k => f ("keyword", VText k)) ks.
Proof.
  induction ks as [|k ks IH]; simpl.
  - reflexivity.
  - rewrite IH. reflexivity.
Qed.

(** [keyword = ? OR keyword = ? ...] holds of a row when its keyword is
    one of the parameters. *)
Lemma where_any_keyword (k0 : string) (ks : list string) (r : row) :
  where_matches ChatKeywords (repeat "keyword" (List.length (k0 :: ks)))
                (map VText (k0 :: ks)) r = true
  <-> exists k, In k (k0 :: ks) /\ row_get r "keyword" = VText k.
Proof.
  unfold where_matches.
  change (repeat "keyword" (List.length (k0 :: ks)))
    with ("keyword" :: repeat "keyword" (List.length ks)) at 1.
  cbv iota.
  rewrite (existsb_keyword_clauses _ (k0 :: ks)).
  rewrite existsb_exists. split.
  - intros [k [Hin H]]. exists k. split; [exact Hin|].
    unfold sql_eq in H. simpl fst in H. simpl snd in H.
    change (column_affinity ChatKeywords "keyword") with TEXT in H.
    destruct (row_get r "keyword"); simpl in H; try discriminate.
    apply String.eqb_eq in H. now subst.
  - intros [k [Hin H]]. exists k. split; [exact Hin|].
    unfold sql_eq. simpl fst. simpl snd. rewrite H.
    change (column_affinity ChatKeywords "keyword") with TEXT.
    simpl. apply String.eqb_refl.
Qed.

(** What the function returns for a list of keywords that is not empty
    and short enough for the statement to compile, and that it leaves the
    file alone. *)
Lemma fetch_keywords_for_chats_run {E : Engine} (k0 : string) (ks : list string)
    (s : store) :
  (List.length (k0 :: ks) < max_expr_depth)%nat ->
  fst (fetch_keywords_for_chats (k0 :: ks) s)
    = Returns
        (map (fun t => py_of_value (hd VNull t))
           (distinct
              (map (fun r => [row_get r "chat_id"])
                 (filter (where_matches ChatKeywords
                            (repeat "keyword" (List.length (k0 :: ks)))
                            (map VText (k0 :: ks)))
                         (rows_ChatKeywords (file s))))))
  /\ file (snd (fetch_keywords_for_chats (k0 :: ks) s)) = file s.
Proof.
  intros Hshort. apply Nat.leb_gt in Hshort.
  unfold fetch_keywords_for_chats, with_connection, try_except, bindM, execute.
  cbv beta iota.
  unfold prepare. rewrite repeat_length, Hshort.
  rewrite (keyword_columns_known (List.length (k0 :: ks))).
  unfold arity. rewrite length_map, repeat_length, Nat.eqb_refl. cbv beta iota. unfold negb.
  rewrite (bind_all_strings (k0 :: ks)).
  split; reflexivity.
Qed.

(** From [max_expr_depth] keywords on the statement does not compile:
    the error is caught and the function returns the empty list. *)
Lemma fetch_keywords_for_chats_too_many {E : Engine} (keywords : list string)
    (s : store) :
  (max_expr_depth <= List.length keywords)%nat ->
  fst (fetch_keywords_for_chats keywords s) = Returns []
  /\ file (snd (fetch_keywords_for_chats keywords s)) = file s.
Proof.
  intros Hlong. destruct keywords as [|k0 ks].
  - simpl in Hlong. unfold max_expr_depth in Hlong. lia.
  - apply Nat.leb_le in Hlong.
    unfold fetch_keywords_for_chats, with_connection, try_except, bindM, execute.
    cbv beta iota.
    unfold prepare. rewrite repeat_length, Hlong.
    split; reflexivity.
Qed.

(** C9.  For a list of fewer than 1000 keywords, [fetch_keywords_for_chats]
    returns, without repeats, exactly the chat ids of the rows of
    ChatKeywords whose keyword is one of those given (in an order the
    statement does not fix); it changes nothing in the file; given no
    keyword it returns the empty list and does not touch the store at
    all. *)
Theorem fetch_keywords_for_chats_union {E : Engine} (keywords : list string)
    (s : store) :
  (List.length keywords < max_expr_depth)%nat ->
  exists chat_ids,
    fst (fetch_keywords_for_chats keywords s) = Returns chat_ids
    /\ NoDup chat_ids
    /\ (forall id,
          In id chat_ids <->
          exists r k, In r (rows_ChatKeywords (file s)) /\ In k keywords
                      /\ row_get r "keyword" = VText k
                      /\ py_of_value (row_get r "chat_id") = id)
    /\ file (snd (fetch_keywords_for_chats keywords s)) = file s
    /\ (keywords = [] -> chat_ids = [] /\ snd (fetch_keywords_for_chats keywords s) = s).
Proof.
  intros Hshort. destruct keywords as [|k0 ks].
  - exists []. simpl. repeat split; try constructor; try tauto.
    intros [r [k [_ [[] _]]]].
  - destruct (fetch_keywords_for_chats_run k0 ks s Hshort) as [Hrun Hfile].
    eexists. split; [exact Hrun|]. split; [|split; [|split]].
    + apply NoDup_map_NoDup_ForallPairs; [|apply NoDup_distinct].
      intros a b Ha Hb Hab.
      apply In_distinct, in_map_iff in Ha. destruct Ha as [ra [<- _]].
      apply In_distinct, in_map_iff in Hb. destruct Hb as [rb [<- _]].
      simpl in Hab. apply py_of_value_inj in Hab. now rewrite Hab.
    + intros id. rewrite in_map_iff. split.
      * intros [t [Hid Ht]]. apply In_distinct, in_map_iff in Ht.
        destruct Ht as [r [<- Hr]]. apply filter_In in Hr. destruct Hr as [Hr Hw].
        apply where_any_keyword in Hw. destruct Hw as [k [Hk Hkw]].
        exists r, k. repeat split; assumption.
      * intros [r [k [Hr [Hk [Hkw Hid]]]]].
        exists [row_get r "chat_id"]. split; [exact Hid|].
        apply In_distinct, in_map_iff. exists r. split; [reflexivity|].
        apply filter_In. split; [exact Hr|].
        apply where_any_keyword. exists k. split; assumption.
    + exact Hfile.
    + discriminate.
Qed.

Lemma fetch_keywords_for_chats_union_witness :
  (List.length ["engines"; "maths"] < max_expr_depth)%nat
  /\ exists chat_ids,
       fst (fetch_keywords_for_chats (E := Bareword.engine) ["engines"; "maths"] s_keywords)
         = Returns chat_ids
       /\ NoDup chat_ids
       /\ (forall id,
             In id chat_ids <->
             exists r k, In r (rows_ChatKeywords (file s_keywords))
                         /\ In k ["engines"; "maths"]
                         /\ row_get r "keyword" = VText k
                         /\ py_of_value (row_get r "chat_id") = id)
       /\ file (snd (fetch_keywords_for_chats (E := Bareword.engine)
                       ["engines"; "maths"] s_keywords)) = file s_keywords
       /\ (["engines"; "maths"] = [] ->
           chat_ids = []
           /\ snd (fetch_keywords_for_chats (E := Bareword.engine)
                     ["engines"; "maths"] s_keywords) = s_keywords).
Proof.
  assert (Hshort : (List.length ["engines"; "maths"] < max_expr_depth)%nat)
    by (unfold max_expr_depth; simpl; lia).
  split; [exact Hshort|].
  exact (fetch_keywords_for_chats_union (E := Bareword.engine)
           ["engines"; "maths"] s_keywords Hshort).
Defined.

(** C9 as it is stated, for every list of keywords, fails at a list of
    1000: chats 1 and 2 are tagged "maths", and the function returns no chat
    id. *)
Lemma fetch_keywords_for_chats_thousand_keywords :
  ~ exists chat_ids,
      fst (fetch_keywords_for_chats (E := Bareword.engine) (repeat "maths" 1000) s_keywords)
        = Returns chat_ids
      /\ forall id,
           In id chat_ids <->
           exists r k, In r (rows_ChatKeywords (file s_keywords))
                       /\ In k (repeat "maths" 1000)
                       /\ row_get r "keyword" = VText k
                       /\ py_of_value (row_get r "chat_id") = id.
Proof.
  intros [chat_ids [Hrun Hids]].
  assert (Hlong : (max_expr_depth <= List.length (repeat "maths" 1000))%nat)
    by (rewrite repeat_length; unfold max_expr_depth; lia).
  destruct (fetch_keywords_for_chats_too_many (E := Bareword.engine)
              (repeat "maths" 1000) s_keywords Hlong) as [Hnone _].
  rewrite Hnone in Hrun. injection Hrun as <-.
  apply (Hids (PyInt 1)).
  exists [("chat_id", VInt 1); ("keyword", VText "maths")], "maths".
  split; [vm_compute; tauto|]. split; [left; reflexivity|]. split; reflexivity.
Qed.

(** Keywords are stored stripped and in lower case and compared as they
    are given; the two chats come in the order SQLite reads the rows, which
    the statement does not fix. *)
Example fetch_keywords_for_chats_two_chats :
  (exists chat_ids,
     fst (fetch_keywords_for_chats (E := Bareword.engine) ["engines"; "maths"] s_keywords)
       = Returns chat_ids
     /\ Permutation chat_ids [PyInt 1; PyInt 2])
  /\ fst (fetch_keywords_for_chats (E := Bareword.engine) ["Maths"] s_keywords) = Returns [].
Proof.
  split; [eexists; split; [vm_compute; reflexivity | apply Permutation_refl] | evaluate].
Qed.

(** ** Lists: ORDER BY, LIMIT and OFFSET *)

Section Lists.
Context {A : Type}.

Lemma insert_by_perm (before : A -> A -> bool) (x : A) (l : list A) :
  Permutation (insert_by before x l) (x :: l).
Proof.
  induction l as [|y l IH]; simpl.
  - apply Permutation_refl.
  - destruct (before x y).
    + apply Permutation_refl.
    + apply Permutation_trans with (y :: x :: l).
      * apply perm_skip. exact IH.
      * apply perm_swap.
Qed.

Lemma sort_by_perm (before : A -> A -> bool) (l : list A) :
  Permutation (sort_by before l) l.
Proof.
  unfold sort_by. induction l as [|x l IH]; simpl.
  - apply perm_nil.
  - apply Permutation_trans with (x :: fold_right (insert_by before) [] l).
    + apply insert_by_perm.
    + apply perm_skip. exact IH.
Qed.

Lemma limit_offset_nil (limit offset : Z) : limit_offset limit offset (@nil A) = [].
Proof.
  unfold limit_offset. rewrite skipn_nil. destruct (limit <? 0); [|rewrite firstn_nil];
    reflexivity.
Qed.

Lemma limit_offset_map {B : Type} (f : A -> B) (limit offset : Z) (l : list A) :
  limit_offset limit offset (map f l) = map f (limit_offset limit offset l).
Proof.
  unfold limit_offset. rewrite skipn_map. destruct (limit <? 0).
  - reflexivity.
  - apply firstn_map.
Qed.

(** Page [i + 1] of size [size]: the rows from [i * size] on, [size] of them. *)
Lemma limit_offset_page (size i : nat) (l : list A) :
  limit_offset (Z.of_nat size) ((Z.of_nat i + 1 - 1) * Z.of_nat size) l
  = firstn size (skipn (i * size) l).
Proof.
  unfold limit_offset.
  replace (Z.to_nat ((Z.of_nat i + 1 - 1) * Z.of_nat size)) with (i * size)%nat by lia.
  destruct (Z.ltb_spec (Z.of_nat size) 0) as [H|H]; [lia|].
  rewrite Nat2Z.id. reflexivity.
Qed.

Lemma firstn_plus (n m : nat) (l : list A) :
  firstn (n + m) l = firstn n l ++ firstn m (skipn n l).
Proof.
  revert l. induction n as [|n IH]; intros l; simpl.
  - reflexivity.
  - destruct l as [|x l]; simpl.
    + rewrite firstn_nil. reflexivity.
    + rewrite IH. reflexivity.
Qed.

Lemma concat_pages (size : nat) (l : list A) (count start : nat) :
  List.concat (map (fun i => firstn size (skipn (i * size) l)) (seq start count))
  = firstn (count * size) (skipn (start * size) l).
Proof.
  revert start. induction count as [|count IH]; intros start; simpl.
  - reflexivity.
  - rewrite IH, firstn_plus, skipn_skipn. reflexivity.
Qed.

Lemma pages_cover (n size : nat) : (0 < size)%nat -> (n <= pages_needed n size * size)%nat.
Proof.
  intros Hs. unfold pages_needed.
  pose proof (Nat.div_mod_eq (n + size - 1) size) as Hdiv.
  pose proof (Nat.mod_upper_bound (n + size - 1) size) as Hmod.
  nia.
Qed.

(** The pages 1, 2, ... of a list, enough of them to hold it, put end to
    end, are the list. *)
Lemma concat_all_pages (size : nat) (l : list A) :
  (0 < size)%nat ->
  List.concat (map (fun i => firstn size (skipn (i * size) l))
              (seq 0 (pages_needed (List.length l) size))) = l.
Proof.
  intros Hs. rewrite concat_pages. simpl skipn.
  apply firstn_all2. apply pages_cover. exact Hs.
Qed.

(** Rows with pairwise different keys keep them when some are filtered out. *)
Lemma NoDup_map_filter {K : Type} (key : A -> K) (keep : A -> bool) (rows : list A)
    (Hrows : NoDup (map key rows)) :
  NoDup (map key (filter keep rows)).
Proof.
  induction rows as [|x rows IH]; simpl.
  - constructor.
  - apply NoDup_cons_iff in Hrows. destruct Hrows as [Hx Hrest].
    destruct (keep x); simpl; [constructor|]; try (apply IH; exact Hrest).
    intros Hin. apply Hx. apply in_map_iff in Hin.
    destruct Hin as [y [Hy Hin]]. apply filter_In in Hin.
    apply in_map_iff. exists y. tauto.
Qed.

End Lists.

(** ** The rowids of CharacterChats stay pairwise different *)

Lemma row_get_set_other (r : row) (c k : string) (v : value) :
  c <> k -> row_get (row_set r c v) k = row_get r k.
Proof.
  intros Hck. induction r as [|[k' w] r IH]; simpl.
  - reflexivity.
  - destruct (String.eqb_spec k' c) as [Hc|Hc]; simpl.
    + destruct (String.eqb_spec k' k) as [Hk|Hk]; [congruence | reflexivity].
    + rewrite IH. reflexivity.
Qed.

Lemma assign_keeps_id (t : table) (sets : list (string * value)) (r : row) :
  (forall cv, In cv sets -> fst cv <> "id") -> row_id (assign t sets r) = row_id r.
Proof.
  unfold assign, row_id. revert r.
  induction sets as [|cv sets IH]; intros r H; simpl.
  - reflexivity.
  - rewrite IH.
    + apply row_get_set_other. apply H. left. reflexivity.
    + intros cv' Hin. apply H. right. exact Hin.
Qed.

Lemma chats_with_seq (t : table) (n : Z) (d : database) :
  rows_CharacterChats (with_seq t n d) = rows_CharacterChats d.
Proof. destruct t; reflexivity. Qed.

(** The AFTER UPDATE trigger changes the index and its totals, nothing
    else. *)
Lemma after_update_keeps (l : list row) (d d' : database) :
  after_update l d = Returns d' ->
  rows_CharacterCards d' = rows_CharacterCards d
  /\ rows_CharacterChats d' = rows_CharacterChats d
  /\ rows_ChatKeywords d' = rows_ChatKeywords d
  /\ seq_CharacterCards d' = seq_CharacterCards d
  /\ seq_CharacterChats d' = seq_CharacterChats d.
Proof.
  revert d. induction l as [|r l IH]; intros d; cbn [after_update].
  - intros H. injection H as <-. repeat split.
  - unfold CharacterChats_au. destruct (fts5_update _ _ _ _ _ _) as [[idx t]|];
      [| discriminate].
    intros H. apply IH in H. exact H.
Qed.

Lemma chats_after_update_triggers (l : list row) (d d' : database) :
  after_update l d = Returns d' -> rows_CharacterChats d' = rows_CharacterChats d.
Proof. intros H. apply after_update_keeps in H. tauto. Qed.

(** What an UPDATE that goes through returns: the database with the rows
    assigned and, for CharacterChats, its triggers run. *)
Lemma update_returns (t : table) (sets : list (string * value)) (p : row -> bool)
    (d d' : database) (n : Z) :
  update t sets p d = Returns (d', n) ->
  let d1 := with_rows t (map (fun r => if p r then assign t sets r else r) (rows_of t d)) d in
  n = Z.of_nat (List.length (filter p (rows_of t d)))
  /\ match t with
     | CharacterChats =>
         after_update (map (assign t sets) (filter p (rows_of t d))) d1 = Returns d'
     | _ => d' = d1
     end.
Proof.
  unfold update. destruct (find _ _); [discriminate |].
  intros H. cbv zeta.
  assert (H' : match match t with
                     | CharacterChats =>
                         after_update (map (assign t sets) (filter p (rows_of t d)))
                           (with_rows t
                              (map (fun r => if p r then assign t sets r else r)
                                   (rows_of t d)) d)
                     | _ => Returns
                              (with_rows t
                                 (map (fun r => if p r then assign t sets r else r)
                                      (rows_of t d)) d)
                     end with
               | Raises e => Raises e
               | Returns d2 =>
                   Returns (d2, Z.of_nat (List.length
                                            (map (assign t sets) (filter p (rows_of t d)))))
               end = Returns (d', n)).
  { destruct (map (assign t sets) (filter p (rows_of t d)));
      [| destruct (unique_broken _ _ _); [discriminate |]]; exact H. }
  rewrite length_map in H'.
  destruct t; cbv iota in H' |- *.
  - injection H' as <- <-. split; reflexivity.
  - destruct (after_update _ _) as [d2|e]; [| discriminate].
    injection H' as <- <-. split; reflexivity.
  - injection H' as <- <-. split; reflexivity.
Qed.

Lemma chats_after_delete_triggers (l : list row) (d : database) :
  rows_CharacterChats (fold_left (fun acc r => CharacterChats_ad r acc) l d)
  = rows_CharacterChats d.
Proof.
  revert d. induction l as [|r l IH]; intros d; simpl.
  - reflexivity.
  - rewrite IH. reflexivity.
Qed.

Lemma new_chat_has_id (clock : string) (given : list (string * value)) (fresh : Z) :
  row_id (new_row CharacterChats clock given fresh) <> VNull.
Proof.
  unfold row_id, new_row. simpl.
  destruct (assoc "id" given) as [[]|]; discriminate.
Qed.

(** INSERT: the new row's id is not one of the ids in the table, by the
    uniqueness of the primary key. *)
Lemma insert_chat_ids (fk : bool) (clock : string) (t : table)
    (given : list (string * value)) (d d' : database) (id : value) :
  insert fk clock t given d = Returns (d', id) ->
  chat_ids_unique d -> chat_ids_unique d'.
Proof.
  unfold insert, chat_ids_unique.
  destruct (not_null_violation t _); [discriminate|].
  destruct (unique_violation t (rows_of t d) _) eqn:U; [discriminate|].
  destruct (fk && _); [discriminate|].
  intros H Hd. injection H as <- _.
  destruct t.
  - destruct (row_id _); simpl; exact Hd.
  - set (r := new_row CharacterChats clock given (next_rowid CharacterChats d)) in *.
    assert (Hrows : forall d2, rows_CharacterChats d2 = rows_CharacterChats d ++ [r] ->
                     NoDup (map row_id (rows_CharacterChats d2))).
    { intros d2 ->. rewrite map_app. simpl.
      apply (Permutation_NoDup (Permutation_cons_append _ _)).
      constructor; [|exact Hd].
      intros Hin.
      pose proof (find_none _ _ U _ (or_introl eq_refl)) as U'.
      cbn [col_unique col_name andb] in U'.
      destruct (value_eqb (row_get r "id") VNull) eqn:Hnull.
      - apply value_eqb_eq in Hnull. exact (new_chat_has_id clock given _ Hnull).
      - cbn [negb andb] in U'.
        apply in_map_iff in Hin. destruct Hin as [e [He Hin]].
        assert (existsb (fun e0 => value_eqb (row_get e0 "id") (row_get r "id"))
                        (rows_of CharacterChats d) = true) as Hex.
        { apply existsb_exists. exists e. split; [exact Hin|].
          apply value_eqb_eq. exact He. }
        congruence. }
    apply Hrows. unfold CharacterChats_ai. simpl rows_CharacterChats.
    destruct (row_id _); reflexivity.
  - destruct (row_id _); simpl; exact Hd.
Qed.

(** UPDATE that assigns no id leaves the ids as they are. *)
Lemma update_chat_ids (t : table) (sets : list (string * value)) (p : row -> bool)
    (d d' : database) (n : Z) :
  update t sets p d = Returns (d', n) ->
  (t = CharacterChats -> forall cv, In cv sets -> fst cv <> "id") ->
  chat_ids_unique d -> chat_ids_unique d'.
Proof.
  unfold chat_ids_unique. intros H Hsets Hd.
  apply update_returns in H. cbv zeta in H. destruct H as [_ H].
  assert (Hrows : rows_CharacterChats d'
                  = rows_CharacterChats
                      (with_rows t (map (fun r => if p r then assign t sets r else r)
                                        (rows_of t d)) d)).
  { destruct t; [now subst d' | now apply chats_after_update_triggers in H | now subst d']. }
  rewrite Hrows. destruct t; simpl; try exact Hd.
  rewrite map_map.
  rewrite (map_ext (fun r => row_id (if p r then assign CharacterChats sets r else r)) row_id).
  - exact Hd.
  - intros r. destruct (p r); [|reflexivity].
    apply assign_keeps_id. apply Hsets. reflexivity.
Qed.

Lemma delete_keywords_chats (p : row -> bool) (d : database) :
  rows_CharacterChats (delete_keywords p d) = rows_CharacterChats d.
Proof. reflexivity. Qed.

Lemma delete_chats_ids (fk : bool) (p : row -> bool) (d : database) :
  chat_ids_unique d -> chat_ids_unique (delete_chats fk p d).
Proof.
  unfold chat_ids_unique, delete_chats. intros Hd.
  destruct fk; [rewrite delete_keywords_chats|];
    rewrite chats_after_delete_triggers; simpl;
    apply NoDup_map_filter; exact Hd.
Qed.

(** DELETE, cascades included, only removes rows. *)
Lemma delete_chat_ids (fk : bool) (t : table) (p : row -> bool) (d : database) :
  chat_ids_unique d -> chat_ids_unique (fst (delete fk t p d)).
Proof.
  intros Hd. destruct t; simpl.
  - unfold delete_cards. destruct fk.
    + apply delete_chats_ids. exact Hd.
    + exact Hd.
  - apply delete_chats_ids. exact Hd.
  - exact Hd.
Qed.

Lemma chat_ids_unique_preserved : preserved chat_ids_unique.
Proof.
  constructor.
  - exact insert_chat_ids.
  - exact update_chat_ids.
  - exact delete_chat_ids.
Qed.

Section Keeps.
Context {E : Engine}.
Variable P : database -> Prop.
Hypothesis HP : preserved P.

Lemma keeps_ret {A : Type} (I : connection -> Prop) (a : A) : keeps I (ret a).
Proof. intros c H. exact H. Qed.

Lemma keeps_lift {A : Type} (I : connection -> Prop) (o : outcome A) : keeps I (lift o).
Proof. intros c H. exact H. Qed.

Lemma keeps_bind {A B : Type} (I : connection -> Prop) (m : M A) (k : A -> M B) :
  keeps I m -> (forall a, keeps I (k a)) -> keeps I (bindM m k).
Proof.
  intros Hm Hk c H. unfold bindM.
  specialize (Hm c H). destruct (m c) as [[a|e] c']; simpl in *.
  - apply Hk. exact Hm.
  - exact Hm.
Qed.

Lemma keeps_try_except {A : Type} (I : connection -> Prop) (body : M A)
    (classes : exn -> bool) (handler : exn -> M A) :
  keeps I body -> (forall e, keeps I (handler e)) ->
  keeps I (try_except body classes handler).
Proof.
  intros Hb Hh c H. unfold try_except.
  specialize (Hb c H). destruct (body c) as [[a|e] c']; simpl in *.
  - exact Hb.
  - destruct (classes e); [apply Hh|]; exact Hb.
Qed.

Lemma keeps_commit : keeps (on_both P) commit.
Proof. intros c [_ H]. split; exact H. Qed.

Lemma keeps_fetchone : keeps (on_both P) fetchone.
Proof. intros c H. unfold fetchone. destruct (fetched c); exact H. Qed.

Lemma keeps_fetchall : keeps (on_both P) fetchall.
Proof. intros c H. exact H. Qed.

Lemma keeps_cursor_lastrowid : keeps (on_both P) cursor_lastrowid.
Proof. intros c H. exact H. Qed.

Lemma keeps_cursor_rowcount : keeps (on_both P) cursor_rowcount.
Proof. intros c H. exact H. Qed.

Lemma keeps_cursor_columns : keeps (on_both P) cursor_columns.
Proof. intros c H. exact H. Qed.

Lemma keeps_run (sql : statement) (vs : list value) :
  assigns_no_chat_id sql -> keeps (on_both P) (run sql vs).
Proof.
  intros Hsql c [Hc Hw]. unfold run.
  destruct sql as [ | what | t cols | t cols where_ | t where_ | dist sel t where_
                  | and_id | text ].
  - split; assumption.
  - split; assumption.
  - destruct (insert _ _ _ _ _) as [[d id]|e] eqn:Hins; simpl.
    + split; [exact Hc|]. exact (by_insert P HP _ _ _ _ _ _ _ Hins Hw).
    + split; assumption.
  - destruct (update _ _ _ _) as [[d n]|e] eqn:Hup; simpl.
    + split; [exact Hc|]. apply (by_update P HP _ _ _ _ _ _ Hup); [|exact Hw].
      intros -> cv Hin Hid. apply Hsql. rewrite <- Hid.
      destruct cv as [k v]. exact (in_combine_l _ _ _ _ Hin).
    + split; assumption.
  - simpl. split; [exact Hc|]. apply (by_delete P HP). exact Hw.
  - split; assumption.
  - destruct vs as [|[ | z | q | b] rest]; try (split; assumption).
    destruct (select_chats_match _ _ _); split; assumption.
  - destruct vs as [|q [|[ | limit | | ] [|[ | offset | | ] [|]]]]; try (split; assumption).
    destruct (select_chats_where _ _ _); split; assumption.
Qed.

Lemma keeps_execute (sql : statement) (params : list pyval) :
  assigns_no_chat_id sql -> keeps (on_both P) (execute sql params).
Proof.
  intros Hsql c H. unfold execute.
  assert (Hr : on_both P (record (Execute sql params) c)) by exact H.
  destruct (prepare sql); [exact Hr|].
  destruct (negb _); [exact Hr|].
  destruct (bind_all params); [|exact Hr].
  apply keeps_run; assumption.
Qed.

Lemma keeps_executemany (sql : statement) (seq_of_params : list (list pyval)) :
  assigns_no_chat_id sql -> keeps (on_both P) (executemany sql seq_of_params).
Proof.
  intros Hsql. induction seq_of_params as [|params rest IH]; simpl.
  - apply keeps_ret.
  - apply keeps_bind; [apply keeps_execute; exact Hsql | intros _; exact IH].
Qed.

Lemma with_connection_keeps {A : Type} (body : M A) (s : store) :
  keeps (on_both P) body -> P (file s) -> P (file (snd (with_connection body s))).
Proof.
  intros Hb Hs. unfold with_connection. simpl.
  apply (Hb (connect s)). split; exact Hs.
Qed.

End Keeps.

Ltac keeps_step HP :=
  match goal with
  | |- keeps _ (bindM _ _) => apply keeps_bind; [|intros ?]
  | |- keeps _ (try_except _ _ _) => apply keeps_try_except; [|intros ?]
  | |- keeps _ (ret _) => apply keeps_ret
  | |- keeps _ (lift _) => apply keeps_lift
  | |- keeps _ commit => apply keeps_commit
  | |- keeps _ fetchone => apply keeps_fetchone
  | |- keeps _ fetchall => apply keeps_fetchall
  | |- keeps _ cursor_lastrowid => apply keeps_cursor_lastrowid
  | |- keeps _ cursor_rowcount => apply keeps_cursor_rowcount
  | |- keeps _ cursor_columns => apply keeps_cursor_columns
  | |- keeps _ (execute _ _) =>
      apply (keeps_execute _ HP); simpl; try exact I; intuition discriminate
  | |- keeps _ (executemany _ _) =>
      apply (keeps_executemany _ HP); simpl; try exact I; intuition discriminate
  | |- keeps _ (match ?x with _ => _ end) => destruct x
  end.

Ltac open_connection HP Hs :=
  apply with_connection_keeps; [repeat keeps_step HP | exact Hs].

Section Reachable.
Context {E : Engine}.

(** What INSERT, UPDATE and DELETE keep, every call of the module keeps. *)
Lemma after_call_keeps (P : database -> Prop) (c : call) (s : store) :
  preserved P -> P (file s) -> P (file (after c s)).
Proof.
  intros HP Hs.
  destruct c; unfold after.
  - unfold initialize_database. open_connection HP Hs.
  - unfold add_character_card. open_connection HP Hs.
  - unfold update_character_card. open_connection HP Hs.
  - unfold delete_character_card. open_connection HP Hs.
  - unfold add_character_chat. open_connection HP Hs.
  - unfold update_character_chat. open_connection HP Hs.
  - unfold delete_character_chat. open_connection HP Hs.
  - unfold get_character_cards. open_connection HP Hs.
  - unfold get_character_card_by_id. open_connection HP Hs.
  - unfold get_character_chats. open_connection HP Hs.
  - unfold search_character_chats.
    destruct (Str.strip query =? EmptyString)%string; [exact Hs|].
    open_connection HP Hs.
  - unfold fetch_keywords_for_chats. destruct keywords; [exact Hs|].
    open_connection HP Hs.
  - unfold search_db.
    destruct (Str.strip query =? EmptyString)%string; [exact Hs|].
    open_connection HP Hs.
Qed.

(** In every state the module can bring about, the rowids of
    CharacterChats are pairwise different. *)
Lemma reachable_unique (s : store) : reachable s -> chat_ids_unique (file s).
Proof.
  induction 1 as [t | c s _ IH | t s _ IH].
  - apply (after_call_keeps _ Initialize_database _ chat_ids_unique_preserved).
    constructor.
  - apply (after_call_keeps _ _ _ chat_ids_unique_preserved). exact IH.
  - exact IH.
Qed.

End Reachable.

(** ** Pages of [search_db] *)

Section Pagination.
Context {E : Engine}.

(** A call of [search_db] returns the slice of the full match set that
    starts at [(page - 1) * results_per_page] and has at most
    [results_per_page] rows, and it leaves the file alone. *)
Lemma search_db_run (query : string) (fields : list string) (where_clause : string)
    (page results_per_page : Z) (s : store) :
  fst (search_db query fields where_clause page results_per_page s)
    = Returns (limit_offset results_per_page ((page - 1) * results_per_page)
                 (search_db_matches query fields where_clause (file s)))
  /\ file (snd (search_db query fields where_clause page results_per_page s)) = file s.
Proof.
  unfold search_db, search_db_matches.
  destruct (Str.strip query =? EmptyString)%string.
  - rewrite limit_offset_nil. split; reflexivity.
  - unfold with_connection, try_except, bindM, execute.
    cbn [prepare arity List.length Nat.eqb negb bind_all bind].
    unfold run. cbn [working record connect].
    destruct (select_chats_where _ _ _) as [rs|e]; cbn.
    + rewrite limit_offset_map. split; reflexivity.
    + rewrite limit_offset_nil. split; reflexivity.
Qed.

Lemma search_db_pages_run (query : string) (fields : list string) (where_clause : string)
    (size count i : nat) (s : store) :
  search_db_pages query fields where_clause (Z.of_nat size) (Z.of_nat i + 1) count s
  = map (fun j => firstn size
                    (skipn (j * size) (search_db_matches query fields where_clause (file s))))
        (seq i count).
Proof.
  revert i s. induction count as [|count IH]; intros i s; simpl.
  - reflexivity.
  - destruct (search_db_run query fields where_clause (Z.of_nat i + 1) (Z.of_nat size) s)
      as [Hres Hfile].
    rewrite Hres. simpl result. rewrite limit_offset_page.
    replace (Z.of_nat i + 1 + 1) with (Z.of_nat (S i) + 1) by lia.
    rewrite IH, Hfile. reflexivity.
Qed.

Lemma id_of_search_row (r : row) :
  Dict.lookup (dict_zip search_columns (map (row_get r) search_columns)) "id"
  = Some (py_of_value (row_id r)).
Proof. reflexivity. Qed.

(** The full match set holds each chat once. *)
Lemma search_db_matches_ids (query : string) (fields : list string)
    (where_clause : string) (d : database) :
  chat_ids_unique d -> NoDup (ids_of (search_db_matches query fields where_clause d)).
Proof.
  intros Hd. unfold search_db_matches.
  destruct (Str.strip query =? EmptyString)%string; [constructor|].
  unfold select_chats_where.
  destruct (sql_where _) as [run_|]; [|constructor].
  destruct (run_ _) as [keep|]; [|constructor].
  unfold ids_of, project. rewrite !map_map.
  rewrite (map_ext _ (fun r => Some (py_of_value (row_id r))))
    by (intros r; apply id_of_search_row).
  rewrite <- (map_map row_id (fun v => Some (py_of_value v))).
  apply NoDup_map_NoDup_ForallPairs.
  - intros a b _ _ Hab. injection Hab as Hab. apply py_of_value_inj. exact Hab.
  - apply (Permutation_NoDup
             (Permutation_sym (Permutation_map row_id (sort_by_perm _ _)))).
    apply NoDup_map_filter. exact Hd.
Qed.

(** When the statement compiles and runs, the full match set is made of
    the chats that pass its test, in rank order. *)
Lemma search_db_matches_passing (query : string) (fields : list string)
    (where_clause : string) (keep : list fts_doc -> row -> bool) (d : database) :
  Str.blank query = false ->
  search_db_condition query fields where_clause = Some keep ->
  exists ranked_,
    Permutation ranked_ (chats_passing keep d)
    /\ search_db_matches query fields where_clause d = map search_row ranked_.
Proof.
  intros Hblank Hkeep. unfold search_db_matches.
  destruct (String.eqb_spec (Str.strip query) EmptyString) as [Hs|_].
  { apply strip_empty_iff_blank in Hs. congruence. }
  unfold search_db_condition in Hkeep. unfold select_chats_where.
  destruct (sql_where _) as [run_|]; [| discriminate].
  rewrite Hkeep. eexists. split; [apply sort_by_perm |].
  unfold project. rewrite map_map. reflexivity.
Qed.

(** C7.  [search_db] is paginated by a limit of the page size and an
    offset of (page - 1) times the page size.  In any state of the file
    the module can bring about, for a query that is not blank, with column
    names for fields and comparisons for the extra condition, and when the
    statement compiles and runs: with N the number of chats that pass the
    statement's test and with page size 5, the pages 1 to ceil(N / 5) put
    end to end hold exactly the chats that pass the test, each as the search
    returns it and none of them twice, no chat id occurs on two pages, no
    page has more than 5 chats, and every page from 1 on, whose offset fits
    SQLite's INTEGER, is the slice of that sequence that starts at
    (page - 1) * 5 and has at most 5 chats. *)
Theorem search_db_pages_partition (query : string) (fields : list string)
    (comparisons : list (string * Z)) (keep : list fts_doc -> row -> bool) (s : store) :
  reachable s ->
  plain_texts fields comparisons ->
  Str.blank query = false ->
  search_db_condition query fields (disjunction comparisons) = Some keep ->
  let matching := chats_passing keep (file s) in
  let pages := search_db_pages query fields (disjunction comparisons) 5 1
                 (pages_needed (List.length matching) 5) s in
  Permutation (List.concat pages) (map search_row matching)
  /\ NoDup (ids_of (List.concat pages))
  /\ Forall (fun page => (List.length page <= 5)%nat) pages
  /\ forall page,
       1 <= page -> int64 ((page - 1) * 5) ->
       fst (search_db query fields (disjunction comparisons) page 5 s)
       = Returns (firstn 5 (skipn (Z.to_nat ((page - 1) * 5)) (List.concat pages))).
Proof.
  intros Hs _ Hblank Hkeep matching pages.
  set (where_clause := disjunction comparisons) in *.
  set (full := search_db_matches query fields where_clause (file s)).
  destruct (search_db_matches_passing query fields where_clause keep (file s) Hblank Hkeep)
    as (ranked_ & Hperm & Hfull).
  fold full in Hfull. fold matching in Hperm.
  assert (Hlen : List.length matching = List.length full).
  { rewrite Hfull, length_map. symmetry. apply Permutation_length, Hperm. }
  assert (Hpages : pages
                   = map (fun j => firstn 5 (skipn (j * 5) full))
                         (seq 0 (pages_needed (List.length full) 5))).
  { unfold pages. rewrite Hlen.
    exact (search_db_pages_run query fields where_clause 5
             (pages_needed (List.length full) 5) 0 s). }
  assert (Hall : List.concat pages = full).
  { rewrite Hpages. apply concat_all_pages. lia. }
  split; [| split; [| split]].
  - rewrite Hall, Hfull. apply Permutation_map, Hperm.
  - rewrite Hall. apply search_db_matches_ids. apply reachable_unique. exact Hs.
  - rewrite Hpages. apply Forall_forall. intros page Hin.
    apply in_map_iff in Hin. destruct Hin as [j [<- _]].
    rewrite length_firstn. lia.
  - intros page _ _. rewrite Hall.
    destruct (search_db_run query fields where_clause page 5 s) as [-> _].
    reflexivity.
Qed.

End Pagination.

Lemma reachable_s1 : reachable (E := Bareword.engine) Run.s1.
Proof.
  exact (reachable_call (Add_character_card Run.Ada) _ (reachable_new _)).
Qed.

Lemma reachable_s7 : reachable (E := Bareword.engine) Run.s7.
Proof.
  unfold Run.s7.
  induction ["g"; "f"; "e"; "d"; "c"; "b"; "a"] as [|n l IH]; simpl.
  - exact reachable_s1.
  - exact (reachable_call (Add_character_chat 1 n [("user", "hello")] None false) _ IH).
Qed.

Lemma search_db_pages_partition_witness :
  reachable (E := Bareword.engine) Run.s7
  /\ plain_texts ["CharacterChats_fts"] []
  /\ Str.blank "hello" = false
  /\ search_db_condition (E := Bareword.engine) "hello" ["CharacterChats_fts"]
       (disjunction []) = Some hello_test
  /\ (let matching := chats_passing hello_test (file Run.s7) in
      let pages := search_db_pages (E := Bareword.engine)
                     "hello" ["CharacterChats_fts"] (disjunction []) 5 1
                     (pages_needed (List.length matching) 5) Run.s7 in
      Permutation (List.concat pages) (map search_row matching)
      /\ NoDup (ids_of (List.concat pages))
      /\ Forall (fun page => (List.length page <= 5)%nat) pages
      /\ forall page,
           1 <= page -> int64 ((page - 1) * 5) ->
           fst (search_db (E := Bareword.engine)
                  "hello" ["CharacterChats_fts"] (disjunction []) page 5 Run.s7)
           = Returns (firstn 5 (skipn (Z.to_nat ((page - 1) * 5)) (List.concat pages)))).
Proof.
  assert (Hplain : plain_texts ["CharacterChats_fts"] []) by (split; reflexivity).
  assert (Hblank : Str.blank "hello" = false) by reflexivity.
  assert (Hkeep : search_db_condition (E := Bareword.engine) "hello" ["CharacterChats_fts"]
                    (disjunction []) = Some hello_test) by reflexivity.
  split; [exact reachable_s7 |]. split; [exact Hplain |]. split; [exact Hblank |].
  split; [exact Hkeep |].
  exact (search_db_pages_partition (E := Bareword.engine)
           "hello" ["CharacterChats_fts"] [] hello_test Run.s7
           reachable_s7 Hplain Hblank Hkeep).
Defined.

(** The seven chats of [Run.s7] pass the test, and the two pages hold the
    seven of them. *)
Example search_db_seven_matches :
  List.length (chats_passing hello_test (file Run.s7)) = 7%nat
  /\ pages_needed 7 5 = 2%nat.
Proof. evaluate. Qed.

Example search_db_two_pages :
  map ids_of
      (search_db_pages (E := Bareword.engine) "hello" ["CharacterChats_fts"] EmptyString
         5 1 3 Run.s7)
  = [ [Some (PyInt 1); Some (PyInt 2); Some (PyInt 3); Some (PyInt 4); Some (PyInt 5)];
      [Some (PyInt 6); Some (PyInt 7)];
      [] ]
  /\ pages_needed
       (List.length (search_db_matches (E := Bareword.engine)
                       "hello" ["CharacterChats_fts"] EmptyString (file Run.s7))) 5 = 2%nat
  /\ hits_and_status (fst (search_character_chats (E := Bareword.engine) "hello" None Run.s7))
     = Some (map (fun n => Some (PyInt n)) [1; 2; 3; 4; 5; 6; 7],
             "Found 7 chat(s) matching 'hello' across all characters.").
Proof. evaluate. Qed.

Example search_db_unknown_field :
  fst (search_db (E := Bareword.engine) "hello" ["content"] "media_id = 1" 1 5 Run.s7)
  = Returns [].
Proof. evaluate. Qed.

(** ** The statements of the chat functions, on any database *)

Section Statements.
Context {E : Engine}.

Lemma execute_ok (sql : statement) (params : list pyval) (vs : list value)
    (c : connection) :
  prepare sql = None -> List.length params = arity sql -> bind_all params = Returns vs ->
  execute sql params c = run sql vs (record (Execute sql params) c).
Proof.
  intros Hp Ha Hb. unfold execute. rewrite Hp, Ha, Nat.eqb_refl, Hb. reflexivity.
Qed.

Lemma max_rowid_bound (rs : list row) (e : row) (z : Z) :
  In e rs -> row_id e = VInt z -> z <= max_rowid rs.
Proof.
  induction rs as [|r rs IH]; simpl; intros Hin Hid.
  - contradiction.
  - destruct Hin as [->|Hin].
    + rewrite Hid. lia.
    + specialize (IH Hin Hid). destruct (row_id r); lia.
Qed.

(** The rowid AUTOINCREMENT hands out is in no row of the table. *)
Lemma next_rowid_fresh (t : table) (d : database) :
  existsb (fun e => value_eqb (row_get e "id") (VInt (next_rowid t d))) (rows_of t d)
  = false.
Proof.
  destruct (existsb _ _) eqn:H; [|reflexivity].
  apply existsb_exists in H. destruct H as [e [Hin He]].
  apply value_eqb_eq in He.
  pose proof (max_rowid_bound _ _ _ Hin He) as Hb.
  unfold next_rowid in Hb. lia.
Qed.

Lemma dumps_history_returns (chat_history : list (string * string)) :
  exists text, Json.dumps (py_history chat_history) = Returns text.
Proof.
  unfold py_history. simpl.
  assert (H : exists parts,
             Json.traverse Json.dumps
               (map (fun m => PyTuple [PyStr (fst m); PyStr (snd m)]) chat_history)
             = Returns parts).
  { induction chat_history as [|m h [parts IH]]; simpl.
    - eexists. reflexivity.
    - simpl in IH. rewrite IH. eexists. reflexivity. }
  destruct H as [parts H]. simpl in H. rewrite H. eexists. reflexivity.
Qed.

(** Without keywords, [add_character_chat] succeeds for every character
    id that the statement binds (see [bind]), whether CharacterCards has a
    row with that id or not: it appends the chat, gives its text to the
    index, and returns the new id. *)
Lemma add_character_chat_inserts (character_id : Z) (conversation_name : string)
    (chat_history : list (string * string)) (is_snapshot : bool) (s : store) :
  exists text,
    Json.dumps (py_history chat_history) = Returns text
    /\ let id := next_rowid CharacterChats (file s) in
       let chat := new_chat id character_id conversation_name text is_snapshot (clock s) in
       let r := add_character_chat character_id conversation_name chat_history None
                                   is_snapshot s in
       fst r = Returns (PyInt id)
       /\ rows_CharacterChats (file (snd r)) = rows_CharacterChats (file s) ++ [chat]
       /\ CharacterChats_fts (file (snd r)) = CharacterChats_fts (file s) ++ [shadow chat]
       /\ rows_CharacterCards (file (snd r)) = rows_CharacterCards (file s).
Proof.
  destruct (dumps_history_returns chat_history) as [text Htext].
  exists text. split; [exact Htext|].
  cbv zeta.
  unfold add_character_chat, with_connection, try_except, bindM, lift.
  rewrite Htext.
  rewrite (execute_ok _ _
             [VInt character_id; VText conversation_name; VText text;
              VInt (if is_snapshot then 1 else 0)])
    by reflexivity.
  unfold run, insert.
  cbn [foreign_keys now working record connect andb].
  change (not_null_violation CharacterChats _) with (@None column).
  cbv iota.
  unfold unique_violation.
  cbn [schema find col_unique col_name col andb].
  change (row_get (new_row CharacterChats (clock s) _ _) "id")
    with (VInt (next_rowid CharacterChats (file s))).
  cbn [value_eqb negb andb].
  rewrite (next_rowid_fresh CharacterChats (file s)).
  cbv iota.
  repeat split; reflexivity.
Qed.

End Statements.

(** ** Deleting a chat takes nothing out of the index *)

Lemma fts_doc_eqb_eq (a b : fts_doc) : fts_doc_eqb a b = true <-> a = b.
Proof.
  destruct a as [r1 n1 h1], b as [r2 n2 h2]. unfold fts_doc_eqb. simpl.
  rewrite !andb_true_iff, !value_eqb_eq. split.
  - intros [[-> ->] ->]. reflexivity.
  - intros H. injection H as -> -> ->. auto.
Qed.

Lemma same_id_same_row (rs : list row) (a b : row) :
  NoDup (map row_id rs) -> In a rs -> In b rs -> row_id a = row_id b -> a = b.
Proof.
  induction rs as [|r rs IH]; simpl; intros Hnd Ha Hb Hab.
  - contradiction.
  - apply NoDup_cons_iff in Hnd. destruct Hnd as [Hr Hrs].
    destruct Ha as [->|Ha], Hb as [->|Hb].
    + reflexivity.
    + exfalso. apply Hr. rewrite Hab. apply in_map. exact Hb.
    + exfalso. apply Hr. rewrite <- Hab. apply in_map. exact Ha.
    + apply IH; assumption.
Qed.

(** The content table's row for the rowid of one of its rows is that row. *)
Lemma fts5_content_of_row (chats : list row) (r : row) :
  NoDup (map row_id chats) -> In r chats ->
  fts5_content chats (row_id r) = Some (shadow r).
Proof.
  intros Hnd Hin. unfold fts5_content.
  destruct (find _ chats) as [e|] eqn:Hfind.
  - apply find_some in Hfind. destruct Hfind as [He Heq].
    apply value_eqb_eq in Heq.
    rewrite (same_id_same_row chats e r Hnd He Hin Heq). reflexivity.
  - exfalso. pose proof (find_none _ _ Hfind r Hin) as H. cbv beta in H.
    rewrite value_eqb_refl in H. discriminate.
Qed.

(** A rowid that was deleted is not in the content table any more. *)
Lemma fts5_content_of_deleted (chats : list row) (p : row -> bool) (r : row) :
  NoDup (map row_id chats) -> In r (filter p chats) ->
  fts5_content (filter (fun e => negb (p e)) chats) (row_id r) = None.
Proof.
  intros Hnd Hin. unfold fts5_content.
  destruct (find _ _) as [e|] eqn:Hfind; [|reflexivity].
  exfalso. apply find_some in Hfind. destruct Hfind as [He Heq].
  apply value_eqb_eq in Heq.
  apply filter_In in He. destruct He as [He Hpe].
  apply filter_In in Hin. destruct Hin as [Hin Hpr].
  rewrite (same_id_same_row chats e r Hnd He Hin Heq) in Hpe.
  rewrite Hpr in Hpe. discriminate.
Qed.

Lemma delete_triggers_keep_index (gone : list row) (d : database) :
  (forall r, In r gone -> fts5_content (rows_CharacterChats d) (row_id r) = None) ->
  CharacterChats_fts (fold_left (fun acc r => CharacterChats_ad r acc) gone d)
  = CharacterChats_fts d.
Proof.
  revert d. induction gone as [|r gone IH]; intros d H; simpl.
  - reflexivity.
  - rewrite IH.
    + unfold CharacterChats_ad, fts5_delete. simpl.
      rewrite (H r (or_introl eq_refl)). reflexivity.
    + intros r' Hin. apply H. right. exact Hin.
Qed.

(** The AFTER DELETE trigger never removes an entry: DELETE on
    CharacterChats, by a statement or by a cascade, leaves the index as it
    was. *)
Lemma delete_chats_keeps_index (fk : bool) (p : row -> bool) (d : database) :
  chat_ids_unique d ->
  CharacterChats_fts (delete_chats fk p d) = CharacterChats_fts d.
Proof.
  intros Hd. unfold delete_chats.
  assert (H : CharacterChats_fts
                (fold_left (fun acc r => CharacterChats_ad r acc)
                   (filter p (rows_CharacterChats d))
                   (with_rows CharacterChats
                      (filter (fun r => negb (p r)) (rows_CharacterChats d)) d))
              = CharacterChats_fts d).
  { rewrite delete_triggers_keep_index; [reflexivity|].
    intros r Hin. simpl. apply fts5_content_of_deleted; assumption. }
  destruct fk; [unfold delete_keywords; simpl|]; exact H.
Qed.

(** ... and the totals of the index. *)
Lemma totals_after_delete_triggers (l : list row) (d : database) :
  CharacterChats_fts_totals (fold_left (fun acc r => CharacterChats_ad r acc) l d)
  = CharacterChats_fts_totals d.
Proof.
  revert d. induction l as [|r l IH]; intros d; cbn [fold_left]; [reflexivity |].
  now rewrite IH.
Qed.

Lemma totals_after_delete_chats (fk : bool) (p : row -> bool) (d : database) :
  CharacterChats_fts_totals (delete_chats fk p d) = CharacterChats_fts_totals d.
Proof.
  unfold delete_chats, delete_keywords.
  destruct fk; cbn [CharacterChats_fts_totals with_rows];
    now rewrite totals_after_delete_triggers.
Qed.

Lemma delete_keeps_index (fk : bool) (t : table) (p : row -> bool) (d : database) :
  chat_ids_unique d ->
  CharacterChats_fts (fst (delete fk t p d)) = CharacterChats_fts d.
Proof.
  intros Hd. destruct t; simpl.
  - unfold delete_cards. destruct fk; [|reflexivity].
    apply (delete_chats_keeps_index true _
             (with_rows CharacterCards _ d)). exact Hd.
  - apply delete_chats_keeps_index. exact Hd.
  - reflexivity.
Qed.

(** ** [delete_character_card] on any store *)

Lemma sql_eq_integer (stored : value) (z : Z) :
  sql_eq INTEGER stored (VInt z) = true <-> stored = VInt z.
Proof.
  unfold sql_eq. destruct stored; simpl; split; intros H; try discriminate.
  - apply Z.eqb_eq in H. now subst.
  - injection H as ->. apply Z.eqb_refl.
Qed.

Lemma some_row_counted {A : Type} (p : A -> bool) (l : list A) :
  (0 <? Z.of_nat (List.length (filter p l))) = existsb p l.
Proof.
  induction l as [|x l IH]; simpl.
  - reflexivity.
  - destruct (p x); simpl.
    + destruct (Z.ltb_spec 0 (Z.pos (Pos.of_succ_nat (List.length (filter p l)))));
        [reflexivity | lia].
    + exact IH.
Qed.

Lemma delete_character_card_run {E : Engine} (character_id : Z) (s : store) :
  let of_character := where_matches CharacterChats ["character_id"] [VInt character_id] in
  let the_card := where_matches CharacterCards ["id"] [VInt character_id] in
  let d1 := delete_chats false of_character (file s) in
  delete_character_card character_id s
  = (Returns (0 <? Z.of_nat (List.length (filter the_card (rows_CharacterCards d1)))),
     {| file := delete_cards false the_card d1;
        log := (((((log s ++ [Connect])
                   ++ [Execute (DELETE_FROM CharacterChats ["character_id"])
                               [PyInt character_id]])
                  ++ [Execute (DELETE_FROM CharacterCards ["id"]) [PyInt character_id]])
                 ++ [Commit])
                ++ [Close]);
        clock := clock s |}).
Proof. reflexivity. Qed.

Lemma existsb_same {A : Type} (f g : A -> bool) (l : list A) :
  (forall x, f x = g x) -> existsb f l = existsb g l.
Proof.
  intros H. induction l as [|x l IH]; simpl.
  - reflexivity.
  - rewrite H, IH. reflexivity.
Qed.

Lemma delete_chats_keeps_cards (fk : bool) (p : row -> bool) (d : database) :
  rows_CharacterCards (delete_chats fk p d) = rows_CharacterCards d.
Proof.
  unfold delete_chats.
  assert (H : forall gone d0,
             rows_CharacterCards
               (fold_left (fun acc r => CharacterChats_ad r acc) gone d0)
             = rows_CharacterCards d0).
  { induction gone as [|r gone IH]; intros d0; simpl.
    - reflexivity.
    - rewrite IH. reflexivity. }
  destruct fk; [unfold delete_keywords; simpl|]; rewrite H; reflexivity.
Qed.

Lemma where_one_column (t : table) (c : string) (v : value) (r : row) :
  where_matches t [c] [v] r = sql_eq (column_affinity t c) (row_get r c) v.
Proof. unfold where_matches. simpl. apply orb_false_r. Qed.

(** X19.  What holds of [delete_character_card] for an id that fits
    SQLite's INTEGER, on every store with unique chat ids: it returns whether
    a character row had the id; afterwards no chat has that character_id
    and no character has that id; both DELETEs are committed by one commit;
    and the index and its totals are exactly as they were before. *)
Lemma delete_character_card_spec {E : Engine} (character_id : Z) (s : store) :
  int64 character_id -> chat_ids_unique (file s) ->
  let r := delete_character_card character_id s in
  fst r = Returns (existsb (fun c => sql_eq INTEGER (row_id c) (VInt character_id))
                           (rows_CharacterCards (file s)))
  /\ (forall c, In c (rows_CharacterChats (file (snd r))) ->
                row_get c "character_id" <> VInt character_id)
  /\ (forall c, In c (rows_CharacterCards (file (snd r))) ->
                row_id c <> VInt character_id)
  /\ CharacterChats_fts (file (snd r)) = CharacterChats_fts (file s)
  /\ CharacterChats_fts_totals (file (snd r)) = CharacterChats_fts_totals (file s)
  /\ log (snd r)
     = log s ++ [ Connect;
                  Execute (DELETE_FROM CharacterChats ["character_id"]) [PyInt character_id];
                  Execute (DELETE_FROM CharacterCards ["id"]) [PyInt character_id];
                  Commit; Close ].
Proof.
  intros _ Hs. cbv zeta. rewrite delete_character_card_run. cbv zeta.
  cbn [fst snd file log].
  split; [|split; [|split; [|split; [|split]]]].
  - rewrite some_row_counted, delete_chats_keeps_cards. f_equal.
    apply existsb_same. intros c. apply where_one_column.
  - unfold delete_cards, delete_chats.
    cbn [rows_CharacterChats with_rows].
    rewrite chats_after_delete_triggers. cbn [rows_CharacterChats with_rows].
    intros c Hin Hc. apply filter_In in Hin. destruct Hin as [_ Hin].
    rewrite where_one_column in Hin.
    change (column_affinity CharacterChats "character_id") with INTEGER in Hin.
    rewrite (proj2 (sql_eq_integer _ _) Hc) in Hin. discriminate.
  - unfold delete_cards. cbn [rows_CharacterCards with_rows].
    intros c Hin Hc. apply filter_In in Hin. destruct Hin as [_ Hin].
    rewrite where_one_column in Hin.
    change (column_affinity CharacterCards "id") with INTEGER in Hin.
    unfold row_id in Hc.
    rewrite (proj2 (sql_eq_integer _ _) Hc) in Hin. discriminate.
  - unfold delete_cards. cbn [CharacterChats_fts with_rows].
    apply delete_chats_keeps_index. exact Hs.
  - unfold delete_cards. cbn [CharacterChats_fts_totals with_rows].
    apply totals_after_delete_chats.
  - rewrite <- !app_assoc. reflexivity.
Qed.

(* ================================================================== *)
(** * Further properties of the module *)
(* ================================================================== *)

(** ** [perform_full_text_search_chat] *)

(** What [search_db] returns is made of the three columns it selects. *)
Lemma search_db_returns_search_columns {E : Engine} (query : string) (fields : list string)
    (where_clause : string) (page results_per_page : Z) (s : store) :
  exists tuples,
    fst (search_db query fields where_clause page results_per_page s)
    = Returns (map (dict_zip search_columns) tuples).
Proof.
  destruct (search_db_run query fields where_clause page results_per_page s) as [-> _].
  unfold search_db_matches.
  destruct (Str.strip query =? EmptyString)%string.
  - exists []. now rewrite limit_offset_nil.
  - destruct (select_chats_where _ _ _) as [rs|e].
    + eexists. now rewrite limit_offset_map.
    + exists []. now rewrite limit_offset_nil.
Qed.

Lemma no_content_among_search_columns (tuple : list value) :
  getitem (dict_zip search_columns tuple) "content" = Raises (KeyError "content").
Proof. destruct tuple as [|a [|b [|c t]]]; reflexivity. Qed.

(** The comprehension over rows of [search_db] keeps nothing: it ends at
    the first row that passes its test, on [result['content']]. *)
Lemma filtered_fts_results_of_search_db (tuples : list (list value)) (ids : list Z) :
  filtered_fts_results (map (dict_zip search_columns) tuples) ids = Returns []
  \/ exists k, filtered_fts_results (map (dict_zip search_columns) tuples) ids
               = Raises (KeyError k).
Proof.
  induction tuples as [|t tuples IH]; cbn [map filtered_fts_results]; [now left |].
  destruct (getitem (dict_zip search_columns t) "id") as [id|e] eqn:Hid.
  - destruct (py_in id ids); [| exact IH].
    rewrite no_content_among_search_columns. right. eauto.
  - right. unfold getitem in Hid. destruct (Dict.lookup _ _); [discriminate |].
    injection Hid as <-. eauto.
Qed.

(** X1.  [perform_full_text_search_chat] returns the empty list for every
    query, every list of chat ids, every page and page size, in every state
    of the file, and leaves the file as it is: the rows [search_db] hands
    back have the keys id, conversation_name and chat_history, and the
    function reads [result['content']]. *)
Theorem perform_full_text_search_chat_returns_nothing {E : Engine} (query : string)
    (relevant_chat_ids : list Z) (page results_per_page : Z) (s : store) :
  fst (perform_full_text_search_chat query relevant_chat_ids page results_per_page s)
    = Returns []
  /\ file (snd (perform_full_text_search_chat query relevant_chat_ids page
                                              results_per_page s)) = file s.
Proof.
  unfold perform_full_text_search_chat.
  set (where_clause := if (_ =? _)%string then _ else _).
  destruct (search_db_run query ["content"] where_clause page results_per_page s)
    as [_ Hfile].
  destruct (search_db_returns_search_columns query ["content"] where_clause page
              results_per_page s) as [tuples Hres].
  rewrite Hres. unfold except_Exception. cbn [fst snd].
  destruct (filtered_fts_results_of_search_db tuples relevant_chat_ids) as [-> | [k ->]];
    split; first [reflexivity | exact Hfile].
Qed.

(** ** [get_character_chats] and [fetch_all_chats] *)

Lemma map_filter_all {A B : Type} (F : A -> B) (p : A -> bool) (P : B -> bool)
    (l : list A) :
  (forall a, P (F a) = p a) ->
  map F (filter p l) = filter P (map F (filter (fun _ => true) l)).
Proof.
  intros H. induction l as [|a l IH]; cbn [filter map]; [reflexivity |].
  rewrite H. destruct (p a); cbn [map]; now rewrite IH.
Qed.


Lemma character_id_of_chat (r : row) (character_id : Z) :
  match Dict.lookup (chat_of_row r) "character_id" with
  | Some v => py_eq_int v character_id
  | None => false
  end
  = where_matches CharacterChats ["character_id"] [VInt character_id] r.
Proof.
  rewrite where_one_column.
  change (Dict.lookup (chat_of_row r) "character_id")
    with (Some (py_of_value (row_get r "character_id"))).
  change (column_affinity CharacterChats "character_id") with INTEGER.
  destruct (row_get r "character_id"); reflexivity.
Qed.

Lemma get_character_chats_run {E : Engine} (character_id : option Z) (s : store) :
  fst (get_character_chats character_id s)
  = Returns (map chat_of_row
               (filter match character_id with
                       | Some id => where_matches CharacterChats ["character_id"] [VInt id]
                       | None => fun _ => true
                       end
                       (rows_CharacterChats (file s))))
  /\ file (snd (get_character_chats character_id s)) = file s.
Proof.
  unfold chat_of_row. rewrite <- map_map.
  destruct character_id; split; reflexivity.
Qed.

Lemma filter_everything {A : Type} (l : list A) : filter (fun _ => true) l = l.
Proof. induction l as [|a l IH]; cbn [filter]; [reflexivity | now rewrite IH]. Qed.

(** X2.  [fetch_all_chats()] returns the rows of CharacterChats, each as a
    chat, and [get_character_chats(character_id)], for an id that fits
    SQLite's INTEGER, returns in the same order those of them whose
    character_id equals the argument. *)
Theorem get_character_chats_of_character {E : Engine} (character_id : Z) (s : store) :
  int64 character_id ->
  fst (fetch_all_chats s) = Returns (map chat_of_row (rows_CharacterChats (file s)))
  /\ fst (get_character_chats (Some character_id) s)
     = Returns (filter (fun chat => match Dict.lookup chat "character_id" with
                                    | Some v => py_eq_int v character_id
                                    | None => false
                                    end)
                       (result (fst (fetch_all_chats s)))).
Proof.
  intros _. unfold fetch_all_chats, except_Exception.
  destruct (get_character_chats_run (Some character_id) s) as [-> _].
  destruct (get_character_chats_run None s) as [-> _].
  cbn [fst result]. split.
  - now rewrite filter_everything.
  - f_equal. apply (map_filter_all chat_of_row). intros r. apply character_id_of_chat.
Qed.

(** ** [get_character_chat_by_id] *)

Section Chat_by_id.
Context {E : Engine}.
Variable decode : string -> outcome string.

Lemma get_character_chat_by_id_run (chat_id : Z) (s : store) :
  fst (get_character_chat_by_id decode chat_id s)
  = match filter (where_matches CharacterChats ["id"] [VInt chat_id])
                 (rows_CharacterChats (file s)) with
    | [] => Returns PyNone
    | r :: _ =>
        match json_loads decode (py_of_value (row_get r "chat_history")) with
        | Raises e => Raises e
        | Returns chat_history =>
            Returns (PyDict (Dict.set (chat_of_row r) "chat_history" chat_history))
        end
    end
  /\ file (snd (get_character_chat_by_id decode chat_id s)) = file s.
Proof.
  unfold get_character_chat_by_id, with_connection, bindM, execute.
  cbn [prepare arity List.length Nat.eqb negb bind_all bind fst snd].
  change (unknown_column CharacterChats _) with (@None string). cbv iota.
  unfold run, select, fetchone, cursor_columns, ret.
  cbn [fst snd fetched description after_read working record connect rows_of].
  destruct (filter _ _) as [|r rest]; cbn [map fst snd]; [split; reflexivity |].
  cbn. destruct (json_loads decode _); split; reflexivity.
Qed.

Lemma where_id (t : table) (chat_id : Z) (r : row) :
  column_affinity t "id" = INTEGER ->
  where_matches t ["id"] [VInt chat_id] r = true <-> row_id r = VInt chat_id.
Proof. intros H. rewrite where_one_column, H. apply sql_eq_integer. Qed.

Lemma filter_nothing {A : Type} (p : A -> bool) (l : list A) :
  (forall a, In a l -> p a = false) -> filter p l = [].
Proof.
  induction l as [|a l IH]; cbn [filter]; intros H; [reflexivity |].
  rewrite (H a) by now left. apply IH. intros b Hb. apply H. now right.
Qed.

Lemma no_chat_filter (chat_id : Z) (d : database) :
  no_chat chat_id d ->
  filter (where_matches CharacterChats ["id"] [VInt chat_id]) (rows_CharacterChats d) = [].
Proof.
  intros H. apply filter_nothing. intros r Hr.
  destruct (where_matches _ _ _ r) eqn:Hw; [| reflexivity].
  apply where_id in Hw; [| reflexivity]. now destruct (H r Hr).
Qed.

(** The rowid AUTOINCREMENT hands out next is the id of no chat. *)
Lemma no_chat_next_rowid (d : database) : no_chat (next_rowid CharacterChats d) d.
Proof.
  intros r Hr Hid. pose proof (next_rowid_fresh CharacterChats d) as F.
  assert (existsb (fun e => value_eqb (row_get e "id") (VInt (next_rowid CharacterChats d)))
                  (rows_of CharacterChats d) = true) as T; [| congruence].
  apply existsb_exists. exists r. split; [exact Hr |]. apply value_eqb_eq. exact Hid.
Qed.

Lemma dumps_pairs_as_lists (chat_history : list (string * string)) :
  Json.dumps (loaded_history chat_history) = Json.dumps (py_history chat_history).
Proof.
  unfold py_history, loaded_history. cbn [Json.dumps].
  assert (Json.traverse Json.dumps
            (map (fun m => PyList [PyStr (fst m); PyStr (snd m)]) chat_history)
          = Json.traverse Json.dumps
              (map (fun m => PyTuple [PyStr (fst m); PyStr (snd m)]) chat_history)) as ->;
    [| reflexivity].
  induction chat_history as [|m h IH]; [reflexivity |].
  cbn [map Json.traverse].
  change (Json.dumps (PyTuple [PyStr (fst m); PyStr (snd m)]))
    with (Json.dumps (PyList [PyStr (fst m); PyStr (snd m)])).
  now rewrite IH.
Qed.

(** The text of a history is read back with lists for its pairs. *)
Lemma history_loads (chat_history : list (string * string)) (text : string) :
  Json.dumps (py_history chat_history) = Returns text ->
  Json.loads text = Returns (loaded_history chat_history).
Proof.
  intros H. apply loads_dumps.
  - now rewrite dumps_pairs_as_lists.
  - clear H. unfold loaded_history. cbn [Json.is_json].
    induction chat_history as [|m h IH]; [reflexivity | exact IH].
Qed.

(** Reading the chat that is the last row and the only one with its id. *)
Lemma get_last_chat (chat_id : Z) (s : store) (rows : list row) (chat : row)
    (chat_history : pyval) :
  rows_CharacterChats (file s) = rows ++ [chat] ->
  (forall r, In r rows -> row_id r <> VInt chat_id) ->
  row_id chat = VInt chat_id ->
  json_loads decode (py_of_value (row_get chat "chat_history")) = Returns chat_history ->
  fst (get_character_chat_by_id decode chat_id s)
  = Returns (PyDict (Dict.set (chat_of_row chat) "chat_history" chat_history)).
Proof.
  intros Hrows Hnone Hid Hload.
  destruct (get_character_chat_by_id_run chat_id s) as [-> _].
  rewrite Hrows, filter_app.
  rewrite filter_nothing.
  - cbn [app filter]. rewrite (proj2 (where_id CharacterChats chat_id chat eq_refl) Hid).
    now rewrite Hload.
  - intros r Hr. destruct (where_matches _ _ _ r) eqn:Hw; [| reflexivity].
    apply where_id in Hw; [| reflexivity]. now destruct (Hnone r Hr).
Qed.

(** X3.  What [save_chat_history_to_character_db] saves,
    [get_character_chat_by_id] reads back under the id it returned, in any
    state of the file in which CharacterChats has an id left, and for any
    character id that fits SQLite's INTEGER, a character of that id
    existing or not: the name as given, the history with its pairs as lists,
    not a snapshot, created at the time of the call. *)
Theorem saved_chat_is_read_back (character_id : Z) (conversation_name : string)
    (chat_history : list (string * string)) (s : store) :
  int64 character_id -> id_left CharacterChats (file s) ->
  let saved := save_chat_history_to_character_db character_id conversation_name
                 chat_history s in
  exists chat_id,
    fst saved = Returns (PyInt chat_id)
    /\ fst (get_character_chat_by_id decode chat_id (snd saved))
       = Returns (PyDict [ ("id", PyInt chat_id);
                           ("character_id", PyInt character_id);
                           ("conversation_name", PyStr conversation_name);
                           ("chat_history", loaded_history chat_history);
                           ("is_snapshot", PyInt 0);
                           ("created_at", PyStr (clock s)) ]).
Proof.
  intros _ _. cbv zeta. unfold save_chat_history_to_character_db.
  destruct (add_character_chat_inserts character_id conversation_name chat_history false s)
    as (text & Htext & Hid & Hrows & _).
  exists (next_rowid CharacterChats (file s)). split; [exact Hid |].
  rewrite (get_last_chat _ _ _ _ (loaded_history chat_history) Hrows).
  - reflexivity.
  - apply no_chat_next_rowid.
  - reflexivity.
  - cbn. now apply history_loads.
Qed.

End Chat_by_id.

Section Add_chat.
Context {E : Engine}.

(** The keyword rows go in one after the other; none is refused on a
    connection that does not enforce foreign keys. *)
Lemma executemany_keywords (chat_id : Z) (ks : list string) : forall c : connection,
  foreign_keys c = false ->
  let r := executemany (INSERT_INTO ChatKeywords ["chat_id"; "keyword"])
             (map (fun keyword => [PyInt chat_id; PyStr (Str.lower (Str.strip keyword))]) ks)
             c in
  fst r = Returns tt
  /\ working (snd r)
     = with_rows ChatKeywords
         (rows_ChatKeywords (working c) ++ map (new_keyword chat_id) ks) (working c)
  /\ committed (snd r) = committed c
  /\ now (snd r) = now c.
Proof.
  induction ks as [|k ks IH]; intros c Hfk; cbv zeta.
  - cbn [map executemany ret fst snd]. rewrite List.app_nil_r.
    destruct (working c); repeat split; reflexivity.
  - cbn [map executemany]. unfold bindM.
    rewrite execute_ok with (vs := [VInt chat_id; VText (Str.lower (Str.strip k))])
      by reflexivity.
    unfold run, insert. cbn [foreign_keys record]. rewrite Hfk.
    cbn [andb]. change (new_row ChatKeywords _ _ _) with (new_keyword chat_id k).
    change (not_null_violation ChatKeywords _) with (@None column).
    change (unique_violation ChatKeywords _ _) with (@None column).
    change (row_id (new_keyword chat_id k)) with VNull.
    cbv iota.
    match goal with |- context [executemany ?q ?ps ?c1] =>
      specialize (IH c1 Hfk); cbv zeta in IH;
      destruct IH as (I1 & I2 & I3 & I4);
      destruct (executemany q ps c1) as [o c2] eqn:Ex
    end.
    cbn [fst snd] in *. subst o. cbn [fst snd].
    repeat split; try assumption.
    rewrite I2. cbn [working after_write record rows_ChatKeywords with_rows rows_of].
    rewrite <- List.app_assoc. reflexivity.
Qed.

Lemma next_rowid_above_seq (t : table) (d : database) :
  Z.max (seq_of t d) (next_rowid t d) = next_rowid t d.
Proof. unfold next_rowid. lia. Qed.

(** [add_character_chat] on any state of the file, with or without
    keywords, for a character id that the statement binds (see [bind]): it
    does not fail; the chat is the new last row, under an id that was in use
    by no chat; its keywords are the new last rows of ChatKeywords, stripped
    and in lower case. *)
Lemma add_character_chat_run (character_id : Z) (conversation_name : string)
    (chat_history : list (string * string)) (keywords : option (list string))
    (is_snapshot : bool) (s : store) :
  exists text,
    Json.dumps (py_history chat_history) = Returns text
    /\ let id := next_rowid CharacterChats (file s) in
       let chat := new_chat id character_id conversation_name text is_snapshot (clock s) in
       let r := add_character_chat character_id conversation_name chat_history keywords
                                   is_snapshot s in
       fst r = Returns (PyInt id)
       /\ rows_CharacterChats (file (snd r)) = rows_CharacterChats (file s) ++ [chat]
       /\ rows_ChatKeywords (file (snd r))
          = rows_ChatKeywords (file s) ++ map (new_keyword id) (given_keywords keywords)
       /\ rows_CharacterCards (file (snd r)) = rows_CharacterCards (file s)
       /\ seq_CharacterChats (file (snd r)) = id.
Proof.
  destruct (dumps_history_returns chat_history) as [text Htext].
  exists text. split; [exact Htext|].
  cbv zeta.
  unfold add_character_chat, with_connection, try_except, bindM, lift.
  rewrite Htext.
  rewrite (execute_ok _ _
             [VInt character_id; VText conversation_name; VText text;
              VInt (if is_snapshot then 1 else 0)])
    by reflexivity.
  unfold run, insert.
  cbn [foreign_keys now working record connect andb].
  change (not_null_violation CharacterChats _) with (@None column).
  cbv iota.
  unfold unique_violation.
  cbn [schema find col_unique col_name col andb].
  change (row_get (new_row CharacterChats (clock s) _ _) "id")
    with (VInt (next_rowid CharacterChats (file s))).
  cbn [value_eqb negb andb].
  rewrite (next_rowid_fresh CharacterChats (file s)).
  cbv iota.
  change (row_id (new_row CharacterChats (clock s) _ _))
    with (VInt (next_rowid CharacterChats (file s))).
  cbv iota.
  unfold cursor_lastrowid. cbn [lastrowid after_write fst snd].
  destruct keywords as [[|k ks]|].
  1, 3: cbn [ret commit fst snd file close committed write_file working record after_write
             given_keywords map];
        rewrite List.app_nil_r;
        repeat split; try reflexivity;
        cbn; apply (next_rowid_above_seq CharacterChats (file s)).
  match goal with |- context [executemany ?q ?ps ?c1] =>
    pose proof (executemany_keywords (next_rowid CharacterChats (file s)) (k :: ks) c1
                  eq_refl) as Hk;
    cbv zeta in Hk; destruct Hk as (K1 & K2 & K3 & K4);
    change (executemany q ps c1) with
      (executemany q (map (fun keyword =>
                             [PyInt (next_rowid CharacterChats (file s));
                              PyStr (Str.lower (Str.strip keyword))]) (k :: ks)) c1)
  end.
  destruct (executemany _ _ _) as [o c2]. cbn [fst snd] in K1, K2, K3, K4. subst o.
  cbn [ret commit fst snd file close committed write_file working record given_keywords].
  rewrite K2.
  repeat split; try reflexivity.
  cbn. apply (next_rowid_above_seq CharacterChats (file s)).
Qed.

(** ... and its text is given to the index, which counts its tokens. *)
Lemma add_character_chat_index (character_id : Z) (conversation_name : string)
    (chat_history : list (string * string)) (keywords : option (list string))
    (is_snapshot : bool) (s : store) :
  exists text,
    Json.dumps (py_history chat_history) = Returns text
    /\ let id := next_rowid CharacterChats (file s) in
       let chat := new_chat id character_id conversation_name text is_snapshot (clock s) in
       let r := add_character_chat character_id conversation_name chat_history keywords
                                   is_snapshot s in
       CharacterChats_fts (file (snd r)) = CharacterChats_fts (file s) ++ [shadow chat]
       /\ CharacterChats_fts_totals (file (snd r))
          = totals_with (shadow chat) (CharacterChats_fts_totals (file s)).
Proof.
  destruct (dumps_history_returns chat_history) as [text Htext].
  exists text. split; [exact Htext|].
  cbv zeta.
  unfold add_character_chat, with_connection, try_except, bindM, lift.
  rewrite Htext.
  rewrite (execute_ok _ _
             [VInt character_id; VText conversation_name; VText text;
              VInt (if is_snapshot then 1 else 0)])
    by reflexivity.
  unfold run, insert.
  cbn [foreign_keys now working record connect andb].
  change (not_null_violation CharacterChats _) with (@None column).
  cbv iota.
  unfold unique_violation.
  cbn [schema find col_unique col_name col andb].
  change (row_get (new_row CharacterChats (clock s) _ _) "id")
    with (VInt (next_rowid CharacterChats (file s))).
  cbn [value_eqb negb andb].
  rewrite (next_rowid_fresh CharacterChats (file s)).
  cbv iota.
  change (row_id (new_row CharacterChats (clock s) _ _))
    with (VInt (next_rowid CharacterChats (file s))).
  cbv iota.
  unfold cursor_lastrowid. cbn [lastrowid after_write fst snd].
  destruct keywords as [[|k ks]|].
  1, 3: cbn [ret commit fst snd file close committed write_file working record after_write];
        split; reflexivity.
  match goal with |- context [executemany ?q ?ps ?c1] =>
    pose proof (executemany_keywords (next_rowid CharacterChats (file s)) (k :: ks) c1
                  eq_refl) as Hk;
    cbv zeta in Hk; destruct Hk as (K1 & K2 & K3 & K4);
    change (executemany q ps c1) with
      (executemany q (map (fun keyword =>
                             [PyInt (next_rowid CharacterChats (file s));
                              PyStr (Str.lower (Str.strip keyword))]) (k :: ks)) c1)
  end.
  destruct (executemany _ _ _) as [o c2]. cbn [fst snd] in K1, K2, K3, K4. subst o.
  cbn [ret commit fst snd file close committed write_file working record].
  rewrite K2. split; reflexivity.
Qed.

End Add_chat.

Section Chats.
Context {E : Engine}.
Variable decode : string -> outcome string.

Lemma delete_character_chat_run (chat_id : Z) (s : store) :
  let the_chat := where_matches CharacterChats ["id"] [VInt chat_id] in
  fst (delete_character_chat chat_id s)
  = Returns (0 <? Z.of_nat (List.length (filter the_chat (rows_CharacterChats (file s)))))
  /\ file (snd (delete_character_chat chat_id s)) = delete_chats false the_chat (file s).
Proof. split; reflexivity. Qed.

Lemma keywords_after_delete_triggers (l : list row) (d : database) :
  rows_ChatKeywords (fold_left (fun acc r => CharacterChats_ad r acc) l d)
  = rows_ChatKeywords d.
Proof.
  revert d. induction l as [|r l IH]; intros d; cbn [fold_left]; [reflexivity |].
  now rewrite IH.
Qed.

Lemma filter_out_found {A : Type} (p : A -> bool) (l : list A) :
  filter p (filter (fun a => negb (p a)) l) = [].
Proof.
  apply filter_nothing. intros a Ha. apply filter_In in Ha as [_ Ha].
  now apply negb_true_iff.
Qed.

(** X20.  What holds of [delete_character_chat] for an id that fits
    SQLite's INTEGER, on every store with unique chat ids: it returns whether
    a chat had the id; afterwards the chats are those that do not have the
    id, as they were; and the index and its totals are exactly as they were
    before, the entry of the deleted chat included: when the AFTER DELETE
    trigger runs, the index table has no row of that rowid to delete. *)
Theorem delete_character_chat_spec (chat_id : Z) (s : store) :
  int64 chat_id -> chat_ids_unique (file s) ->
  let r := delete_character_chat chat_id s in
  fst r = Returns (existsb (fun c => sql_eq INTEGER (row_id c) (VInt chat_id))
                           (rows_CharacterChats (file s)))
  /\ rows_CharacterChats (file (snd r))
     = filter (fun c => negb (sql_eq INTEGER (row_id c) (VInt chat_id)))
              (rows_CharacterChats (file s))
  /\ CharacterChats_fts (file (snd r)) = CharacterChats_fts (file s)
  /\ CharacterChats_fts_totals (file (snd r)) = CharacterChats_fts_totals (file s).
Proof.
  intros _ Hs. cbv zeta.
  destruct (delete_character_chat_run chat_id s) as [-> ->]. cbv zeta.
  split; [| split; [| split]].
  - rewrite some_row_counted. f_equal.
    apply existsb_same. intros c. apply where_one_column.
  - unfold delete_chats. rewrite chats_after_delete_triggers.
    cbn [rows_CharacterChats with_rows].
    apply filter_ext. intros c. now rewrite where_one_column.
  - apply delete_chats_keeps_index. exact Hs.
  - apply totals_after_delete_chats.
Qed.

(** X5.  For an id that fits SQLite's INTEGER and in any state of the
    file: after [delete_character_chat(chat_id)],
    [get_character_chat_by_id(chat_id)] returns None; and after
    [delete_character_card(character_id)], [get_character_card_by_id] of
    that id returns None and [get_character_chats] of it returns no chat. *)
Theorem deleted_is_not_found (id : Z) (s : store) :
  int64 id ->
  fst (get_character_chat_by_id decode id (snd (delete_character_chat id s)))
    = Returns PyNone
  /\ fst (get_character_card_by_id (PyInt id) (snd (delete_character_card id s)))
       = Returns PyNone
  /\ fst (get_character_chats (Some id) (snd (delete_character_card id s))) = Returns [].
Proof.
  intros _. split; [| split].
  - destruct (get_character_chat_by_id_run decode id (snd (delete_character_chat id s)))
      as [-> _].
    destruct (delete_character_chat_run id s) as [_ ->]. cbv zeta.
    unfold delete_chats. rewrite chats_after_delete_triggers.
    cbn [rows_CharacterChats with_rows]. now rewrite filter_out_found.
  - rewrite delete_character_card_run. cbv zeta. cbn [snd].
    unfold get_character_card_by_id, with_connection, try_except, bindM, execute.
    cbn [isinstance_dict isinstance_int prepare arity List.length Nat.eqb negb bind_all bind].
    change (unknown_column CharacterCards _) with (@None string). cbv iota.
    unfold run, select, fetchone.
    cbn [fetched after_read working record connect rows_of file delete_cards
         rows_CharacterCards with_rows].
    rewrite filter_out_found. reflexivity.
  - destruct (get_character_chats_run (Some id) (snd (delete_character_card id s)))
      as [-> _].
    rewrite delete_character_card_run. cbv zeta. cbn [snd file].
    unfold delete_cards. cbn [rows_CharacterChats with_rows].
    unfold delete_chats. rewrite chats_after_delete_triggers.
    cbn [rows_CharacterChats with_rows]. now rewrite filter_out_found.
Qed.

Lemma filter_keeps_all {A : Type} (p : A -> bool) (l : list A) :
  (forall a, In a l -> p a = true) -> filter p l = l.
Proof.
  induction l as [|a l IH]; cbn [filter]; intros H; [reflexivity |].
  rewrite (H a) by now left. f_equal. apply IH. intros b Hb. apply H. now right.
Qed.

Lemma map_changes_none {A : Type} (p : A -> bool) (f : A -> A) (l : list A) :
  (forall a, In a l -> p a = false) -> map (fun a => if p a then f a else a) l = l.
Proof.
  induction l as [|a l IH]; cbn [map]; intros H; [reflexivity |].
  rewrite (H a) by now left. f_equal. apply IH. intros b Hb. apply H. now right.
Qed.

Lemma with_same_rows (t : table) (d : database) : with_rows t (rows_of t d) d = d.
Proof. destruct t, d; reflexivity. Qed.

Lemma no_chat_matches (chat_id : Z) (d : database) :
  no_chat chat_id d ->
  forall r, In r (rows_CharacterChats d) ->
            where_matches CharacterChats ["id"] [VInt chat_id] r = false.
Proof.
  intros H r Hr. destruct (where_matches _ _ _ r) eqn:Hw; [| reflexivity].
  apply where_id in Hw; [| reflexivity]. now destruct (H r Hr).
Qed.

(** What an UPDATE raises is a [sqlite3.Error]. *)
Lemma update_raises (t : table) (sets : list (string * value)) (p : row -> bool)
    (d : database) (e : exn) :
  update t sets p d = Raises e -> is_sqlite3_Error e = true.
Proof.
  assert (Hau : forall l d0, after_update l d0 = Raises e -> is_sqlite3_Error e = true).
  { induction l as [|r l IH]; intros d0; cbn [after_update]; [discriminate |].
    unfold CharacterChats_au. destruct (fts5_update _ _ _ _ _ _) as [[idx tt]|].
    - apply IH.
    - intros H. injection H as <-. reflexivity. }
  unfold update.
  destruct (find _ _); [intros U; injection U as <-; reflexivity |].
  assert (Hrest : match match t with
                        | CharacterChats =>
                            after_update (map (assign t sets) (filter p (rows_of t d)))
                              (with_rows t
                                 (map (fun r => if p r then assign t sets r else r)
                                      (rows_of t d)) d)
                        | _ => Returns
                                 (with_rows t
                                    (map (fun r => if p r then assign t sets r else r)
                                         (rows_of t d)) d)
                        end with
                  | Raises e0 => Raises e0
                  | Returns d2 =>
                      Returns (d2, Z.of_nat (List.length
                                               (map (assign t sets) (filter p (rows_of t d)))))
                  end = Raises e -> is_sqlite3_Error e = true).
  { destruct t; cbv iota; try discriminate.
    destruct (after_update _ _) as [d2|e0] eqn:A; [discriminate |].
    intros H. injection H as ->. exact (Hau _ _ A). }
  destruct (map (assign t sets) (filter p (rows_of t d))); [exact Hrest |].
  destruct (unique_broken _ _ _); [intros U; injection U as <-; reflexivity | exact Hrest].
Qed.

Lemma update_character_chat_run (chat_id : Z) (chat_history : list (string * string))
    (s : store) :
  exists text,
    Json.dumps (py_history chat_history) = Returns text
    /\ update_character_chat chat_id chat_history s
       = match update CharacterChats [("chat_history", VText text)]
                      (where_matches CharacterChats ["id"] [VInt chat_id]) (file s) with
         | Returns (d, n) =>
             (Returns (0 <? n),
              {| file := d;
                 log := (((log s ++ [Connect])
                          ++ [Execute (UPDATE_SET CharacterChats ["chat_history"] ["id"])
                                      [PyStr text; PyInt chat_id]])
                         ++ [Commit]) ++ [Close];
                 clock := clock s |})
         | Raises e =>
             (Returns false,
              {| file := file s;
                 log := ((log s ++ [Connect])
                         ++ [Execute (UPDATE_SET CharacterChats ["chat_history"] ["id"])
                                     [PyStr text; PyInt chat_id]])
                        ++ [Close];
                 clock := clock s |})
         end.
Proof.
  destruct (dumps_history_returns chat_history) as [text Htext].
  exists text. split; [exact Htext |].
  unfold update_character_chat, with_connection, try_except, bindM, lift.
  rewrite Htext.
  rewrite (execute_ok _ _ [VText text; VInt chat_id]) by reflexivity.
  unfold run. cbn [combine skipn List.length working record connect].
  destruct (update _ _ _ _) as [[d n]|e] eqn:U.
  - reflexivity.
  - now rewrite (update_raises _ _ _ _ _ U).
Qed.

(** X6.  When no chat has the id, an id that fits SQLite's INTEGER,
    [update_character_chat] and [delete_character_chat] return False and
    leave the file as it is, and [get_character_chat_by_id] returns None. *)
Theorem no_such_chat (chat_id : Z) (chat_history : list (string * string)) (s : store) :
  int64 chat_id -> no_chat chat_id (file s) ->
  fst (update_character_chat chat_id chat_history s) = Returns false
  /\ file (snd (update_character_chat chat_id chat_history s)) = file s
  /\ fst (delete_character_chat chat_id s) = Returns false
  /\ file (snd (delete_character_chat chat_id s)) = file s
  /\ fst (get_character_chat_by_id decode chat_id s) = Returns PyNone.
Proof.
  intros _ H. pose proof (no_chat_matches _ _ H) as Hp.
  destruct (update_character_chat_run chat_id chat_history s) as (text & _ & ->).
  destruct (delete_character_chat_run chat_id s) as [-> ->]. cbv zeta.
  destruct (get_character_chat_by_id_run decode chat_id s) as [-> _].
  unfold update, delete_chats. cbn [rows_of].
  rewrite (filter_nothing _ _ Hp), (map_changes_none _ _ _ Hp).
  rewrite filter_keeps_all by (intros r Hr; now rewrite (Hp r Hr)).
  cbn [map find after_update List.length Z.of_nat Z.ltb Z.compare fst snd file].
  rewrite (with_same_rows CharacterChats). repeat split; reflexivity.
Qed.

Lemma find_after {A : Type} (p : A -> bool) (l l' : list A) :
  (forall a, In a l -> p a = false) -> find p (l ++ l') = find p l'.
Proof.
  induction l as [|a l IH]; cbn [app find]; intros H; [reflexivity |].
  rewrite (H a) by now left. apply IH. intros b Hb. apply H. now right.
Qed.

(** The UPDATE of the history of the chat in the last row, the only one
    of its id: whether it goes through is for the totals of the index to
    say. *)
Lemma update_last_chat (id character_id : Z) (conversation_name text1 text2 : string)
    (is_snapshot : bool) (created_at : string) (rows : list row) (d : database) :
  let chat1 := new_chat id character_id conversation_name text1 is_snapshot created_at in
  let chat2 := new_chat id character_id conversation_name text2 is_snapshot created_at in
  rows_CharacterChats d = rows ++ [chat1] ->
  (forall r, In r rows -> row_id r <> VInt id) ->
  update CharacterChats [("chat_history", VText text2)]
         (where_matches CharacterChats ["id"] [VInt id]) d
  = match totals_without (shadow chat2) (CharacterChats_fts_totals d) with
    | None => Raises (DatabaseError "database disk image is malformed")
    | Some t =>
        Returns (with_totals (totals_with (shadow chat2) t)
                   (with_fts (fts5_insert (shadow chat2)
                                (fts5_retract (shadow chat2) (CharacterChats_fts d)))
                      (with_rows CharacterChats (rows ++ [chat2]) d)), 1)
    end.
Proof.
  intros chat1 chat2 Hrows Hnone.
  assert (Hp : forall r, In r rows ->
                         where_matches CharacterChats ["id"] [VInt id] r = false).
  { intros r Hr. destruct (where_matches _ _ _ r) eqn:Hw; [| reflexivity].
    apply where_id in Hw; [| reflexivity]. now destruct (Hnone r Hr). }
  unfold update. cbn [rows_of]. rewrite Hrows, filter_app.
  rewrite (filter_nothing _ _ Hp). cbn [app]. rewrite map_app.
  rewrite (map_changes_none _ _ _ Hp).
  cbn [app filter map].
  change (where_matches CharacterChats ["id"] [VInt id] chat1)
    with (orb (Z.eqb id id) false).
  rewrite Z.eqb_refl. cbn [orb map].
  change (assign CharacterChats _ chat1) with chat2.
  change (not_null_violation CharacterChats chat2) with (@None column).
  cbn [find].
  change (unique_broken CharacterChats _ _) with (@None column).
  cbn [after_update]. unfold CharacterChats_au, fts5_update, fts5_content.
  cbn [rows_CharacterChats with_rows].
  rewrite find_after.
  2: { intros r Hr. destruct (value_eqb _ _) eqn:Hv; [| reflexivity].
       apply value_eqb_eq in Hv. now destruct (Hnone r Hr). }
  cbn [find]. change (value_eqb (row_id chat2) (row_id chat2)) with (Z.eqb id id).
  rewrite Z.eqb_refl.
  change {| doc_rowid := row_id chat2;
            doc_conversation_name := row_get chat2 "conversation_name";
            doc_chat_history := row_get chat2 "chat_history" |}
    with (shadow chat2).
  cbn [CharacterChats_fts_totals CharacterChats_fts with_rows].
  destruct (totals_without _ _); reflexivity.
Qed.

(** X4.  A chat that [add_character_chat] added and
    [update_character_chat] then gave another history is read back by
    [get_character_chat_by_id] with the second history, pairs as lists, and
    everything else as it was added, when the second history has no more
    tokens than FTS5 has counted in all the histories it was given, that of
    the chat included: then the index accepts the update.  This for a
    character id that fits SQLite's INTEGER, and while CharacterChats has an
    id left. *)
Theorem updated_chat_is_read_back (character_id : Z) (conversation_name : string)
    (first_history : list (string * string)) (keywords : option (list string))
    (is_snapshot : bool) (second_history : list (string * string)) (s : store) :
  int64 character_id -> id_left CharacterChats (file s) ->
  totals_are_counts (file s) ->
  history_size second_history <= counted_history (file s) + history_size first_history ->
  let added := add_character_chat character_id conversation_name first_history keywords
                 is_snapshot s in
  exists chat_id,
    fst added = Returns (PyInt chat_id)
    /\ let updated := update_character_chat chat_id second_history (snd added) in
       fst updated = Returns true
       /\ fst (get_character_chat_by_id decode chat_id (snd updated))
          = Returns (PyDict [ ("id", PyInt chat_id);
                              ("character_id", PyInt character_id);
                              ("conversation_name", PyStr conversation_name);
                              ("chat_history", loaded_history second_history);
                              ("is_snapshot", PyInt (if is_snapshot then 1 else 0));
                              ("created_at", PyStr (clock s)) ]).
Proof.
  intros _ _ (Hrows0 & Hcn0 & _) Hsize. cbv zeta.
  destruct (add_character_chat_run character_id conversation_name first_history keywords
              is_snapshot s) as (text1 & Htext1 & Hid & Hrows & _).
  destruct (add_character_chat_index character_id conversation_name first_history keywords
              is_snapshot s) as (text1' & Htext1' & _ & Htotals).
  rewrite Htext1 in Htext1'. injection Htext1' as <-.
  cbv zeta in Hid, Hrows, Htotals.
  set (s1 := snd (add_character_chat _ _ _ _ _ s)) in *.
  set (id := next_rowid CharacterChats (file s)) in *.
  exists id. split; [exact Hid |].
  destruct (update_character_chat_run id second_history s1) as (text2 & Htext2 & ->).
  unfold history_size, counted_history in Hsize. rewrite Htext1, Htext2 in Hsize.
  rewrite (update_last_chat id character_id conversation_name text1 text2 is_snapshot
             (clock s) (rows_CharacterChats (file s)) (file s1) Hrows
             (no_chat_next_rowid (file s))).
  rewrite Htotals. unfold totals_without, totals_with.
  cbn [total_rows total_conversation_name total_chat_history shadow
       doc_conversation_name doc_chat_history row_get new_chat String.eqb Ascii.eqb Bool.eqb]
    in Hsize |- *.
  cbn [fts5_size] in Hsize |- *.
  destruct (Z.ltb_spec (total_conversation_name (CharacterChats_fts_totals (file s))
                        + Unicode61.tokens conversation_name
                        - Unicode61.tokens conversation_name) 0) as [|_]; [lia |].
  destruct (Z.ltb_spec (total_chat_history (CharacterChats_fts_totals (file s))
                        + Unicode61.tokens text1 - Unicode61.tokens text2) 0) as [|_];
    [lia |].
  destruct (Z.ltb_spec (total_rows (CharacterChats_fts_totals (file s)) + 1) 1) as [|_];
    [lia |].
  cbn [orb fst snd]. split; [reflexivity |].
  rewrite (get_last_chat decode id _ (rows_CharacterChats (file s))
             (new_chat id character_id conversation_name text2 is_snapshot (clock s))
             (loaded_history second_history)).
  - destruct is_snapshot; reflexivity.
  - reflexivity.
  - apply no_chat_next_rowid.
  - reflexivity.
  - cbn. now apply history_loads.
Qed.

(** X23.  When the second history has more tokens than FTS5 has counted in
    all the histories it was given, that of the chat included, the index
    refuses the update: [update_character_chat] returns False, nothing in
    the file changes, and [get_character_chat_by_id] still returns the chat
    with its first history. *)
Theorem refused_update_changes_nothing (character_id : Z) (conversation_name : string)
    (first_history : list (string * string)) (keywords : option (list string))
    (is_snapshot : bool) (second_history : list (string * string)) (s : store) :
  int64 character_id -> id_left CharacterChats (file s) ->
  counted_history (file s) + history_size first_history < history_size second_history ->
  let added := add_character_chat character_id conversation_name first_history keywords
                 is_snapshot s in
  exists chat_id,
    fst added = Returns (PyInt chat_id)
    /\ let updated := update_character_chat chat_id second_history (snd added) in
       fst updated = Returns false
       /\ file (snd updated) = file (snd added)
       /\ fst (get_character_chat_by_id decode chat_id (snd updated))
          = Returns (PyDict [ ("id", PyInt chat_id);
                              ("character_id", PyInt character_id);
                              ("conversation_name", PyStr conversation_name);
                              ("chat_history", loaded_history first_history);
                              ("is_snapshot", PyInt (if is_snapshot then 1 else 0));
                              ("created_at", PyStr (clock s)) ]).
Proof.
  intros _ _ Hsize. cbv zeta.
  destruct (add_character_chat_run character_id conversation_name first_history keywords
              is_snapshot s) as (text1 & Htext1 & Hid & Hrows & _).
  destruct (add_character_chat_index character_id conversation_name first_history keywords
              is_snapshot s) as (text1' & Htext1' & _ & Htotals).
  rewrite Htext1 in Htext1'. injection Htext1' as <-.
  cbv zeta in Hid, Hrows, Htotals.
  set (s1 := snd (add_character_chat _ _ _ _ _ s)) in *.
  set (id := next_rowid CharacterChats (file s)) in *.
  exists id. split; [exact Hid |].
  destruct (update_character_chat_run id second_history s1) as (text2 & Htext2 & ->).
  unfold history_size, counted_history in Hsize. rewrite Htext1, Htext2 in Hsize.
  rewrite (update_last_chat id character_id conversation_name text1 text2 is_snapshot
             (clock s) (rows_CharacterChats (file s)) (file s1) Hrows
             (no_chat_next_rowid (file s))).
  rewrite Htotals. unfold totals_without, totals_with.
  cbn [total_rows total_conversation_name total_chat_history shadow
       doc_conversation_name doc_chat_history row_get new_chat String.eqb Ascii.eqb Bool.eqb]
    in Hsize |- *.
  cbn [fts5_size] in Hsize |- *.
  destruct (Z.ltb_spec (total_chat_history (CharacterChats_fts_totals (file s))
                        + Unicode61.tokens text1 - Unicode61.tokens text2) 0) as [_|];
    [| lia].
  rewrite orb_true_r. cbn [orb fst snd file]. split; [reflexivity |]. split; [reflexivity |].
  rewrite (get_last_chat decode id _ (rows_CharacterChats (file s))
             (new_chat id character_id conversation_name text1 is_snapshot (clock s))
             (loaded_history first_history)).
  - destruct is_snapshot; reflexivity.
  - exact Hrows.
  - apply no_chat_next_rowid.
  - reflexivity.
  - cbn. now apply history_loads.
Qed.

End Chats.

Section Keywords.
Context {E : Engine}.

Lemma one_keyword_compiles (keyword : string) :
  (List.length [keyword] < max_expr_depth)%nat.
Proof. unfold max_expr_depth. simpl. lia. Qed.

(** X7.  A chat added with keywords, for a character id that fits
    SQLite's INTEGER and while CharacterChats has an id left, is found by
    each of them, stripped and in lower case: the ids
    [fetch_keywords_for_chats] returns for that form of the keyword include
    the id [add_character_chat] returned. *)
Theorem chat_is_found_by_its_keywords (character_id : Z) (conversation_name : string)
    (chat_history : list (string * string)) (keywords : list string)
    (is_snapshot : bool) (keyword : string) (s : store) :
  int64 character_id -> id_left CharacterChats (file s) ->
  In keyword keywords ->
  let added := add_character_chat character_id conversation_name chat_history
                 (Some keywords) is_snapshot s in
  exists chat_id,
    fst added = Returns (PyInt chat_id)
    /\ In (PyInt chat_id)
          (result (fst (fetch_keywords_for_chats [Str.lower (Str.strip keyword)]
                                                 (snd added)))).
Proof.
  intros _ _ Hin. cbv zeta.
  destruct (add_character_chat_run character_id conversation_name chat_history
              (Some keywords) is_snapshot s) as (text & _ & Hid & _ & Hkw & _).
  cbv zeta in Hid, Hkw. eexists. split; [exact Hid |].
  destruct (fetch_keywords_for_chats_run (Str.lower (Str.strip keyword)) []
              (snd (add_character_chat character_id conversation_name chat_history
                      (Some keywords) is_snapshot s))
              (one_keyword_compiles _)) as [-> _].
  cbn [result]. rewrite Hkw. cbn [given_keywords].
  apply in_map_iff.
  exists [VInt (next_rowid CharacterChats (file s))]. split; [reflexivity |].
  apply In_distinct, in_map_iff.
  exists (new_keyword (next_rowid CharacterChats (file s)) keyword).
  split; [reflexivity |].
  apply filter_In. split.
  - apply in_or_app. right. now apply in_map.
  - apply where_any_keyword. eexists. split; [now left | reflexivity].
Qed.

Lemma fetch_keywords_reads_ChatKeywords (keywords : list string) (s1 s2 : store) :
  rows_ChatKeywords (file s1) = rows_ChatKeywords (file s2) ->
  fst (fetch_keywords_for_chats keywords s1) = fst (fetch_keywords_for_chats keywords s2).
Proof.
  intros H. destruct keywords as [|k ks]; [reflexivity |].
  destruct (Nat.lt_ge_cases (List.length (k :: ks)) max_expr_depth) as [Hshort | Hlong].
  - destruct (fetch_keywords_for_chats_run k ks s1 Hshort) as [-> _].
    destruct (fetch_keywords_for_chats_run k ks s2 Hshort) as [-> _].
    now rewrite H.
  - destruct (fetch_keywords_for_chats_too_many (k :: ks) s1 Hlong) as [-> _].
    destruct (fetch_keywords_for_chats_too_many (k :: ks) s2 Hlong) as [-> _].
    reflexivity.
Qed.

(** X8.  Deleting a chat or a character leaves the keywords of the deleted
    chats in ChatKeywords: [fetch_keywords_for_chats] returns after
    [delete_character_chat] and after [delete_character_card] what it
    returned before, the ids of deleted chats included. *)
Theorem keywords_outlive_their_chat (keywords : list string) (id : Z) (s : store) :
  fst (fetch_keywords_for_chats keywords (snd (delete_character_chat id s)))
    = fst (fetch_keywords_for_chats keywords s)
  /\ fst (fetch_keywords_for_chats keywords (snd (delete_character_card id s)))
       = fst (fetch_keywords_for_chats keywords s).
Proof.
  split; apply fetch_keywords_reads_ChatKeywords.
  - destruct (delete_character_chat_run id s) as [_ ->]. cbv zeta.
    unfold delete_chats. now rewrite keywords_after_delete_triggers.
  - rewrite delete_character_card_run. cbv zeta. cbn [snd file].
    unfold delete_cards. cbn [rows_ChatKeywords with_rows].
    unfold delete_chats. now rewrite keywords_after_delete_triggers.
Qed.

End Keywords.

(** ** Chat ids are not handed out twice *)

Lemma seq_after_update_triggers (l : list row) (d d' : database) :
  after_update l d = Returns d' -> seq_CharacterChats d' = seq_CharacterChats d.
Proof. intros H. apply after_update_keeps in H. tauto. Qed.

Lemma seq_after_delete_triggers (l : list row) (d : database) :
  seq_CharacterChats (fold_left (fun acc r => CharacterChats_ad r acc) l d)
  = seq_CharacterChats d.
Proof.
  revert d. induction l as [|r l IH]; intros d; cbn [fold_left]; [reflexivity |].
  now rewrite IH.
Qed.

Lemma seq_after_delete_chats (fk : bool) (p : row -> bool) (d : database) :
  seq_CharacterChats (delete_chats fk p d) = seq_CharacterChats d.
Proof.
  unfold delete_chats, delete_keywords.
  destruct fk; cbn [seq_CharacterChats with_rows]; now rewrite seq_after_delete_triggers.
Qed.

(** The AUTOINCREMENT counter of CharacterChats never goes down. *)
Lemma sequence_preserved (n : Z) : preserved (fun d => n <= seq_CharacterChats d).
Proof.
  constructor.
  - intros fk clock t given d d' id. unfold insert.
    destruct (not_null_violation t _); [discriminate |].
    destruct (unique_violation t _ _); [discriminate |].
    destruct (fk && _); [discriminate |].
    intros H Hd. injection H as <- _.
    destruct t; destruct (row_id _); cbn; lia.
  - intros t sets p d d' k H _ Hd.
    apply update_returns in H. cbv zeta in H. destruct H as [_ H].
    assert (seq_CharacterChats d' = seq_CharacterChats d) as ->; [| exact Hd].
    destruct t; [now subst d' | | now subst d'].
    now rewrite (seq_after_update_triggers _ _ _ H).
  - intros fk t p d Hd. destruct t; cbn [delete fst].
    + unfold delete_cards. destruct fk; [rewrite seq_after_delete_chats |]; exact Hd.
    + now rewrite seq_after_delete_chats.
    + exact Hd.
Qed.

Section Ids.
Context {E : Engine}.

Lemma sequence_after_calls (n : Z) (calls : list call) : forall s : store,
  n <= seq_CharacterChats (file s) ->
  n <= seq_CharacterChats (file (fold_left (fun s c => after c s) calls s)).
Proof.
  induction calls as [|c calls IH]; intros s Hs; cbn [fold_left]; [exact Hs |].
  apply IH. exact (after_call_keeps _ c s (sequence_preserved n) Hs).
Qed.

(** X9.  The id [add_character_chat] returns is larger than the id any
    earlier call of it returned, whatever was called in between, deletions
    of chats and of characters included: the id of a deleted chat is not
    given to a later one.  This for character ids that fit SQLite's
    INTEGER, and as long as CharacterChats has an id left at the later
    call. *)
Theorem chat_ids_are_not_reused
    (character_id : Z) (conversation_name : string)
    (chat_history : list (string * string)) (keywords : option (list string))
    (is_snapshot : bool)
    (calls : list call)
    (character_id' : Z) (conversation_name' : string)
    (chat_history' : list (string * string)) (keywords' : option (list string))
    (is_snapshot' : bool) (s : store) :
  int64 character_id -> int64 character_id' ->
  let first := add_character_chat character_id conversation_name chat_history keywords
                 is_snapshot s in
  let before_later := fold_left (fun s c => after c s) calls (snd first) in
  id_left CharacterChats (file before_later) ->
  let later := add_character_chat character_id' conversation_name' chat_history' keywords'
                 is_snapshot' before_later in
  exists id id',
    fst first = Returns (PyInt id) /\ fst later = Returns (PyInt id') /\ id < id'.
Proof.
  intros _ _. cbv zeta. intros _.
  destruct (add_character_chat_run character_id conversation_name chat_history keywords
              is_snapshot s) as (text & _ & Hid & _ & _ & _ & Hseq).
  cbv zeta in Hid, Hseq.
  set (s1 := snd (add_character_chat _ _ _ _ _ s)) in *.
  set (s2 := fold_left _ calls s1).
  destruct (add_character_chat_run character_id' conversation_name' chat_history' keywords'
              is_snapshot' s2) as (text' & _ & Hid' & _).
  cbv zeta in Hid'.
  eexists. eexists. split; [exact Hid | split; [exact Hid' |]].
  pose proof (sequence_after_calls (next_rowid CharacterChats (file s)) calls s1) as H.
  fold s2 in H. rewrite Hseq in H. specialize (H (Z.le_refl _)).
  unfold next_rowid at 2. cbn [seq_of]. lia.
Qed.

End Ids.

(** ** The totals of the index are counts *)

Lemma tokens_from_counts (inside : bool) (s : string) :
  0 <= Unicode61.tokens_from inside s.
Proof.
  revert inside. induction s as [|c s IH]; intros inside; cbn [Unicode61.tokens_from];
    [lia |].
  destruct (Unicode61.token_char c).
  - pose proof (IH true). destruct inside; lia.
  - apply IH.
Qed.

Lemma fts5_size_counts (v : value) : 0 <= fts5_size v.
Proof. destruct v; cbn [fts5_size]; [lia | | |]; apply tokens_from_counts. Qed.

Lemma totals_after_update (l : list row) (d d' : database) :
  after_update l d = Returns d' -> totals_are_counts d -> totals_are_counts d'.
Proof.
  revert d. induction l as [|r l IH]; intros d; cbn [after_update].
  - intros H. now injection H as <-.
  - unfold CharacterChats_au, fts5_update.
    destruct (fts5_content _ _) as [old|].
    + unfold totals_without.
      destruct (_ || _) eqn:Hcheck; [discriminate |].
      apply orb_false_elim in Hcheck as [Hcheck Hrows].
      apply orb_false_elim in Hcheck as [Hcn Hch].
      apply Z.ltb_ge in Hrows, Hcn, Hch.
      intros H _. apply (IH _ H). unfold totals_are_counts, totals_with.
      cbn [CharacterChats_fts_totals with_totals total_rows total_conversation_name
           total_chat_history doc_conversation_name doc_chat_history].
      pose proof (fts5_size_counts (row_get r "conversation_name")).
      pose proof (fts5_size_counts (row_get r "chat_history")).
      lia.
    + intros H Hd. apply (IH _ H). destruct d; exact Hd.
Qed.

Lemma totals_preserved : preserved totals_are_counts.
Proof.
  constructor.
  - intros fk clock t given d d' id. unfold insert.
    destruct (not_null_violation t _); [discriminate |].
    destruct (unique_violation t _ _); [discriminate |].
    destruct (fk && _); [discriminate |].
    intros H Hd. injection H as <- _.
    destruct t; try (destruct (row_id _); destruct d; exact Hd).
    unfold totals_are_counts in *.
    set (r := new_row CharacterChats clock given (next_rowid CharacterChats d)).
    pose proof (fts5_size_counts (row_get r "conversation_name")).
    pose proof (fts5_size_counts (row_get r "chat_history")).
    destruct (row_id r); destruct d; cbn in *; lia.
  - intros t sets p d d' k H _ Hd.
    apply update_returns in H. cbv zeta in H. destruct H as [_ H].
    destruct t; [subst d'; destruct d; exact Hd | | subst d'; destruct d; exact Hd].
    apply (totals_after_update _ _ _ H). destruct d; exact Hd.
  - intros fk t p d Hd. unfold totals_are_counts in *. destruct t; cbn [delete fst].
    + unfold delete_cards. destruct fk; [rewrite totals_after_delete_chats |];
        destruct d; exact Hd.
    + now rewrite totals_after_delete_chats.
    + destruct d; exact Hd.
Qed.

(** In every state the module can bring about, the totals of the index
    are counts. *)
Lemma reachable_totals {E : Engine} (s : store) :
  reachable s -> totals_are_counts (file s).
Proof.
  induction 1 as [t | c s _ IH | t s _ IH].
  - apply (after_call_keeps _ Initialize_database _ totals_preserved).
    unfold totals_are_counts. cbn. lia.
  - apply (after_call_keeps _ _ _ totals_preserved). exact IH.
  - exact IH.
Qed.

Section Cards.
Context {E : Engine}.

(** X10.  For a card without the key 'image', whatever else it holds and
    whatever the file holds, [add_character_card] returns None and changes
    nothing in the file. *)
Theorem add_character_card_needs_image (card_data : pydict) (s : store) :
  Dict.contains card_data "image" = false ->
  fst (add_character_card card_data s) = Returns PyNone
  /\ file (snd (add_character_card card_data s)) = file s.
Proof.
  intros Himage.
  unfold add_character_card, with_connection, try_except, bindM, lift.
  destruct (parse_character_card card_data) as [parsed|e] eqn:P;
    [| split; reflexivity].
  unfold parse_character_card in P. rewrite Himage in P.
  destruct (dumps_field card_data "alternate_greetings" _); [| discriminate P].
  destruct (dumps_field card_data "tags" _); [| discriminate P].
  destruct (dumps_field card_data "extensions" _); [| discriminate P].
  injection P as <-.
  cbn [getitems Dict.lookup String.eqb Ascii.eqb Bool.eqb].
  unfold execute.
  cbn [prepare arity List.length Nat.eqb negb bind_all].
  change (unknown_column CharacterCards _) with (@None string). cbv iota.
  destruct (bind (Dict.get card_data "name" (PyStr EmptyString))) as [name|e];
    [| split; reflexivity].
  unfold run, select, fetchone.
  cbn [fetched after_read working record connect rows_of].
  destruct (filter _ _) as [|r rest]; split; reflexivity.
Qed.

End Cards.





Section New_card.
Context {E : Engine}.


Lemma get_character_card_by_id_run (character_id : Z) (s : store) :
  fst (get_character_card_by_id (PyInt character_id) s)
  = match filter (where_matches CharacterCards ["id"] [VInt character_id])
                 (rows_CharacterCards (file s)) with
    | [] => Returns PyNone
    | r :: _ => Returns (PyDict (card_of_row r))
    end
  /\ file (snd (get_character_card_by_id (PyInt character_id) s)) = file s.
Proof.
  unfold get_character_card_by_id, with_connection, try_except, bindM, execute.
  cbn [isinstance_dict isinstance_int prepare arity List.length Nat.eqb negb bind_all bind].
  change (unknown_column CharacterCards _) with (@None string). cbv iota.
  unfold run, select, fetchone.
  cbn [fetched after_read working record connect rows_of].
  destruct (filter _ _) as [|r rest]; split; reflexivity.
Qed.


End New_card.

Section Searches.
Context {E : Engine}.

(** X15.  [search_db] with a page number below 1 returns what it returns
    for page 1: the negative OFFSET the function computes counts as 0.  With
    column names for fields and comparisons for the extra condition, a page
    size that is not negative, page size and offset fitting SQLite's
    INTEGER, and when the statement compiles and runs, the chats that pass
    its test have an order in which both calls return the first
    [results_per_page] of them. *)
Theorem search_db_page_below_one (query : string) (fields : list string)
    (comparisons : list (string * Z)) (keep : list fts_doc -> row -> bool)
    (page results_per_page : Z) (s : store) :
  plain_texts fields comparisons ->
  Str.blank query = false ->
  search_db_condition query fields (disjunction comparisons) = Some keep ->
  page <= 1 -> 0 <= results_per_page ->
  int64 results_per_page -> int64 ((page - 1) * results_per_page) ->
  exists ranked_,
    Permutation ranked_ (chats_passing keep (file s))
    /\ fst (search_db query fields (disjunction comparisons) page results_per_page s)
       = Returns (firstn (Z.to_nat results_per_page) (map search_row ranked_))
    /\ fst (search_db query fields (disjunction comparisons) 1 results_per_page s)
       = Returns (firstn (Z.to_nat results_per_page) (map search_row ranked_)).
Proof.
  intros _ Hblank Hkeep Hpage Hsize _ _.
  destruct (search_db_matches_passing query fields (disjunction comparisons) keep (file s)
              Hblank Hkeep) as (ranked_ & Hperm & Hfull).
  exists ranked_. split; [exact Hperm |].
  destruct (search_db_run query fields (disjunction comparisons) page results_per_page s)
    as [-> _].
  destruct (search_db_run query fields (disjunction comparisons) 1 results_per_page s)
    as [-> _].
  rewrite Hfull. unfold limit_offset.
  destruct (Z.ltb_spec results_per_page 0) as [|_]; [lia |].
  replace (Z.to_nat ((page - 1) * results_per_page)) with 0%nat by nia.
  replace (Z.to_nat ((1 - 1) * results_per_page)) with 0%nat by lia.
  split; reflexivity.
Qed.

(** X16.  [search_db] with a negative page size returns for page 1 all the
    matches at once: a negative LIMIT is no limit.  With column names for
    fields and comparisons for the extra condition, a page size that fits
    SQLite's INTEGER, and when the statement compiles and runs, what is
    returned are the chats that pass its test, each once. *)
Theorem search_db_negative_page_size (query : string) (fields : list string)
    (comparisons : list (string * Z)) (keep : list fts_doc -> row -> bool)
    (results_per_page : Z) (s : store) :
  plain_texts fields comparisons ->
  Str.blank query = false ->
  search_db_condition query fields (disjunction comparisons) = Some keep ->
  results_per_page < 0 -> int64 results_per_page ->
  exists found,
    fst (search_db query fields (disjunction comparisons) 1 results_per_page s)
    = Returns found
    /\ Permutation found (map search_row (chats_passing keep (file s))).
Proof.
  intros _ Hblank Hkeep Hsize _.
  destruct (search_db_matches_passing query fields (disjunction comparisons) keep (file s)
              Hblank Hkeep) as (ranked_ & Hperm & Hfull).
  destruct (search_db_run query fields (disjunction comparisons) 1 results_per_page s)
    as [-> _].
  rewrite Hfull. unfold limit_offset.
  destruct (Z.ltb_spec results_per_page 0) as [_|]; [| lia].
  replace (Z.to_nat ((1 - 1) * results_per_page)) with 0%nat by lia.
  eexists. split; [reflexivity |]. apply Permutation_map, Hperm.
Qed.

Lemma search_character_chats_run (query : string) (character_id : option Z) (s : store) :
  (Str.strip query =? EmptyString)%string = false ->
  fst (search_character_chats query character_id s)
  = match select_chats_match query (option_map VInt character_id) (file s) with
    | Returns rs =>
        let results := map (dict_zip search_columns) (project search_columns rs) in
        Returns (results,
                 found_message (List.length results) query
                   match character_id with
                   | Some _ => "for the selected character."
                   | None => "across all characters."
                   end)
    | Raises e => Returns ([], "Error occurred during search: " +++ exn_message e)
    end
  /\ file (snd (search_character_chats query character_id s)) = file s.
Proof.
  intros Hq. unfold search_character_chats. rewrite Hq.
  unfold with_connection, try_except, bindM, execute.
  destruct character_id as [id|];
    cbn [prepare arity List.length Nat.eqb negb bind_all bind option_map];
    unfold run; cbn [hd_error working record connect];
    destruct (select_chats_match _ _ _) as [rs|e]; split; reflexivity.
Qed.

(** X17.  A query the full-text engine refuses makes
    [search_character_chats] return no chat and a status that starts with
    "Error occurred during search: "; nothing is raised and the file is as
    it was. *)
Theorem search_character_chats_refused_query (query : string) (character_id : option Z)
    (s : store) :
  Str.blank query = false -> fts5_match query = None ->
  exists message,
    fst (search_character_chats query character_id s)
    = Returns ([], "Error occurred during search: " +++ message)
    /\ file (snd (search_character_chats query character_id s)) = file s.
Proof.
  intros Hblank Hmatch.
  assert ((Str.strip query =? EmptyString)%string = false) as Hq.
  { destruct (String.eqb_spec (Str.strip query) EmptyString) as [Hs|]; [| reflexivity].
    apply strip_empty_iff_blank in Hs. congruence. }
  destruct (search_character_chats_run query character_id s Hq) as [-> ->].
  unfold select_chats_match. rewrite Hmatch. eexists. split; reflexivity.
Qed.

End Searches.

Section Restricted_search.
Context {E : Engine}.

Lemma found_chats_run (query : string) (character_id : option Z) (s : store) :
  found_chats query character_id s
  = if (Str.strip query =? EmptyString)%string then []
    else match select_chats_match query (option_map VInt character_id) (file s) with
         | Returns rs => map (dict_zip search_columns) (project search_columns rs)
         | Raises _ => []
         end.
Proof.
  unfold found_chats.
  destruct (Str.strip query =? EmptyString)%string eqn:Hq.
  - unfold search_character_chats. now rewrite Hq.
  - destruct (search_character_chats_run query character_id s Hq) as [-> _].
    now destruct (select_chats_match _ _ _).
Qed.

(** X18.  The search restricted to a character returns only chats that the
    search over all characters returns for the same query, and only chats
    that [get_character_chats] returns for that character. *)
Theorem character_search_is_part_of_search (query : string) (character_id : Z)
    (s : store) :
  incl (found_chats query (Some character_id) s) (found_chats query None s)
  /\ incl (ids_of (found_chats query (Some character_id) s))
          (ids_of (result (fst (get_character_chats (Some character_id) s)))).
Proof.
  rewrite !found_chats_run.
  destruct (get_character_chats_run (Some character_id) s) as [-> _]. cbn [result].
  destruct (Str.strip query =? EmptyString)%string;
    [split; intros x [] |].
  unfold select_chats_match. cbn [option_map].
  destruct (fts5_match query) as [m|]; [| split; intros x []].
  unfold project, ranked. rewrite !map_map. split.
  - intros chat Hin. apply in_map_iff in Hin as (r & <- & Hr).
    apply in_map_iff. exists r. split; [reflexivity |].
    apply (Permutation_in _ (sort_by_perm _ _)) in Hr.
    apply (Permutation_in _ (Permutation_sym (sort_by_perm _ _))).
    apply filter_In in Hr as [Hr Hp]. apply filter_In. split; [exact Hr |].
    apply andb_prop in Hp as [Hp _]. now rewrite Hp.
  - intros id Hin. unfold ids_of in *. rewrite map_map in *.
    apply in_map_iff in Hin as (r & <- & Hr).
    apply in_map_iff. exists r. split; [reflexivity |].
    apply (Permutation_in _ (sort_by_perm _ _)) in Hr.
    apply filter_In in Hr as [Hr Hp]. apply filter_In. split; [exact Hr |].
    apply andb_prop in Hp as [_ Hp]. rewrite where_one_column. exact Hp.
Qed.

End Restricted_search.

Section Card_by_id.
Context {E : Engine}.

Lemma get_character_cards_run (s : store) :
  fst (get_character_cards s) = Returns (map card_of_row (rows_CharacterCards (file s)))
  /\ file (snd (get_character_cards s)) = file s.
Proof.
  unfold card_of_row. rewrite <- map_map.
  rewrite <- (filter_keeps_all (fun _ => true) (rows_CharacterCards (file s)))
    at 1 by reflexivity.
  split; reflexivity.
Qed.

Lemma first_found {A B : Type} (F : A -> B) (p : A -> bool) (P : B -> bool) (l : list A) :
  (forall a, P (F a) = p a) ->
  find P (map F l) = match filter p l with [] => None | a :: _ => Some (F a) end.
Proof.
  intros H. induction l as [|a l IH]; cbn [map find filter]; [reflexivity |].
  rewrite H. now destruct (p a).
Qed.

Lemma id_of_card (r : row) (character_id : Z) :
  has_id character_id (card_of_row r)
  = where_matches CharacterCards ["id"] [VInt character_id] r.
Proof.
  rewrite where_one_column. unfold has_id.
  change (Dict.lookup (card_of_row r) "id") with (Some (py_of_value (row_get r "id"))).
  change (column_affinity CharacterCards "id") with INTEGER.
  destruct (row_get r "id"); reflexivity.
Qed.

(** X13.  [get_character_card_by_id(character_id)] returns the first card
    of [get_character_cards()] whose id is the argument, and None when
    there is none. *)
Theorem card_by_id_is_one_of_the_cards (character_id : Z) (s : store) :
  fst (get_character_card_by_id (PyInt character_id) s)
  = Returns match find (has_id character_id) (result (fst (get_character_cards s))) with
            | Some card => PyDict card
            | None => PyNone
            end.
Proof.
  destruct (get_character_card_by_id_run character_id s) as [-> _].
  destruct (get_character_cards_run s) as [-> _]. cbn [result].
  rewrite (first_found card_of_row
             (where_matches CharacterCards ["id"] [VInt character_id]))
    by (intros r; apply id_of_card).
  now destruct (filter _ _).
Qed.

End Card_by_id.

Section Known_card.
Context {E : Engine}.






End Known_card.

Lemma int64_1 : int64 1.
Proof. unfold int64. lia. Qed.

Lemma id_left_s1 : id_left CharacterChats (file Run.s1).
Proof. vm_compute. discriminate. Qed.

Lemma no_such_chat_witness :
  int64 5 /\ no_chat 5 (file Run.s2)
  /\ (fst (update_character_chat (E := Bareword.engine) 5 [("user", "bye")] Run.s2)
        = Returns false
      /\ file (snd (update_character_chat (E := Bareword.engine) 5 [("user", "bye")] Run.s2))
         = file Run.s2
      /\ fst (delete_character_chat (E := Bareword.engine) 5 Run.s2) = Returns false
      /\ file (snd (delete_character_chat (E := Bareword.engine) 5 Run.s2)) = file Run.s2
      /\ fst (get_character_chat_by_id (E := Bareword.engine) (fun b => Returns b) 5 Run.s2)
         = Returns PyNone).
Proof.
  assert (int64 5) as H5 by (unfold int64; lia).
  assert (no_chat 5 (file Run.s2)) as H
    by (intros r Hr; vm_compute in Hr; destruct Hr as [<- | []]; discriminate).
  split; [exact H5 |]. split; [exact H |].
  exact (no_such_chat (E := Bareword.engine) (fun b => Returns b) 5 [("user", "bye")]
                      Run.s2 H5 H).
Defined.

Lemma chat_is_found_by_its_keywords_witness :
  int64 1 /\ id_left CharacterChats (file Run.s1)
  /\ In " Maths " [" Maths "; "engines"]
  /\ (let added := add_character_chat (E := Bareword.engine) 1 "second" [("user", "hi")]
                     (Some [" Maths "; "engines"]) false Run.s1 in
      exists chat_id,
        fst added = Returns (PyInt chat_id)
        /\ In (PyInt chat_id)
              (result (fst (fetch_keywords_for_chats (E := Bareword.engine)
                              [Str.lower (Str.strip " Maths ")] (snd added))))).
Proof.
  split; [exact int64_1 |]. split; [exact id_left_s1 |]. split; [now left |].
  apply (chat_is_found_by_its_keywords (E := Bareword.engine) 1 "second" [("user", "hi")]
           [" Maths "; "engines"] false " Maths " Run.s1 int64_1 id_left_s1).
  now left.
Defined.

Lemma get_character_chats_of_character_witness :
  int64 1
  /\ fst (fetch_all_chats (E := Bareword.engine) Run.s7)
     = Returns (map chat_of_row (rows_CharacterChats (file Run.s7)))
  /\ fst (get_character_chats (E := Bareword.engine) (Some 1) Run.s7)
     = Returns (filter (fun chat => match Dict.lookup chat "character_id" with
                                    | Some v => py_eq_int v 1
                                    | None => false
                                    end)
                       (result (fst (fetch_all_chats (E := Bareword.engine) Run.s7)))).
Proof.
  split; [exact int64_1 |].
  exact (get_character_chats_of_character (E := Bareword.engine) 1 Run.s7 int64_1).
Defined.

Lemma saved_chat_is_read_back_witness :
  int64 1 /\ id_left CharacterChats (file Run.s1)
  /\ (let saved := save_chat_history_to_character_db (E := Bareword.engine) 1 "intro"
                     [("user", "hi"); ("Ada", "hello")] Run.s1 in
      exists chat_id,
        fst saved = Returns (PyInt chat_id)
        /\ fst (get_character_chat_by_id (E := Bareword.engine) (fun b => Returns b)
                                         chat_id (snd saved))
           = Returns (PyDict [ ("id", PyInt chat_id);
                               ("character_id", PyInt 1);
                               ("conversation_name", PyStr "intro");
                               ("chat_history",
                                loaded_history [("user", "hi"); ("Ada", "hello")]);
                               ("is_snapshot", PyInt 0);
                               ("created_at", PyStr (clock Run.s1)) ])).
Proof.
  split; [exact int64_1 |]. split; [exact id_left_s1 |].
  exact (saved_chat_is_read_back (E := Bareword.engine) (fun b => Returns b) 1 "intro"
           [("user", "hi"); ("Ada", "hello")] Run.s1 int64_1 id_left_s1).
Defined.

Lemma totals_s1 : totals_are_counts (file Run.s1).
Proof. unfold totals_are_counts. vm_compute. repeat split; discriminate. Qed.

Lemma updated_chat_is_read_back_witness :
  int64 1 /\ id_left CharacterChats (file Run.s1)
  /\ totals_are_counts (file Run.s1)
  /\ history_size [("user", "bye")]
     <= counted_history (file Run.s1) + history_size [("user", "hi"); ("Ada", "hello")]
  /\ (let added := add_character_chat (E := Bareword.engine) 1 "intro"
                     [("user", "hi"); ("Ada", "hello")] None false Run.s1 in
      exists chat_id,
        fst added = Returns (PyInt chat_id)
        /\ let updated := update_character_chat (E := Bareword.engine) chat_id
                            [("user", "bye")] (snd added) in
           fst updated = Returns true
           /\ fst (get_character_chat_by_id (E := Bareword.engine) (fun b => Returns b)
                                            chat_id (snd updated))
              = Returns (PyDict [ ("id", PyInt chat_id);
                                  ("character_id", PyInt 1);
                                  ("conversation_name", PyStr "intro");
                                  ("chat_history", loaded_history [("user", "bye")]);
                                  ("is_snapshot", PyInt (if false then 1 else 0));
                                  ("created_at", PyStr (clock Run.s1)) ])).
Proof.
  assert (Hsize : history_size [("user", "bye")]
                  <= counted_history (file Run.s1)
                     + history_size [("user", "hi"); ("Ada", "hello")])
    by (vm_compute; discriminate).
  split; [exact int64_1 |]. split; [exact id_left_s1 |]. split; [exact totals_s1 |].
  split; [exact Hsize |].
  exact (updated_chat_is_read_back (E := Bareword.engine) (fun b => Returns b) 1 "intro"
           [("user", "hi"); ("Ada", "hello")] None false [("user", "bye")] Run.s1
           int64_1 id_left_s1 totals_s1 Hsize).
Defined.

Lemma refused_update_changes_nothing_witness :
  int64 1 /\ id_left CharacterChats (file Run.s1)
  /\ counted_history (file Run.s1) + history_size [("hi", "hello")]
     < history_size [("hi", "hello"); ("how are you", "fine")]
  /\ (let added := add_character_chat (E := Bareword.engine) 1 "intro" [("hi", "hello")]
                     None false Run.s1 in
      exists chat_id,
        fst added = Returns (PyInt chat_id)
        /\ let updated := update_character_chat (E := Bareword.engine) chat_id
                            [("hi", "hello"); ("how are you", "fine")] (snd added) in
           fst updated = Returns false
           /\ file (snd updated) = file (snd added)
           /\ fst (get_character_chat_by_id (E := Bareword.engine) (fun b => Returns b)
                                            chat_id (snd updated))
              = Returns (PyDict [ ("id", PyInt chat_id);
                                  ("character_id", PyInt 1);
                                  ("conversation_name", PyStr "intro");
                                  ("chat_history", loaded_history [("hi", "hello")]);
                                  ("is_snapshot", PyInt (if false then 1 else 0));
                                  ("created_at", PyStr (clock Run.s1)) ])).
Proof.
  assert (Hsize : counted_history (file Run.s1) + history_size [("hi", "hello")]
                  < history_size [("hi", "hello"); ("how are you", "fine")])
    by (vm_compute; reflexivity).
  split; [exact int64_1 |]. split; [exact id_left_s1 |]. split; [exact Hsize |].
  exact (refused_update_changes_nothing (E := Bareword.engine) (fun b => Returns b) 1
           "intro" [("hi", "hello")] None false [("hi", "hello"); ("how are you", "fine")]
           Run.s1 int64_1 id_left_s1 Hsize).
Defined.

(** One chat with the history hi/hello: FTS5 has counted two tokens, and
    refuses a history of six; with a second chat of four tokens it has
    counted six, and accepts it. *)
Example update_needs_counted_tokens :
  let one := snd (add_character_chat (E := Bareword.engine) 1 "intro" [("hi", "hello")]
                    None false Run.s1) in
  let two := snd (add_character_chat (E := Bareword.engine) 1 "other"
                    [("user", "hi"); ("Ada", "hello")] None false one) in
  counted_history (file one) = 2
  /\ history_size [("hi", "hello"); ("how are you", "fine")] = 6
  /\ fst (update_character_chat (E := Bareword.engine) 1
             [("hi", "hello"); ("how are you", "fine")] one) = Returns false
  /\ counted_history (file two) = 6
  /\ fst (update_character_chat (E := Bareword.engine) 1
             [("hi", "hello"); ("how are you", "fine")] two) = Returns true.
Proof. evaluate. Qed.

Lemma deleted_is_not_found_witness :
  int64 1
  /\ (fst (get_character_chat_by_id (E := Bareword.engine) (fun b => Returns b) 1
                                    (snd (delete_character_chat (E := Bareword.engine) 1
                                            Run.s2)))
        = Returns PyNone
      /\ fst (get_character_card_by_id (E := Bareword.engine) (PyInt 1)
                 (snd (delete_character_card (E := Bareword.engine) 1 Run.s2)))
         = Returns PyNone
      /\ fst (get_character_chats (E := Bareword.engine) (Some 1)
                 (snd (delete_character_card (E := Bareword.engine) 1 Run.s2)))
         = Returns []).
Proof.
  split; [exact int64_1 |].
  exact (deleted_is_not_found (E := Bareword.engine) (fun b => Returns b) 1 Run.s2 int64_1).
Defined.

Lemma id_left_after_delete :
  id_left CharacterChats
    (file (fold_left (fun s c => after (E := Bareword.engine) c s)
             [Delete_character_chat 1]
             (snd (add_character_chat (E := Bareword.engine) 1 "first" [] None false
                     Run.s1)))).
Proof. vm_compute. discriminate. Qed.

Lemma chat_ids_are_not_reused_witness :
  int64 1 /\ int64 1
  /\ (let first := add_character_chat (E := Bareword.engine) 1 "first" [] None false
                     Run.s1 in
      let before_later := fold_left (fun s c => after (E := Bareword.engine) c s)
                            [Delete_character_chat 1] (snd first) in
      id_left CharacterChats (file before_later)
      /\ (let later := add_character_chat (E := Bareword.engine) 1 "second" [] None false
                         before_later in
          exists id id',
            fst first = Returns (PyInt id) /\ fst later = Returns (PyInt id')
            /\ id < id')).
Proof.
  split; [exact int64_1 |]. split; [exact int64_1 |]. cbv zeta.
  split; [exact id_left_after_delete |].
  exact (chat_ids_are_not_reused (E := Bareword.engine) 1 "first" [] None false
           [Delete_character_chat 1] 1 "second" [] None false Run.s1
           int64_1 int64_1 id_left_after_delete).
Defined.

Lemma add_character_card_needs_image_witness :
  Dict.contains [("name", PyStr "Ada"); ("tags", PyList [PyStr "math"])] "image" = false
  /\ (fst (add_character_card (E := Bareword.engine)
             [("name", PyStr "Ada"); ("tags", PyList [PyStr "math"])] Run.s0)
        = Returns PyNone
      /\ file (snd (add_character_card (E := Bareword.engine)
                      [("name", PyStr "Ada"); ("tags", PyList [PyStr "math"])] Run.s0))
         = file Run.s0).
Proof.
  split; [reflexivity |].
  apply (add_character_card_needs_image (E := Bareword.engine)
           [("name", PyStr "Ada"); ("tags", PyList [PyStr "math"])] Run.s0).
  reflexivity.
Defined.












Lemma hello_plain : plain_texts ["CharacterChats_fts"] [].
Proof. split; reflexivity. Qed.

Lemma hello_condition :
  search_db_condition (E := Bareword.engine) "hello" ["CharacterChats_fts"]
    (disjunction []) = Some hello_test.
Proof. reflexivity. Qed.

Lemma search_db_page_below_one_witness :
  plain_texts ["CharacterChats_fts"] []
  /\ Str.blank "hello" = false
  /\ search_db_condition (E := Bareword.engine) "hello" ["CharacterChats_fts"]
       (disjunction []) = Some hello_test
  /\ -2 <= 1 /\ 0 <= 5 /\ int64 5 /\ int64 ((-2 - 1) * 5)
  /\ exists ranked_,
       Permutation ranked_ (chats_passing hello_test (file Run.s7))
       /\ fst (search_db (E := Bareword.engine) "hello" ["CharacterChats_fts"]
                 (disjunction []) (-2) 5 Run.s7)
          = Returns (firstn (Z.to_nat 5) (map search_row ranked_))
       /\ fst (search_db (E := Bareword.engine) "hello" ["CharacterChats_fts"]
                 (disjunction []) 1 5 Run.s7)
          = Returns (firstn (Z.to_nat 5) (map search_row ranked_)).
Proof.
  assert (H1 : -2 <= 1) by lia. assert (H2 : 0 <= 5) by lia.
  assert (H3 : int64 5) by (unfold int64; lia).
  assert (H4 : int64 ((-2 - 1) * 5)) by (unfold int64; lia).
  split; [exact hello_plain |]. split; [reflexivity |]. split; [exact hello_condition |].
  split; [exact H1 |]. split; [exact H2 |]. split; [exact H3 |]. split; [exact H4 |].
  exact (search_db_page_below_one (E := Bareword.engine) "hello" ["CharacterChats_fts"] []
           hello_test (-2) 5 Run.s7 hello_plain eq_refl hello_condition H1 H2 H3 H4).
Defined.

Lemma search_db_negative_page_size_witness :
  plain_texts ["CharacterChats_fts"] []
  /\ Str.blank "hello" = false
  /\ search_db_condition (E := Bareword.engine) "hello" ["CharacterChats_fts"]
       (disjunction []) = Some hello_test
  /\ -1 < 0 /\ int64 (-1)
  /\ exists found,
       fst (search_db (E := Bareword.engine) "hello" ["CharacterChats_fts"]
              (disjunction []) 1 (-1) Run.s7)
       = Returns found
       /\ Permutation found (map search_row (chats_passing hello_test (file Run.s7))).
Proof.
  assert (H1 : -1 < 0) by lia. assert (H2 : int64 (-1)) by (unfold int64; lia).
  split; [exact hello_plain |]. split; [reflexivity |]. split; [exact hello_condition |].
  split; [exact H1 |]. split; [exact H2 |].
  exact (search_db_negative_page_size (E := Bareword.engine) "hello"
           ["CharacterChats_fts"] [] hello_test (-1) Run.s7
           hello_plain eq_refl hello_condition H1 H2).
Defined.

Lemma search_character_chats_refused_query_witness :
  Str.blank "hello(" = false
  /\ fts5_match (Engine := Bareword.engine) "hello(" = None
  /\ exists message,
       fst (search_character_chats (E := Bareword.engine) "hello(" (Some 1) Run.s2)
       = Returns ([], "Error occurred during search: " +++ message)
       /\ file (snd (search_character_chats (E := Bareword.engine) "hello(" (Some 1) Run.s2))
          = file Run.s2.
Proof.
  split; [reflexivity |]. split; [reflexivity |].
  apply (search_character_chats_refused_query (E := Bareword.engine) "hello(" (Some 1)
           Run.s2); reflexivity.
Defined.

Lemma reachable_s2 : reachable (E := Bareword.engine) Run.s2.
Proof.
  exact (reachable_call
           (Add_character_chat 1 "intro" [("user", "hi"); ("Ada", "hello")] None false)
           _ reachable_s1).
Qed.

Lemma chat_ids_unique_s2 : chat_ids_unique (file Run.s2).
Proof. apply (reachable_unique (E := Bareword.engine)), reachable_s2. Qed.

Lemma delete_character_card_spec_witness :
  int64 1 /\ chat_ids_unique (file Run.s2)
  /\ (let r := delete_character_card (E := Bareword.engine) 1 Run.s2 in
      fst r = Returns (existsb (fun c => sql_eq INTEGER (row_id c) (VInt 1))
                               (rows_CharacterCards (file Run.s2)))
      /\ (forall c, In c (rows_CharacterChats (file (snd r))) ->
                    row_get c "character_id" <> VInt 1)
      /\ (forall c, In c (rows_CharacterCards (file (snd r))) -> row_id c <> VInt 1)
      /\ CharacterChats_fts (file (snd r)) = CharacterChats_fts (file Run.s2)
      /\ CharacterChats_fts_totals (file (snd r)) = CharacterChats_fts_totals (file Run.s2)
      /\ log (snd r)
         = log Run.s2 ++ [ Connect;
                           Execute (DELETE_FROM CharacterChats ["character_id"]) [PyInt 1];
                           Execute (DELETE_FROM CharacterCards ["id"]) [PyInt 1];
                           Commit; Close ]).
Proof.
  split; [exact int64_1 |]. split; [exact chat_ids_unique_s2 |].
  exact (delete_character_card_spec (E := Bareword.engine) 1 Run.s2 int64_1
           chat_ids_unique_s2).
Defined.

Lemma delete_character_chat_spec_witness :
  int64 1 /\ chat_ids_unique (file Run.s2)
  /\ (let r := delete_character_chat (E := Bareword.engine) 1 Run.s2 in
      fst r = Returns (existsb (fun c => sql_eq INTEGER (row_id c) (VInt 1))
                               (rows_CharacterChats (file Run.s2)))
      /\ rows_CharacterChats (file (snd r))
         = filter (fun c => negb (sql_eq INTEGER (row_id c) (VInt 1)))
                  (rows_CharacterChats (file Run.s2))
      /\ CharacterChats_fts (file (snd r)) = CharacterChats_fts (file Run.s2)
      /\ CharacterChats_fts_totals (file (snd r))
         = CharacterChats_fts_totals (file Run.s2)).
Proof.
  split; [exact int64_1 |]. split; [exact chat_ids_unique_s2 |].
  exact (delete_character_chat_spec (E := Bareword.engine) 1 Run.s2 int64_1
           chat_ids_unique_s2).
Defined.


(** ** The path of a database file *)

Lemma after_last_sep_spec (p : string) :
  match Posixpath.after_last_sep p with
  | Some tail => Posixpath.has_sep tail = false
  | None => Posixpath.has_sep p = false
  end.
Proof.
  induction p as [|c p IH]; cbn [Posixpath.after_last_sep Posixpath.has_sep];
    [reflexivity |].
  destruct (Posixpath.after_last_sep p) as [tail|]; [exact IH |].
  destruct (Posixpath.is_sep c); [exact IH | now rewrite IH].
Qed.

Lemma basename_has_no_sep (p : string) : Posixpath.has_sep (Posixpath.basename p) = false.
Proof.
  unfold Posixpath.basename. pose proof (after_last_sep_spec p) as H.
  now destruct (Posixpath.after_last_sep p).
Qed.

Lemma basename_of_name (p : string) :
  Posixpath.has_sep p = false -> Posixpath.basename p = p.
Proof.
  intros H. unfold Posixpath.basename.
  assert (Posixpath.after_last_sep p = None) as ->; [| reflexivity].
  induction p as [|c p IH]; [reflexivity |].
  cbn [Posixpath.has_sep] in H. apply orb_false_elim in H as [Hc Hp].
  cbn [Posixpath.after_last_sep]. now rewrite (IH Hp), Hc.
Qed.

Lemma endswith_sep_append (a b : string) :
  b <> EmptyString ->
  Posixpath.endswith_sep (a +++ b) = Posixpath.endswith_sep b.
Proof.
  intros Hb. induction a as [|c a IH]; [reflexivity |].
  cbn [String.append Posixpath.endswith_sep].
  destruct (a +++ b) eqn:E; [| exact IH].
  destruct a; [cbn in E; congruence | discriminate E].
Qed.

Lemma database_dir_is_a_directory_name (root : string) :
  Posixpath.join root "Databases" <> EmptyString
  /\ Posixpath.endswith_sep (Posixpath.join root "Databases") = false.
Proof.
  unfold Posixpath.join. cbn [Posixpath.startswith_sep Posixpath.is_sep Ascii.eqb Bool.eqb].
  destruct ((root =? EmptyString)%string || Posixpath.endswith_sep root).
  - split; [destruct root; discriminate |].
    now rewrite endswith_sep_append.
  - split; [destruct root; discriminate |].
    now rewrite endswith_sep_append.
Qed.

(** A name with a '/' is a directory part, a '/', and what
    [after_last_sep] finds. *)
Lemma after_last_sep_splits (p : string) :
  match Posixpath.after_last_sep p with
  | Some tail => exists directory, p = directory +++ String "/" tail
  | None => True
  end.
Proof.
  induction p as [|c p IH]; cbn [Posixpath.after_last_sep]; [exact I |].
  destruct (Posixpath.after_last_sep p) as [tail|].
  - destruct IH as [directory ->]. now exists (String c directory).
  - unfold Posixpath.is_sep. destruct (Ascii.eqb_spec c "/") as [-> |]; [| exact I].
    now exists EmptyString.
Qed.

Lemma has_sep_after_last_sep (p : string) :
  Posixpath.has_sep p = true -> Posixpath.after_last_sep p <> None.
Proof.
  induction p as [|c p IH]; cbn [Posixpath.has_sep Posixpath.after_last_sep];
    [discriminate |].
  intros H. destruct (Posixpath.after_last_sep p) as [tail|]; [discriminate |].
  destruct (Posixpath.is_sep c); [discriminate |].
  cbn [orb] in H. now destruct (IH H).
Qed.

(** X21.  On POSIX, what [get_database_path(db_name)] returns is the
    Databases directory of the project, a '/', and a file name without a
    '/', which is the part of [db_name] after its last '/': [db_name]
    itself when it has no '/', and otherwise what is left of [db_name]
    when a directory part and a '/' are taken from its front. *)
Theorem database_path_is_in_databases (project_root : string)
    (makedirs : string -> outcome unit) (db_name path : string) :
  get_database_path project_root makedirs db_name = Returns path ->
  exists file_name,
    path = Posixpath.join project_root "Databases" +++ String "/" file_name
    /\ Posixpath.has_sep file_name = false
    /\ (Posixpath.has_sep db_name = false -> file_name = db_name)
    /\ (Posixpath.has_sep db_name = true ->
        exists directory, db_name = directory +++ String "/" file_name).
Proof.
  unfold get_database_path, get_database_dir.
  destruct (makedirs _); [| discriminate].
  intros H. injection H as <-.
  exists (Posixpath.basename db_name).
  pose proof (basename_has_no_sep db_name) as Hb.
  destruct (database_dir_is_a_directory_name project_root) as [Hne Hend].
  split; [| split; [exact Hb | split; [apply basename_of_name |]]].
  - unfold Posixpath.join at 1.
    assert (Posixpath.startswith_sep (Posixpath.basename db_name) = false) as ->.
    { destruct (Posixpath.basename db_name) as [|c tail]; [reflexivity |].
      cbn [Posixpath.has_sep] in Hb. apply orb_false_elim in Hb as [Hc _]. exact Hc. }
    rewrite Hend, orb_false_r.
    destruct (String.eqb_spec (Posixpath.join project_root "Databases") EmptyString);
      [contradiction | reflexivity].
  - intros Hsep. apply has_sep_after_last_sep in Hsep.
    pose proof (after_last_sep_splits db_name) as Hsplit.
    unfold Posixpath.basename.
    destruct (Posixpath.after_last_sep db_name) as [tail|]; [exact Hsplit | contradiction].
Qed.

Lemma database_path_is_in_databases_witness :
  get_database_path "/srv/tldw" (fun _ => Returns tt) "../../etc/chatDB.db"
    = Returns "/srv/tldw/Databases/chatDB.db"
  /\ exists file_name,
       "/srv/tldw/Databases/chatDB.db"
       = Posixpath.join "/srv/tldw" "Databases" +++ String "/" file_name
       /\ Posixpath.has_sep file_name = false
       /\ (Posixpath.has_sep "../../etc/chatDB.db" = false
           -> file_name = "../../etc/chatDB.db")
       /\ (Posixpath.has_sep "../../etc/chatDB.db" = true
           -> exists directory, "../../etc/chatDB.db" = directory +++ String "/" file_name).
Proof.
  split; [reflexivity |].
  apply (database_path_is_in_databases "/srv/tldw" (fun _ => Returns tt)
           "../../etc/chatDB.db" "/srv/tldw/Databases/chatDB.db").
  reflexivity.
Defined.

Section All_chats.
Context {E : Engine}.

Lemma id_of_chat (r : row) :
  Dict.lookup (chat_of_row r) "id" = Some (py_of_value (row_id r)).
Proof. reflexivity. Qed.

(** X22.  In every state of the file the module can bring about, the chats
    [fetch_all_chats] returns are the rows of CharacterChats, one chat per
    row, and no two of them have the same id. *)
Theorem fetched_chats_have_different_ids (s : store) :
  reachable s ->
  List.length (result (fst (fetch_all_chats s)))
    = List.length (rows_CharacterChats (file s))
  /\ NoDup (ids_of (result (fst (fetch_all_chats s)))).
Proof.
  intros Hs. unfold fetch_all_chats, except_Exception.
  destruct (get_character_chats_run None s) as [-> _]. cbn [fst result].
  rewrite filter_keeps_all by reflexivity. split; [apply length_map |].
  unfold ids_of. rewrite map_map.
  rewrite (map_ext _ (fun r => Some (py_of_value (row_id r))))
    by (intros r; apply id_of_chat).
  rewrite <- (map_map row_id (fun v => Some (py_of_value v))).
  apply NoDup_map_NoDup_ForallPairs.
  - intros a b _ _ Hab. injection Hab as Hab. now apply py_of_value_inj.
  - apply reachable_unique, Hs.
Qed.

End All_chats.

Lemma fetched_chats_have_different_ids_witness :
  reachable (E := Bareword.engine) Run.s7
  /\ List.length (result (fst (fetch_all_chats (E := Bareword.engine) Run.s7)))
       = List.length (rows_CharacterChats (file Run.s7))
  /\ NoDup (ids_of (result (fst (fetch_all_chats (E := Bareword.engine) Run.s7)))).
Proof.
  split; [exact reachable_s7 |].
  exact (fetched_chats_have_different_ids (E := Bareword.engine) Run.s7 reachable_s7).
Defined.
